(** * Truth extraction of graphnet: the extractor of
    [graphnet/data/extractors/i3truthextractor.py] and its base class of
    [graphnet/data/extractors/i3extractor.py], embedded and verified.

    Python floats are IEEE binary64 numbers: they are the primitive floats of
    Rocq, with the same rounding.  Python dictionaries that the extractor
    builds keep their insertion order and are association lists; the maps
    the extractor only reads (filter masks, weight dictionaries) are finite
    maps.  Exceptions are explicit results.  The particle tree is the one
    object of a frame that the extractor could change, by its assignment to
    the energy of a particle it got from the tree: whether that assignment
    reaches the tree is icecube's and a parameter here, and the functions
    on its way return the frame they leave behind. *)

From Stdlib Require Import ZArith Ascii String.
From Stdlib Require Import Floats.PrimFloat Floats.SpecFloat Floats.FloatOps.
From Stdlib Require Import Numbers.Cyclic.Int63.Uint63.
From stdpp Require Import base option list strings gmap.

Set Warnings "-inexact-float,-register-all".

Local Open Scope string_scope.
Local Open Scope Z_scope.

(** ** Python values, exceptions and results *)

Inductive pyval : Type :=
| PyInt (n : Z)
| PyFloat (f : float)
| PyStr (s : string)
| PyBool (b : bool)
| PyNone.

(** The exceptions the extractor can meet. *)
Inductive exn : Type :=
| KeyError
| IndexError
| TypeError
| AttributeError
| ZeroDivisionError
| AssertionError
| UnboundLocalError.

Definition exn_name (e : exn) : string :=
  match e with
  | KeyError => "KeyError"
  | IndexError => "IndexError"
  | TypeError => "TypeError"
  | AttributeError => "AttributeError"
  | ZeroDivisionError => "ZeroDivisionError"
  | AssertionError => "AssertionError"
  | UnboundLocalError => "UnboundLocalError"
  end.

Inductive result (A : Type) : Type :=
| Ok (a : A)
| Raise (e : exn).
Arguments Ok {A} a.
Arguments Raise {A} e.

Definition bind {A B : Type} (m : result A) (k : A -> result B) : result B :=
  match m with
  | Ok a => k a
  | Raise e => Raise e
  end.

Declare Scope py_scope.
Delimit Scope py_scope with py.
Notation "x <- m ;; k" := (bind m (fun x => k))
  (at level 100, m at next level, right associativity) : py_scope.
Local Open Scope py_scope.

(** [try: body except KeyError: handler]. *)
Definition except_KeyError {A : Type} (body handler : result A) : result A :=
  match body with
  | Raise KeyError => handler
  | r => r
  end.

(** [d[k]] on an optional object: a missing key raises [KeyError]. *)
Definition getitem {A : Type} (o : option A) : result A :=
  match o with
  | Some a => Ok a
  | None => Raise KeyError
  end.

(** [l[i]] on a sequence: an index out of range raises [IndexError]. *)
Definition index {A : Type} (l : list A) (i : nat) : result A :=
  match l !! i with
  | Some a => Ok a
  | None => Raise IndexError
  end.

(** ** Strings *)

(** [needle in s]: the substring test of Python. *)
Fixpoint str_in (needle s : string) : bool :=
  String.prefix needle s
  || match s with
     | EmptyString => false
     | String _ s' => str_in needle s'
     end.

Definition ascii_lower (c : ascii) : ascii :=
  let n := nat_of_ascii c in
  if ((65 <=? n)%nat && (n <=? 90)%nat)%bool then ascii_of_nat (n + 32) else c.

(** [s.lower()], on the letters A to Z. *)
Fixpoint lower (s : string) : string :=
  match s with
  | EmptyString => EmptyString
  | String c s' => String (ascii_lower c) (lower s')
  end.

(** ** Floats *)

Definition float_ne (a b : float) : bool := negb (PrimFloat.eqb a b).

(** [float(n)]: the float nearest to the integer, ties to even.  Beyond the
    largest float this is an infinity, where Python raises [OverflowError];
    the extractor converts the integers 0 and 13 only. *)
Definition float_of_Z (n : Z) : float :=
  SF2Prim (binary_normalize prec emax n 0 false).

(** [a / b] on floats: Python raises on a zero divisor. *)
Definition truediv (a b : float) : result float :=
  if PrimFloat.eqb b 0%float then Raise ZeroDivisionError
  else Ok (PrimFloat.div a b).

(** The float a numeric value stands for in float arithmetic and in
    [np.array]. *)
Definition as_float (v : pyval) : result float :=
  match v with
  | PyFloat f => Ok f
  | PyInt n => Ok (float_of_Z n)
  | PyBool b => Ok (if b then 1%float else 0%float)
  | PyStr _ | PyNone => Raise TypeError
  end.

(** ** Dictionaries built by the extractor *)

Definition dict : Type := list (string * pyval).

Fixpoint dict_get (d : dict) (k : string) : option pyval :=
  match d with
  | [] => None
  | (k', v) :: d' => if String.eqb k k' then Some v else dict_get d' k
  end.

(** [d[k] = v]: the value of an existing key is replaced in place, a new key
    goes to the end. *)
Fixpoint dict_set (d : dict) (k : string) (v : pyval) : dict :=
  match d with
  | [] => [(k, v)]
  | (k', v') :: d' =>
      if String.eqb k k' then (k', v) :: d' else (k', v') :: dict_set d' k v
  end.

(** [d.update(u)]. *)
Definition dict_update (d u : dict) : dict :=
  fold_left (fun acc kv => dict_set acc (fst kv) (snd kv)) u d.

Definition keys (d : dict) : list string := map fst d.

(** ** Simulation type: [I3TruthExtractor._find_data_type] *)

(** [input_file] is [self._i3_file], which is [None] until [set_files] has
    run; [x in None] raises [TypeError].  The last test of the method only
    logs, and on a tag that no rule assigns. *)
Definition _find_data_type (mc : bool) (input_file : option string)
  : result string :=
  let sim_type := if negb mc then "data" else "NuGen" in
  match input_file with
  | None => Raise TypeError
  | Some input_file =>
      let sim_type := if str_in "muon" input_file then "muongun" else sim_type in
      let sim_type := if str_in "corsika" input_file then "corsika" else sim_type in
      let sim_type :=
        if str_in "genie" input_file || str_in "nu" (lower input_file)
        then "genie" else sim_type in
      let sim_type := if str_in "noise" input_file then "noise" else sim_type in
      let sim_type := if str_in "L2" input_file then "dbang" else sim_type in
      Ok sim_type
  end.

(** The classifier as the specification words it: an ordered table of rules,
    the last rule that matches decides, the start tag when none does. *)
Definition sim_rules : list ((string -> bool) * string) :=
  [ (str_in "muon", "muongun");
    (str_in "corsika", "corsika");
    ((fun p => str_in "genie" p || str_in "nu" (lower p)), "genie");
    (str_in "noise", "noise");
    (str_in "L2", "dbang") ].

Definition last_match_wins (mc : bool) (path : string) : string :=
  match find (fun r => fst r path) (rev sim_rules) with
  | Some r => snd r
  | None => if mc then "NuGen" else "data"
  end.

Definition sim_tags : list string :=
  ["data"; "NuGen"; "muongun"; "corsika"; "genie"; "noise"; "dbang"].

(** ** The data model: the frame objects of icecube that the extractor reads *)

Module I3Position.
Record t : Type := mk { x : float; y : float; z : float }.
End I3Position.

Module I3Direction.
Record t : Type := mk { azimuth : float; zenith : float }.
End I3Direction.

(** [I3Particle.type]: the code only asks whether it is [Hadrons]. *)
Inductive ParticleType : Type :=
| Hadrons
| OtherType (code : Z).

Definition is_Hadrons (ty : ParticleType) : bool :=
  match ty with
  | Hadrons => true
  | OtherType _ => false
  end.

Module I3Particle.
(** [shape] holds [str(particle.shape)].  [total_energy] is an attribute
    the extractor only reads, and reads only of the first primary and of its
    direct daughters; the one assignment of the extractor, to [energy], is to
    a daughter of such a daughter. *)
Record t : Type := mk {
  energy : float;
  pos : I3Position.t;
  dir : I3Direction.t;
  pdg_encoding : Z;
  type : ParticleType;
  shape : string;
  length : float;
  total_energy : float
}.

(** [particle.energy = e]. *)
Definition set_energy (p : t) (e : float) : t :=
  mk e (pos p) (dir p) (pdg_encoding p) (type p) (shape p) (length p)
     (total_energy p).
End I3Particle.

Module I3MCTree.
(** A particle of the tree with the subtrees of its daughters. *)
Inductive node : Type :=
| Node (particle : I3Particle.t) (daughters : list node).

(** The tree: its primaries, in order. *)
Definition t : Type := list node.

Definition particle (n : node) : I3Particle.t :=
  match n with Node p _ => p end.

Definition primaries (tree : t) : list node := tree.

Definition get_daughters (n : node) : list node :=
  match n with Node _ ds => ds end.

(** Iteration order: a particle, then the subtrees of its daughters. *)
Fixpoint flatten (n : node) : list I3Particle.t :=
  match n with
  | Node p ds => p :: concat (map flatten ds)
  end.

(** [tree[i]]: the i-th particle in iteration order. *)
Definition item (tree : t) (i : nat) : result I3Particle.t :=
  index (concat (map flatten tree)) i.
End I3MCTree.

Module I3EventHeader.
(** [utc_daq_time] is [start_time.utc_daq_time]. *)
Record t : Type := mk {
  utc_daq_time : Z;
  run_id : Z;
  sub_run_id : Z;
  event_id : Z;
  sub_event_id : Z;
  sub_event_stream : string
}.
End I3EventHeader.

Module I3Frame.
(** A frame: each key the extractor asks for is present or not.  A filter
    result and an [I3Bool] are held by the truth value [int] and [bool]
    give them. *)
Record t : Type := mk {
  I3EventHeader : option I3EventHeader.t;
  FilterMask : option (gmap string bool);
  DeepCoreFilter_13 : option bool;
  L3_oscNext_bool : option bool;
  L4_oscNext_bool : option bool;
  L5_oscNext_bool : option bool;
  L6_oscNext_bool : option bool;
  L7_oscNext_bool : option bool;
  MCInIcePrimary : option I3Particle.t;
  I3MCTree : option I3MCTree.t;
  I3MCWeightDict : option (gmap string float);
  I3GENIEResultDict : option (gmap string float)
}.

(** The frame whose tree object is in the state [tree]. *)
Definition with_tree (frame : t) (tree : I3MCTree.t) : t :=
  mk (I3EventHeader frame) (FilterMask frame) (DeepCoreFilter_13 frame)
     (L3_oscNext_bool frame) (L4_oscNext_bool frame) (L5_oscNext_bool frame)
     (L6_oscNext_bool frame) (L7_oscNext_bool frame) (MCInIcePrimary frame)
     (Some tree) (I3MCWeightDict frame) (I3GENIEResultDict frame).

(** The frame with the top-level key [DeepCoreFilter_13] set or removed. *)
Definition with_DeepCoreFilter_13 (frame : t) (v : option bool) : t :=
  mk (I3EventHeader frame) (FilterMask frame) v
     (L3_oscNext_bool frame) (L4_oscNext_bool frame) (L5_oscNext_bool frame)
     (L6_oscNext_bool frame) (L7_oscNext_bool frame) (MCInIcePrimary frame)
     (I3MCTree frame) (I3MCWeightDict frame) (I3GENIEResultDict frame).
End I3Frame.

(** What the extractor calls and the repository does not hold: the two
    frame tests of [graphnet.data.extractors.utilities], numpy's cosine and
    sine, matplotlib's [Path(vertices).contains_point(point, radius)], and
    icecube's position equality, [I3Calculator.distance] and [I3Units.m].
    [daughters_are_shared] says what [I3MCTree.get_daughters] hands out: the
    tree's own particle objects, so that an assignment to an attribute of
    one of them is seen through the tree, or copies of them, as for the
    value-like particles of the specification. *)
Class Externals : Type := {
  frame_is_montecarlo : I3Frame.t -> bool;
  frame_is_noise : I3Frame.t -> bool;
  np_cos : float -> float;
  np_sin : float -> float;
  contains_point : list (float * float) -> float * float -> float -> bool;
  I3Position_eq : I3Position.t -> I3Position.t -> bool;
  I3Calculator_distance : I3Particle.t -> I3Particle.t -> float;
  I3Units_m : float;
  daughters_are_shared : bool
}.

(** ** The extractor object *)

Definition borders_t : Type := list (float * float) * (float * float).

(** The members of [I3Extractor] the truth extractor reads, and its
    borders.  The geometry that [set_files] loads from the GCD file is not
    read by this extractor. *)
Record I3TruthExtractor : Type := {
  _i3_file : option string;
  _gcd_file : option string;
  _name : string;
  _borders : borders_t
}.

Definition default_border_xy : list (float * float) :=
  [ (-256.1400146484375, -521.0800170898438);
    (-132.8000030517578, -501.45001220703125);
    (-9.13000011444092, -481.739990234375);
    (114.38999938964844, -461.989990234375);
    (237.77999877929688, -442.4200134277344);
    (361.0, -422.8299865722656);
    (405.8299865722656, -306.3800048828125);
    (443.6000061035156, -194.16000366210938);
    (500.42999267578125, -58.45000076293945);
    (544.0700073242188, 55.88999938964844);
    (576.3699951171875, 170.9199981689453);
    (505.2699890136719, 257.8800048828125);
    (429.760009765625, 351.0199890136719);
    (338.44000244140625, 463.7200012207031);
    (224.5800018310547, 432.3500061035156);
    (101.04000091552734, 412.7900085449219);
    (22.11000061035156, 509.5);
    (-101.05999755859375, 490.2200012207031);
    (-224.08999633789062, 470.8599853515625);
    (-347.8800048828125, 451.5199890136719);
    (-392.3800048828125, 334.239990234375);
    (-437.0400085449219, 217.8000030517578);
    (-481.6000061035156, 101.38999938964844);
    (-526.6300048828125, -15.60000038146973);
    (-570.9000244140625, -125.13999938964844);
    (-492.42999267578125, -230.16000366210938);
    (-413.4599914550781, -327.2699890136719);
    (-334.79998779296875, -424.5) ]%float.

Definition default_border_z : float * float := (-512.82, 524.56)%float.

(** [I3TruthExtractor.__init__(name, borders)], on top of
    [I3Extractor.__init__]. *)
Definition __init__ (name : string) (borders : option borders_t)
  : I3TruthExtractor :=
  {| _i3_file := None;
     _gcd_file := None;
     _name := name;
     _borders := match borders with
                 | None => (default_border_xy, default_border_z)
                 | Some b => b
                 end |}.

(** [I3Extractor.set_files(i3_file, gcd_file)]. *)
Definition set_files (self : I3TruthExtractor) (i3_file gcd_file : string)
  : I3TruthExtractor :=
  {| _i3_file := Some i3_file;
     _gcd_file := Some gcd_file;
     _name := _name self;
     _borders := _borders self |}.

(** ** The extractor's methods *)

Section Extractor.

Context {ext : Externals}.

(** [sum(xs)] over floats: the integer 0 when there is nothing to add. *)
Definition py_sum (xs : list float) : pyval :=
  match xs with
  | [] => PyInt 0
  | _ => PyFloat (fold_left PrimFloat.add xs 0%float)
  end.

(** [abs(v) == n] for an integer [n]. *)
Definition abs_eq (v : pyval) (n : Z) : result bool :=
  match v with
  | PyInt k => Ok (Z.abs k =? n)
  | PyBool b => Ok (Z.b2z b =? n)
  | PyFloat f => Ok (PrimFloat.eqb (PrimFloat.abs f) (float_of_Z n))
  | PyStr _ | PyNone => Raise TypeError
  end.

(** [particle.attribute] where [particle] may be [None]. *)
Definition deref (o : option I3Particle.t) : result I3Particle.t :=
  match o with
  | Some p => Ok p
  | None => Raise AttributeError
  end.

(** A local variable that is read: unbound when no branch assigned it. *)
Definition local {A : Type} (o : option A) : result A :=
  match o with
  | Some a => Ok a
  | None => Raise UnboundLocalError
  end.

(** [I3TruthExtractor._get_primary_particle_interaction_type_and_elasticity]. *)
Definition _get_primary_particle_interaction_type_and_elasticity
    (frame : I3Frame.t) (sim_type : string) (padding_value : pyval)
  : result (option I3Particle.t * pyval * pyval) :=
  MCInIcePrimary <-
    (if negb (String.eqb sim_type "noise") then
       MCInIcePrimary <-
         except_KeyError
           (getitem (I3Frame.MCInIcePrimary frame))
           (tree <- getitem (I3Frame.I3MCTree frame) ;; I3MCTree.item tree 0) ;;
       MCInIcePrimary <-
         (if float_ne (I3Particle.energy MCInIcePrimary)
                      (I3Particle.energy MCInIcePrimary)
          then tree <- getitem (I3Frame.I3MCTree frame) ;; I3MCTree.item tree 1
          else Ok MCInIcePrimary) ;;
       Ok (Some MCInIcePrimary)
     else Ok None) ;;
  interaction_type <-
    except_KeyError
      (d <- getitem (I3Frame.I3MCWeightDict frame) ;;
       v <- getitem (d !! "InteractionType") ;;
       Ok (PyFloat v))
      (Ok padding_value) ;;
  elasticity <-
    except_KeyError
      (d <- getitem (I3Frame.I3GENIEResultDict frame) ;;
       v <- getitem (d !! "y") ;;
       Ok (PyFloat v))
      (Ok padding_value) ;;
  Ok (MCInIcePrimary, interaction_type, elasticity).

Definition is_track (daughter : I3MCTree.node) : bool :=
  String.eqb (I3Particle.shape (I3MCTree.particle daughter)) "StartingTrack"
  || String.eqb (I3Particle.shape (I3MCTree.particle daughter)) "Dark".

(** [I3TruthExtractor._get_primary_track_energy_and_inelasticity]. *)
Definition _get_primary_track_energy_and_inelasticity (frame : I3Frame.t)
  : result (pyval * pyval) :=
  mc_tree <- getitem (I3Frame.I3MCTree frame) ;;
  primary <- index (I3MCTree.primaries mc_tree) 0 ;;
  let daughters := I3MCTree.get_daughters primary in
  let tracks := filter is_track daughters in
  let energy_total := I3Particle.total_energy (I3MCTree.particle primary) in
  let energy_track :=
    py_sum (map (fun track => I3Particle.total_energy (I3MCTree.particle track))
                tracks) in
  num <- as_float energy_track ;;
  ratio <- truediv num energy_total ;;
  let inelasticity := PrimFloat.sub 1%float ratio in
  Ok (energy_track, PyFloat inelasticity).

(** The first loop of the decay-length search: [casc_0_true] is the last
    daughter of type [Hadrons], [hnl_true] the last other daughter, kept
    with its place among the daughters. *)
Definition classify_daughters (p_daughters : list I3MCTree.node)
  : option I3MCTree.node * option (nat * I3MCTree.node) :=
  fold_left
    (fun locals jd =>
       if is_Hadrons (I3Particle.type (I3MCTree.particle (snd jd)))
       then (Some (snd jd), snd locals)
       else (fst locals, Some jd))
    (imap pair p_daughters) (None, None).

(** The second loop, from its second round on: each further daughter must
    sit where [casc_1_true] sits, and its energy is added to
    [casc_1_true.energy].  The particle is returned in the state the loop
    left it in, also when the assertion failed. *)
Fixpoint merge_hnl_daughters (casc_1_true : I3Particle.t)
    (rest : list I3MCTree.node) : result unit * I3Particle.t :=
  match rest with
  | [] => (Ok tt, casc_1_true)
  | hnl_daughter :: rest' =>
      if I3Position_eq (I3Particle.pos casc_1_true)
                       (I3Particle.pos (I3MCTree.particle hnl_daughter))
      then merge_hnl_daughters
             (I3Particle.set_energy casc_1_true
                (PrimFloat.add (I3Particle.energy casc_1_true)
                   (I3Particle.energy (I3MCTree.particle hnl_daughter))))
             rest'
      else (Raise AssertionError, casc_1_true)
  end.

(** [casc_1_true] is the first daughter of the [j]-th daughter of the first
    primary: the tree in which that particle is in the state the merge left
    it in. *)
Definition store_casc_1 (mctree : I3MCTree.t) (j : nat)
    (casc_1_true : I3Particle.t) : I3MCTree.t :=
  match mctree with
  | I3MCTree.Node p_true p_daughters :: others =>
      match p_daughters !! j with
      | Some (I3MCTree.Node hnl_true (I3MCTree.Node _ ds :: hnl_daughters)) =>
          I3MCTree.Node p_true
            (<[j := I3MCTree.Node hnl_true
                      (I3MCTree.Node casc_1_true ds :: hnl_daughters)]>
               p_daughters)
          :: others
      | _ => mctree
      end
  | [] => mctree
  end.

(** The body of the [try] of [_extract_dbang_decay_length], with the tree
    it leaves: the assignment to [casc_1_true.energy] reaches the tree when
    the daughters are shared, and a copy otherwise. *)
Definition dbang_try (mctree : I3MCTree.t) (padding_value : pyval)
  : result pyval * I3MCTree.t :=
  match
    (p_true <- index (I3MCTree.primaries mctree) 0 ;;
     let p_daughters := I3MCTree.get_daughters p_true in
     if (List.length p_daughters =? 2)%nat then
       let locals := classify_daughters p_daughters in
       hnl_true <- local (snd locals) ;;
       Ok (fst locals, Some (fst hnl_true),
           I3MCTree.get_daughters (snd hnl_true))
     else Ok (None, None, []))
  with
  | Raise e => (Raise e, mctree)
  | Ok (casc_0_true, hnl_place, hnl_daughters) =>
      match hnl_daughters, hnl_place with
      | first :: rest, Some j =>
          let merged := merge_hnl_daughters (I3MCTree.particle first) rest in
          let casc_1_true := snd merged in
          let mctree :=
            if daughters_are_shared then store_casc_1 mctree j casc_1_true
            else mctree in
          (_ <- fst merged ;;
           casc_0_true <- local casc_0_true ;;
           decay_length <-
             truediv (I3Calculator_distance (I3MCTree.particle casc_0_true)
                                            casc_1_true)
                     I3Units_m ;;
           Ok (PyFloat decay_length),
           mctree)
      | _, _ => (Ok padding_value, mctree)
      end
  end.

(** [I3TruthExtractor._extract_dbang_decay_length]: the result and the frame
    after the call.  The frame lookup stands before the [try]; the bare
    [except] turns every exception of the body into the padding value. *)
Definition _extract_dbang_decay_length (frame : I3Frame.t)
    (padding_value : pyval) : result pyval * I3Frame.t :=
  match getitem (I3Frame.I3MCTree frame) with
  | Raise e => (Raise e, frame)
  | Ok mctree =>
      let r := dbang_try mctree padding_value in
      (match fst r with
       | Ok decay_length => Ok decay_length
       | Raise _ => Ok padding_value
       end,
       I3Frame.with_tree frame (snd r))
  end.

(** [truth[k]] as a component of a numpy array. *)
Definition truth_float (truth : dict) (k : string) : result float :=
  v <- getitem (dict_get truth k) ;; as_float v.

(** [I3TruthExtractor._muon_stopped].  The products of truth values are
    truth values of numpy: [stopped] is a boolean, equal to 1 or 0. *)
Definition _muon_stopped (truth : dict) (borders : borders_t)
    (horizontal_pad vertical_pad : float) : result dict :=
  let border := fst borders in
  x0 <- truth_float truth "position_x" ;;
  y0 <- truth_float truth "position_y" ;;
  z0 <- truth_float truth "position_z" ;;
  track_length <- truth_float truth "track_length" ;;
  azimuth <- truth_float truth "azimuth" ;;
  zenith <- truth_float truth "zenith" ;;
  let travel_vec :=
    ((-1) * (track_length * np_cos azimuth * np_sin zenith),
     (-1) * (track_length * np_sin azimuth * np_sin zenith),
     (-1) * (track_length * np_cos zenith))%float in
  let end_pos :=
    (x0 + fst (fst travel_vec),
     y0 + snd (fst travel_vec),
     z0 + snd travel_vec)%float in
  let stopped_xy :=
    contains_point border (fst (fst end_pos), snd (fst end_pos))
                   (- horizontal_pad)%float in
  let stopped_z :=
    PrimFloat.ltb (fst (snd borders) + vertical_pad)%float (snd end_pos)
    && PrimFloat.ltb (snd end_pos) (snd (snd borders) - vertical_pad)%float in
  Ok [ ("x", PyFloat (fst (fst end_pos)));
       ("y", PyFloat (snd (fst end_pos)));
       ("z", PyFloat (snd end_pos));
       ("stopped", PyBool (stopped_xy && stopped_z)) ].

(** [if key in container: output[name] = int(container[key])]. *)
Definition set_flag (output : dict) (name : string) (entry : option bool)
  : dict :=
  match entry with
  | Some b => dict_set output name (PyInt (Z.b2z b))
  | None => output
  end.

(** The output as [__call__] first builds it. *)
Definition initial_output (header : I3EventHeader.t) (sim_type : string)
    (padding_value : pyval) : dict :=
  [ ("energy", padding_value);
    ("position_x", padding_value);
    ("position_y", padding_value);
    ("position_z", padding_value);
    ("azimuth", padding_value);
    ("zenith", padding_value);
    ("pid", padding_value);
    ("event_time", PyInt (I3EventHeader.utc_daq_time header));
    ("sim_type", PyStr sim_type);
    ("interaction_type", padding_value);
    ("elasticity", padding_value);
    ("RunID", PyInt (I3EventHeader.run_id header));
    ("SubrunID", PyInt (I3EventHeader.sub_run_id header));
    ("EventID", PyInt (I3EventHeader.event_id header));
    ("SubEventID", PyInt (I3EventHeader.sub_event_id header));
    ("dbang_decay_length", padding_value);
    ("track_length", padding_value);
    ("stopped_muon", padding_value);
    ("energy_track", padding_value);
    ("inelasticity", padding_value);
    ("DeepCoreFilter_13", padding_value);
    ("CascadeFilter_13", padding_value);
    ("MuonFilter_13", padding_value);
    ("OnlineL2Filter_17", padding_value);
    ("L3_oscNext_bool", padding_value);
    ("L4_oscNext_bool", padding_value);
    ("L5_oscNext_bool", padding_value);
    ("L6_oscNext_bool", padding_value);
    ("L7_oscNext_bool", padding_value) ].

(** The filter flags of [__call__]. *)
Definition filter_flags (frame : I3Frame.t) (output : dict) : dict :=
  let output :=
    match I3Frame.FilterMask frame with
    | Some mask =>
        let output :=
          set_flag output "DeepCoreFilter_13" (mask !! "DeepCoreFilter_13") in
        let output :=
          set_flag output "CascadeFilter_13" (mask !! "CascadeFilter_13") in
        let output :=
          set_flag output "MuonFilter_13" (mask !! "MuonFilter_13") in
        set_flag output "OnlineL2Filter_17" (mask !! "OnlineL2Filter_17")
    | None =>
        set_flag output "DeepCoreFilter_13" (I3Frame.DeepCoreFilter_13 frame)
    end in
  let output := set_flag output "L3_oscNext_bool" (I3Frame.L3_oscNext_bool frame) in
  let output := set_flag output "L4_oscNext_bool" (I3Frame.L4_oscNext_bool frame) in
  let output := set_flag output "L5_oscNext_bool" (I3Frame.L5_oscNext_bool frame) in
  let output := set_flag output "L6_oscNext_bool" (I3Frame.L6_oscNext_bool frame) in
  set_flag output "L7_oscNext_bool" (I3Frame.L7_oscNext_bool frame).

(** The muon branch of [__call__]; [_muon_stopped] is called with its
    default pads of 100.0. *)
Definition muon_update (self : I3TruthExtractor)
    (MCInIcePrimary : I3Particle.t) (output : dict) : result dict :=
  pid <- getitem (dict_get output "pid") ;;
  is_muon <- abs_eq pid 13 ;;
  if is_muon : bool then
    let output :=
      dict_update output
        [ ("track_length", PyFloat (I3Particle.length MCInIcePrimary)) ] in
    muon_final <- _muon_stopped output (_borders self) 100%float 100%float ;;
    x <- getitem (dict_get muon_final "x") ;;
    y <- getitem (dict_get muon_final "y") ;;
    z <- getitem (dict_get muon_final "z") ;;
    stopped <- getitem (dict_get muon_final "stopped") ;;
    Ok (dict_update output
          [ ("position_x", x);
            ("position_y", y);
            ("position_z", z);
            ("stopped_muon", stopped) ])
  else Ok output.

(** The dictionary display that the Monte-Carlo branch passes to
    [output.update]. *)
Definition truth_fields (MCInIcePrimary : I3Particle.t)
    (interaction_type elasticity dbang_decay_length energy_track
     inelasticity : pyval) : dict :=
  [ ("energy", PyFloat (I3Particle.energy MCInIcePrimary));
    ("position_x", PyFloat (I3Position.x (I3Particle.pos MCInIcePrimary)));
    ("position_y", PyFloat (I3Position.y (I3Particle.pos MCInIcePrimary)));
    ("position_z", PyFloat (I3Position.z (I3Particle.pos MCInIcePrimary)));
    ("azimuth", PyFloat (I3Direction.azimuth (I3Particle.dir MCInIcePrimary)));
    ("zenith", PyFloat (I3Direction.zenith (I3Particle.dir MCInIcePrimary)));
    ("pid", PyInt (I3Particle.pdg_encoding MCInIcePrimary));
    ("interaction_type", interaction_type);
    ("elasticity", elasticity);
    ("dbang_decay_length", dbang_decay_length);
    ("energy_track", energy_track);
    ("inelasticity", inelasticity) ].

(** The Monte-Carlo branch of [__call__].  The helper for the primary is
    called without a padding value and so with its default, -1.  The
    attributes of the primary are read before the decay length is computed,
    in the order of the dictionary display. *)
Definition mc_truth (self : I3TruthExtractor) (frame : I3Frame.t)
    (sim_type : string) (padding_value : pyval) (output : dict)
  : result dict * I3Frame.t :=
  match
    (primary <- _get_primary_particle_interaction_type_and_elasticity
                  frame sim_type (PyInt (-1)) ;;
     track <- _get_primary_track_energy_and_inelasticity frame ;;
     MCInIcePrimary <- deref (fst (fst primary)) ;;
     Ok (MCInIcePrimary, snd (fst primary), snd primary, fst track, snd track))
  with
  | Raise e => (Raise e, frame)
  | Ok (MCInIcePrimary, interaction_type, elasticity, energy_track,
        inelasticity) =>
      let dbang := _extract_dbang_decay_length frame padding_value in
      (dbang_decay_length <- fst dbang ;;
       let output :=
         dict_update output
           (truth_fields MCInIcePrimary interaction_type elasticity
                         dbang_decay_length energy_track inelasticity) in
       muon_update self MCInIcePrimary output,
       snd dbang)
  end.

(** [I3TruthExtractor.__call__(frame, padding_value)]: what it returns or
    raises, and the frame after the call. *)
Definition __call__ (self : I3TruthExtractor) (frame : I3Frame.t)
    (padding_value : pyval) : result dict * I3Frame.t :=
  let is_mc := frame_is_montecarlo frame in
  let is_noise := frame_is_noise frame in
  match
    (sim_type <- _find_data_type is_mc (_i3_file self) ;;
     header <- getitem (I3Frame.I3EventHeader frame) ;;
     Ok (sim_type, header))
  with
  | Raise e => (Raise e, frame)
  | Ok (sim_type, header) =>
      let output := initial_output header sim_type padding_value in
      if negb (String.eqb (I3EventHeader.sub_event_stream header) "InIceSplit")
      then (Ok output, frame)
      else
        let output := filter_flags frame output in
        if is_mc && negb is_noise
        then mc_truth self frame sim_type padding_value output
        else (Ok output, frame)
  end.

End Extractor.

(** The field names of the output, in the order of the dictionary. *)
Definition schema : list string :=
  [ "energy"; "position_x"; "position_y"; "position_z"; "azimuth"; "zenith";
    "pid"; "event_time"; "sim_type"; "interaction_type"; "elasticity";
    "RunID"; "SubrunID"; "EventID"; "SubEventID"; "dbang_decay_length";
    "track_length"; "stopped_muon"; "energy_track"; "inelasticity";
    "DeepCoreFilter_13"; "CascadeFilter_13"; "MuonFilter_13";
    "OnlineL2Filter_17"; "L3_oscNext_bool"; "L4_oscNext_bool";
    "L5_oscNext_bool"; "L6_oscNext_bool"; "L7_oscNext_bool" ].

(** ** Stand-ins for the external functions, and sample frames

    The theorems below hold for every implementation of [Externals].  To run
    the extractor on examples, the externals are instantiated here: the two
    frame tests look for a particle with an energy, cosine and sine are
    polynomials that are exact at 0, the polygon test is the crossing-number
    test applied to the point and to the four points at the distance of the
    radius along the axes, positions are equal when their coordinates are,
    the distance is Euclidean, the metre is 1, and the tree hands out copies
    of its particles.  [sharing_externals] differs in the last point only. *)

Module Sample.

Definition poly_cos (a : float) : float :=
  (1 - a * a / 2 + a * a * a * a / 24)%float.

Definition poly_sin (a : float) : float :=
  (a - a * a * a / 6 + a * a * a * a * a / 120)%float.

(** Does the horizontal ray from [pt] to the right cross the edge from
    [a] to [b]? *)
Definition crosses (pt a b : float * float) : bool :=
  let '(px, py) := pt in
  let '(ax, ay) := a in
  let '(bx, by_) := b in
  negb (Bool.eqb (PrimFloat.ltb py ay) (PrimFloat.ltb py by_))
  && PrimFloat.ltb px (ax + (py - ay) * (bx - ax) / (by_ - ay))%float.

Fixpoint crossings (pt first : float * float) (vs : list (float * float))
  : nat :=
  match vs with
  | [] => 0
  | [a] => if crosses pt a first then 1 else 0
  | a :: ((b :: _) as vs') =>
      ((if crosses pt a b then 1 else 0) + crossings pt first vs')%nat
  end.

Definition inside (vs : list (float * float)) (pt : float * float) : bool :=
  match vs with
  | [] => false
  | first :: _ => Nat.odd (crossings pt first vs)
  end.

Definition padded_inside (vs : list (float * float)) (pt : float * float)
    (radius : float) : bool :=
  let r := PrimFloat.abs radius in
  let '(px, py) := pt in
  inside vs pt
  && inside vs (px + r, py)%float && inside vs (px - r, py)%float
  && inside vs (px, py + r)%float && inside vs (px, py - r)%float.

Definition position_eq (a b : I3Position.t) : bool :=
  PrimFloat.eqb (I3Position.x a) (I3Position.x b)
  && PrimFloat.eqb (I3Position.y a) (I3Position.y b)
  && PrimFloat.eqb (I3Position.z a) (I3Position.z b).

Definition euclid (a b : I3Particle.t) : float :=
  let dx := (I3Position.x (I3Particle.pos a) - I3Position.x (I3Particle.pos b))%float in
  let dy := (I3Position.y (I3Particle.pos a) - I3Position.y (I3Particle.pos b))%float in
  let dz := (I3Position.z (I3Particle.pos a) - I3Position.z (I3Particle.pos b))%float in
  PrimFloat.sqrt (dx * dx + dy * dy + dz * dz)%float.

Definition has_energy (frame : I3Frame.t) : bool :=
  match I3Frame.I3MCTree frame with
  | Some (_ :: _) => true
  | _ => match I3Frame.MCInIcePrimary frame with
         | Some _ => true
         | None => false
         end
  end.

#[export] Instance externals : Externals := {|
  frame_is_montecarlo frame :=
    bool_decide (is_Some (I3Frame.MCInIcePrimary frame))
    || bool_decide (is_Some (I3Frame.I3MCTree frame));
  frame_is_noise frame := negb (has_energy frame);
  np_cos := poly_cos;
  np_sin := poly_sin;
  contains_point := padded_inside;
  I3Position_eq := position_eq;
  I3Calculator_distance := euclid;
  I3Units_m := 1%float;
  daughters_are_shared := false
|}.

Definition sharing_externals : Externals := {|
  frame_is_montecarlo := frame_is_montecarlo (Externals := externals);
  frame_is_noise := frame_is_noise (Externals := externals);
  np_cos := poly_cos;
  np_sin := poly_sin;
  contains_point := padded_inside;
  I3Position_eq := position_eq;
  I3Calculator_distance := euclid;
  I3Units_m := 1%float;
  daughters_are_shared := true
|}.

Definition header (stream : string) : I3EventHeader.t :=
  I3EventHeader.mk 1000 7 2 31 0 stream.

Definition particle (energy x y z : float) (pdg : Z) (ty : ParticleType)
    (shape : string) (length : float) : I3Particle.t :=
  I3Particle.mk energy (I3Position.mk x y z) (I3Direction.mk 0 0) pdg ty
                shape length energy.

(** A neutrino with a hadronic cascade and a heavy neutral lepton, which
    decays at 30 m into two particles at one place. *)
Definition nu : I3Particle.t := particle 50 0 0 0 14 (OtherType 14) "Primary" 0.
Definition hadrons : I3Particle.t := particle 20 0 0 0 (-2000001006) Hadrons "Cascade" 0.
Definition hnl : I3Particle.t := particle 30 0 0 0 2000000014 (OtherType 2000000014) "Dark" 30.
Definition decay_a : I3Particle.t := particle 10 0 0 30 11 (OtherType 11) "Cascade" 0.
Definition decay_b : I3Particle.t := particle 5 0 0 30 (-11) (OtherType (-11)) "Cascade" 0.

Definition dbang_tree : I3MCTree.t :=
  [ I3MCTree.Node nu
      [ I3MCTree.Node hadrons [];
        I3MCTree.Node hnl [ I3MCTree.Node decay_a []; I3MCTree.Node decay_b [] ] ] ].

Definition frame_with (stream : string) (primary : option I3Particle.t)
    (tree : option I3MCTree.t) : I3Frame.t :=
  I3Frame.mk (Some (header stream)) None None None None None None None
             primary tree None None.

Definition dbang_frame : I3Frame.t :=
  frame_with "InIceSplit" (Some nu) (Some dbang_tree).

(** A muon that starts at the origin and travels 50 m. *)
Definition muon : I3Particle.t := particle 100 0 0 0 13 (OtherType 13) "StartingTrack" 50.

Definition muon_frame (stream : string) : I3Frame.t :=
  frame_with stream (Some muon) (Some [ I3MCTree.Node muon [] ]).

Definition extractor (path : string) : I3TruthExtractor :=
  set_files (__init__ "truth" None) path "gcd.i3".

(** The tree of [dbang_frame] with the energy of the first decay particle
    set to [e]. *)
Definition dbang_tree_with (e : float) : I3MCTree.t :=
  [ I3MCTree.Node nu
      [ I3MCTree.Node hadrons [];
        I3MCTree.Node hnl
          [ I3MCTree.Node (I3Particle.set_energy decay_a e) [];
            I3MCTree.Node decay_b [] ] ] ].

(** A frame of a muon simulation whose named primary has no energy: the
    tree lists the same placeholder first and the muon second. *)
Definition placeholder : I3Particle.t :=
  particle PrimFloat.nan 0 0 0 0 (OtherType 0) "Null" 0.

Definition placeholder_frame : I3Frame.t :=
  frame_with "InIceSplit" (Some placeholder)
    (Some [ I3MCTree.Node placeholder [ I3MCTree.Node muon [] ] ]).

(** A frame with a filter mask that has no "DeepCoreFilter_13" entry, and
    a top-level "DeepCoreFilter_13". *)
Definition masked_frame : I3Frame.t :=
  I3Frame.mk (Some (header "InIceSplit"))
             (Some {[ "CascadeFilter_13" := true ]}) (Some true)
             None None None None None None None None None.

End Sample.

(** ** The extractor collection of [graphnet/data/extractors/i3extractor.py] *)

(** What a collection uses of a member, an object of any class derived from
    the abstract [I3Extractor]: its [__call__(frame)], its
    [set_files(i3_file, gcd_file)], which may raise while it loads the GCD
    file and leaves the member in some state either way, and its name. *)
Class I3Extractor (E : Type) : Type := {
  extractor_call : E -> I3Frame.t -> result dict * I3Frame.t;
  extractor_set_files : E -> string -> string -> result unit * E;
  extractor_name : E -> string
}.

(** An argument of the collection's constructor: an extractor, or an object
    that is no instance of [I3Extractor]. *)
Inductive pyobject (E : Type) : Type :=
| IsExtractor (extractor : E)
| NotExtractor (other : pyval).
Arguments IsExtractor {E} extractor.
Arguments NotExtractor {E} other.

Module I3ExtractorCollection.

Section Collection.

Context {E : Type} `{I3Extractor E}.

(** The collection is a list of its members. *)
Definition t : Type := list E.

(** The assertion loop of the constructor. *)
Fixpoint check (extractors : list (pyobject E)) : result unit :=
  match extractors with
  | [] => Ok tt
  | IsExtractor _ :: rest => check rest
  | NotExtractor _ :: _ => Raise AssertionError
  end.

(** The members among the arguments, in order. *)
Fixpoint members (extractors : list (pyobject E)) : list E :=
  match extractors with
  | [] => []
  | IsExtractor extractor :: rest => extractor :: members rest
  | NotExtractor _ :: rest => members rest
  end.

(** [I3ExtractorCollection.__init__( *extractors )]. *)
Definition __init__ (extractors : list (pyobject E)) : result t :=
  _ <- check extractors ;; Ok (members extractors).

(** [I3ExtractorCollection.set_files(i3_file, gcd_file)]: the result and
    the collection after the call. *)
Fixpoint set_files (self : t) (i3_file gcd_file : string)
  : result unit * t :=
  match self with
  | [] => (Ok tt, [])
  | extractor :: rest =>
      let r := extractor_set_files extractor i3_file gcd_file in
      match fst r with
      | Raise e => (Raise e, snd r :: rest)
      | Ok _ =>
          let r' := set_files rest i3_file gcd_file in
          (fst r', snd r :: snd r')
      end
  end.

(** [I3ExtractorCollection.__call__(frame)]: the list comprehension, with the
    frame each member leaves to the next. *)
Fixpoint __call__ (self : t) (frame : I3Frame.t)
  : result (list dict) * I3Frame.t :=
  match self with
  | [] => (Ok [], frame)
  | extractor :: rest =>
      let r := extractor_call extractor frame in
      match fst r with
      | Raise e => (Raise e, snd r)
      | Ok output =>
          let r' := __call__ rest (snd r) in
          (outputs <- fst r' ;; Ok (output :: outputs), snd r')
      end
  end.

End Collection.

End I3ExtractorCollection.

(** The truth extractor as a member of a collection.  The collection calls
    it with the frame alone, hence with the default padding value -1.
    [load_gcd_data] is what [_load_gcd_data] does with the GCD file: it
    raises or not; [set_files] has set the two paths before. *)
Definition truth_member `{Externals} (load_gcd_data : string -> result unit)
  : I3Extractor I3TruthExtractor := {|
  extractor_call self frame := __call__ self frame (PyInt (-1));
  extractor_set_files self i3_file gcd_file :=
    (load_gcd_data gcd_file, set_files self i3_file gcd_file);
  extractor_name := _name
|}.

(** ** File discovery: [graphnet/utilities/filesys.py] *)

(** [re.search("(gcd|geo)", filename.lower())]. *)
Definition is_gcd_file (filename : string) : bool :=
  str_in "gcd" (lower filename) || str_in "geo" (lower filename).

(** [s] ends with [word]. *)
Fixpoint ends_with (word s : string) : bool :=
  String.eqb word s
  || match s with
     | EmptyString => false
     | String _ s' => ends_with word s'
     end.

(** The line feed. *)
Definition LF : string := String (ascii_of_nat 10) EmptyString.

(** A word of letters and digits only: it stands for itself in a regular
    expression. *)
Definition plain_character (c : ascii) : bool :=
  let n := nat_of_ascii c in
  ((48 <=? n) && (n <=? 57) || (65 <=? n) && (n <=? 90)
   || (97 <=? n) && (n <=? 122))%nat.

Fixpoint plain_word (s : string) : bool :=
  match s with
  | EmptyString => true
  | String c s' => plain_character c && plain_word s'
  end.

(** [re.search("(" + "|".join(extensions) + ")$", filename) is not None],
    for extensions that are plain words, without characters that are
    special in a regular expression, as at the call in [is_i3_file].  [$]
    matches at the end of the string and before a line feed that ends it;
    without extensions the pattern is ["()$"], which always matches. *)
Definition has_extension (filename : string) (extensions : list string)
  : bool :=
  match extensions with
  | [] => true
  | _ =>
      existsb (fun extension =>
                 ends_with extension filename
                 || ends_with (extension ++ LF) filename)
              extensions
  end.

(** [is_i3_file(filename)]. *)
Definition is_i3_file (filename : string) : bool :=
  if is_gcd_file (lower filename) then false
  else if has_extension filename ["bz2"; "zst"; "gz"] then true
  else false.

(** What [find_i3_files] asks of the file system: [Path(directory).rglob
    (pattern)], [os.path.dirname] of such a path, and
    [glob(os.path.join(folder, pattern))]. *)
Class FileSystem : Type := {
  rglob : string -> string -> list string;
  dirname : string -> string;
  glob_in : string -> string -> list string
}.

(** [sorted(set(names))]: strings in the order of their characters, each
    once. *)
Fixpoint insert_sorted (name : string) (names : list string) : list string :=
  match names with
  | [] => [name]
  | first :: rest =>
      match String.compare name first with
      | Lt => name :: names
      | Eq => names
      | Gt => first :: insert_sorted name rest
      end
  end.

Definition sorted_set (names : list string) : list string :=
  fold_right insert_sorted [] names.

Section FindFiles.

Context {fs : FileSystem}.

(** The body of the loop over the folders: the lists after one folder, or
    the failed assertion. *)
Definition add_folder (gcd_rescue i3_pattern : string)
    (lists : list string * list string) (folder : string)
  : result (list string * list string) :=
  let folder_files := glob_in folder i3_pattern in
  let folder_i3_files := filter is_i3_file folder_files in
  let folder_gcd_files := filter is_gcd_file folder_files in
  if (List.length folder_gcd_files <=? 1)%nat then
    let folder_gcd_files :=
      if (List.length folder_gcd_files =? 0)%nat then [gcd_rescue]
      else folder_gcd_files in
    let folder_gcd_files :=
      concat (replicate (List.length folder_i3_files) folder_gcd_files) in
    Ok (fst lists ++ folder_i3_files, snd lists ++ folder_gcd_files)%list
  else Raise AssertionError.

(** A loop whose body may raise. *)
Fixpoint for_each {A S : Type} (body : S -> A -> result S) (items : list A)
    (state : S) : result S :=
  match items with
  | [] => Ok state
  | item :: rest => state' <- body state item ;; for_each body rest state'
  end.

Definition add_pattern (gcd_rescue directory : string)
    (lists : list string * list string) (i3_pattern : string)
  : result (list string * list string) :=
  let paths := rglob directory i3_pattern in
  let folders := sorted_set (map dirname paths) in
  for_each (add_folder gcd_rescue i3_pattern) folders lists.

Definition add_directory (gcd_rescue : string)
    (lists : list string * list string) (directory : string)
  : result (list string * list string) :=
  for_each (add_pattern gcd_rescue directory) ["*.bz2"; "*.zst"; "*.gz"] lists.

(** [find_i3_files(directories, gcd_rescue)]: [directories] is one
    directory or a list of them. *)
Definition find_i3_files (directories : string + list string)
    (gcd_rescue : string) : result (list string * list string) :=
  let directories :=
    match directories with
    | inl directory => [directory]
    | inr directories => directories
    end in
  for_each (add_directory gcd_rescue) directories ([], []).

End FindFiles.

(** ** A sample file system *)

Module SampleFiles.

Definition files : list string :=
  [ "/data/a/run1.i3.gz"; "/data/a/GeoCalib.i3.gz"; "/data/b/run2.i3.gz";
    "/data/b/run3.i3.gz"; "/two/GCD_a.i3.bz2"; "/two/gcd_b.i3.bz2";
    "/two/run.i3.bz2" ].

(** The part of a path before its last slash. *)
Fixpoint before_last_slash (path : string) : option string :=
  match path with
  | EmptyString => None
  | String c rest =>
      match before_last_slash rest with
      | Some d => Some (String c d)
      | None => if Ascii.eqb c "/" then Some "" else None
      end
  end.

Definition folder_of (path : string) : string :=
  default "" (before_last_slash path).

(** The extension of a pattern "*.ext". *)
Definition extension_of (pattern : string) : string :=
  match pattern with
  | String _ extension => extension
  | EmptyString => ""
  end.

#[export] Instance file_system : FileSystem := {|
  rglob directory pattern :=
    List.filter (fun f => String.prefix directory f
                          && ends_with (extension_of pattern) f) files;
  dirname := folder_of;
  glob_in folder pattern :=
    List.filter (fun f => String.eqb (folder_of f) folder
                          && ends_with (extension_of pattern) f) files
|}.

End SampleFiles.

(** ** Words for the further properties *)

(** The value of a flag field after the flags are set. *)
Definition flag_value (entry : option bool) (old : option pyval)
  : option pyval :=
  match entry with
  | Some b => Some (PyInt (Z.b2z b))
  | None => old
  end.

(** No daughter of the first primary has more than one daughter, when the
    first primary has exactly two. *)
Definition no_merge (tree : I3MCTree.t) : Prop :=
  match tree with
  | I3MCTree.Node _ [a; b] :: _ =>
      (List.length (I3MCTree.get_daughters a) <= 1)%nat
      /\ (List.length (I3MCTree.get_daughters b) <= 1)%nat
  | _ => True
  end.

Section Pairing.

Context {fs : FileSystem}.

(** An I3 file and the GCD file it is listed with: both come from one folder
    and one pattern; the GCD file is the only GCD file listed there, or the
    rescue file when none is listed there. *)
Definition paired (gcd_rescue i3_file gcd_file : string) : Prop :=
  is_i3_file i3_file = true
  /\ exists folder i3_pattern,
       i3_file ∈ glob_in folder i3_pattern
       /\ i3_pattern ∈ ["*.bz2"; "*.zst"; "*.gz"]
       /\ ((filter is_gcd_file (glob_in folder i3_pattern) = []
            /\ gcd_file = gcd_rescue)
           \/ filter is_gcd_file (glob_in folder i3_pattern) = [gcd_file]).

(** The folders that [find_i3_files] lists, each with the pattern it is
    listed under, in the order of the three loops. *)
Definition visited (directories : list string) : list (string * string) :=
  directory ← directories;
  i3_pattern ← ["*.bz2"; "*.zst"; "*.gz"];
  folder ← sorted_set (map dirname (rglob directory i3_pattern));
  [(folder, i3_pattern)].

(** The folder lists at most one GCD file under the pattern. *)
Definition one_gcd_file (listed : string * string) : Prop :=
  (List.length (filter is_gcd_file (glob_in (fst listed) (snd listed))) <= 1)%nat.

End Pairing.

(** ** The words of the specification, and templates of outputs *)

(** The fields the Monte-Carlo branch may write. *)
Definition mc_fields : list string :=
  [ "energy"; "position_x"; "position_y"; "position_z"; "azimuth"; "zenith";
    "pid"; "interaction_type"; "elasticity"; "dbang_decay_length";
    "energy_track"; "inelasticity"; "track_length"; "stopped_muon" ].

(** The fields the filter flags may write. *)
Definition flag_fields : list string :=
  [ "DeepCoreFilter_13"; "CascadeFilter_13"; "MuonFilter_13";
    "OnlineL2Filter_17"; "L3_oscNext_bool"; "L4_oscNext_bool";
    "L5_oscNext_bool"; "L6_oscNext_bool"; "L7_oscNext_bool" ].

(** An output with the places of the padding value left open. *)
Definition template : Type := list (string * option pyval).

(** The output that a template stands for, given the padding value. *)
Definition fill (T : template) (padding_value : pyval) : dict :=
  map (fun kv => (fst kv, default padding_value (snd kv))) T.

Fixpoint tset (T : template) (k : string) (v : option pyval) : template :=
  match T with
  | [] => [(k, v)]
  | (k', v') :: T' =>
      if String.eqb k k' then (k', v) :: T' else (k', v') :: tset T' k v
  end.

Definition tupdate (T U : template) : template :=
  fold_left (fun acc kv => tset acc (fst kv) (snd kv)) U T.

Fixpoint tget (T : template) (k : string) : option (option pyval) :=
  match T with
  | [] => None
  | (k', v) :: T' => if String.eqb k k' then Some v else tget T' k
  end.

(** The fields a template leaves to the padding value. *)
Definition padded (T : template) (k : string) : bool :=
  match tget T k with
  | Some None => true
  | _ => false
  end.

(** A dictionary without the padding value, as a template. *)
Definition const_template (u : dict) : template :=
  map (fun kv => (fst kv, Some (snd kv))) u.

(** The output as [__call__] first builds it, as a template. *)
Definition initial_template (header : I3EventHeader.t) (sim_type : string)
  : template :=
  [ ("energy", None); ("position_x", None); ("position_y", None);
    ("position_z", None); ("azimuth", None); ("zenith", None); ("pid", None);
    ("event_time", Some (PyInt (I3EventHeader.utc_daq_time header)));
    ("sim_type", Some (PyStr sim_type));
    ("interaction_type", None); ("elasticity", None);
    ("RunID", Some (PyInt (I3EventHeader.run_id header)));
    ("SubrunID", Some (PyInt (I3EventHeader.sub_run_id header)));
    ("EventID", Some (PyInt (I3EventHeader.event_id header)));
    ("SubEventID", Some (PyInt (I3EventHeader.sub_event_id header)));
    ("dbang_decay_length", None); ("track_length", None);
    ("stopped_muon", None); ("energy_track", None); ("inelasticity", None);
    ("DeepCoreFilter_13", None); ("CascadeFilter_13", None);
    ("MuonFilter_13", None); ("OnlineL2Filter_17", None);
    ("L3_oscNext_bool", None); ("L4_oscNext_bool", None);
    ("L5_oscNext_bool", None); ("L6_oscNext_bool", None);
    ("L7_oscNext_bool", None) ].

(** The fields that every output takes from the event header and from the
    path of the file. *)
Definition header_fields : list string :=
  [ "event_time"; "sim_type"; "RunID"; "SubrunID"; "EventID"; "SubEventID" ].

(** [k] is one of the names [ks]. *)
Definition among (k : string) (ks : list string) : bool :=
  existsb (String.eqb k) ks.

(** The source of a flag field in a frame: the key of that name for the five
    level flags; for the four filters the entry of the filter mask when the
    frame has a mask, and without a mask the top-level key, which only
    "DeepCoreFilter_13" has. *)
Definition flag_source (frame : I3Frame.t) (k : string) : option bool :=
  if String.eqb k "L3_oscNext_bool" then I3Frame.L3_oscNext_bool frame
  else if String.eqb k "L4_oscNext_bool" then I3Frame.L4_oscNext_bool frame
  else if String.eqb k "L5_oscNext_bool" then I3Frame.L5_oscNext_bool frame
  else if String.eqb k "L6_oscNext_bool" then I3Frame.L6_oscNext_bool frame
  else if String.eqb k "L7_oscNext_bool" then I3Frame.L7_oscNext_bool frame
  else match I3Frame.FilterMask frame with
       | Some mask => mask !! k
       | None =>
           if String.eqb k "DeepCoreFilter_13"
           then I3Frame.DeepCoreFilter_13 frame
           else None
       end.

Section Words.

Context {ext : Externals}.

(** The double-cascade shape in the words of the claim: the first primary has
    exactly two daughters, one of type Hadrons and one not, and the one that
    is not has at least one daughter.  It gives the hadronic cascade, the
    first daughter of the other particle and its further daughters. *)
Definition double_cascade (mctree : I3MCTree.t)
  : option (I3Particle.t * I3Particle.t * list I3MCTree.node) :=
  match mctree with
  | I3MCTree.Node _ [a; b] :: _ =>
      match is_Hadrons (I3Particle.type (I3MCTree.particle a)),
            is_Hadrons (I3Particle.type (I3MCTree.particle b)) with
      | true, false =>
          match I3MCTree.get_daughters b with
          | first :: rest =>
              Some (I3MCTree.particle a, I3MCTree.particle first, rest)
          | [] => None
          end
      | false, true =>
          match I3MCTree.get_daughters a with
          | first :: rest =>
              Some (I3MCTree.particle b, I3MCTree.particle first, rest)
          | [] => None
          end
      | _, _ => None
      end
  | _ => None
  end.

(** The assertion of the merge: every further daughter is where the first
    one is. *)
Definition same_place (casc : I3Particle.t) (rest : list I3MCTree.node)
  : bool :=
  forallb (fun d => I3Position_eq (I3Particle.pos casc)
                                  (I3Particle.pos (I3MCTree.particle d)))
          rest.

(** The merged cascade: the first daughter with the energies of the further
    daughters added to its own. *)
Definition merged_cascade (casc : I3Particle.t) (rest : list I3MCTree.node)
  : I3Particle.t :=
  I3Particle.set_energy casc
    (fold_left PrimFloat.add
       (map (fun d => I3Particle.energy (I3MCTree.particle d)) rest)
       (I3Particle.energy casc)).

(** The decay length in the words of the claim. *)
Definition decay_length_spec (mctree : I3MCTree.t) (padding_value : pyval)
  : pyval :=
  match double_cascade mctree with
  | Some (casc_0, first, rest) =>
      if same_place first rest
      then PyFloat (I3Calculator_distance casc_0 (merged_cascade first rest)
                    / I3Units_m)%float
      else padding_value
  | None => padding_value
  end.

(** The decay length that the search finds, when it finds one. *)
Definition found_decay_length (mctree : I3MCTree.t) : option float :=
  match double_cascade mctree with
  | Some (casc_0, first, rest) =>
      if same_place first rest && negb (PrimFloat.eqb I3Units_m 0)
      then Some (I3Calculator_distance casc_0 (merged_cascade first rest)
                 / I3Units_m)%float
      else None
  | None => None
  end.

(** What the muon branch writes after the track length. *)
Definition muon_fields (self : I3TruthExtractor) (primary : I3Particle.t)
  : dict :=
  let length := I3Particle.length primary in
  let azimuth := I3Direction.azimuth (I3Particle.dir primary) in
  let zenith := I3Direction.zenith (I3Particle.dir primary) in
  let x := (I3Position.x (I3Particle.pos primary)
            + (-1) * (length * np_cos azimuth * np_sin zenith))%float in
  let y := (I3Position.y (I3Particle.pos primary)
            + (-1) * (length * np_sin azimuth * np_sin zenith))%float in
  let z := (I3Position.z (I3Particle.pos primary)
            + (-1) * (length * np_cos zenith))%float in
  [ ("position_x", PyFloat x);
    ("position_y", PyFloat y);
    ("position_z", PyFloat z);
    ("stopped_muon",
     PyBool (contains_point (fst (_borders self)) (x, y) (- 100)%float
             && (PrimFloat.ltb (fst (snd (_borders self)) + 100)%float z
                 && PrimFloat.ltb z (snd (snd (_borders self)) - 100)%float))) ].

(** The primary that the helper resolves is a muon. *)
Definition muon_primary (self : I3TruthExtractor) (frame : I3Frame.t) : bool :=
  match _find_data_type (frame_is_montecarlo frame) (_i3_file self) with
  | Ok sim_type =>
      match _get_primary_particle_interaction_type_and_elasticity
              frame sim_type (PyInt (-1)) with
      | Ok (Some primary, _, _) =>
          Z.abs (I3Particle.pdg_encoding primary) =? 13
      | _ => false
      end
  | Raise _ => false
  end.

(** The frame has no tree in which the search finds a decay length. *)
Definition no_decay_length (frame : I3Frame.t) : bool :=
  match I3Frame.I3MCTree frame with
  | Some mctree =>
      match found_decay_length mctree with
      | Some _ => false
      | None => true
      end
  | None => true
  end.

(** The defaulted fields of the output for a frame, in the words of the
    claim: the fields whose source is absent or does not apply.  The header
    fields never are.  For a frame outside the in-ice split every other
    field is.  Inside it, a flag field is defaulted when its source is
    absent; a truth field is defaulted when the frame is not Monte Carlo or
    is noise, and otherwise only the track length and the stop flag of a
    primary that is no muon, and the decay length that the search does not
    find. *)
Definition defaulted (self : I3TruthExtractor) (frame : I3Frame.t)
    (k : string) : bool :=
  match I3Frame.I3EventHeader frame with
  | None => false
  | Some header =>
      if negb (String.eqb (I3EventHeader.sub_event_stream header) "InIceSplit")
      then among k flag_fields || among k mc_fields
      else if among k flag_fields then
        match flag_source frame k with
        | Some _ => false
        | None => true
        end
      else if among k mc_fields then
        if frame_is_montecarlo frame && negb (frame_is_noise frame) then
          if String.eqb k "track_length" || String.eqb k "stopped_muon"
          then negb (muon_primary self frame)
          else if String.eqb k "dbang_decay_length"
          then no_decay_length frame
          else false
        else true
      else false
  end.

End Words.

(** * Properties *)

(** ** Tactics *)

(** Membership of a given key in a given list of keys. *)
Ltac mem :=
  unfold schema, sim_tags;
  repeat first [apply list_elem_of_here | apply list_elem_of_further].

(** Every key written by an update is a key of the schema. *)
Ltac all_mem Hk :=
  repeat constructor; cbn [fst]; rewrite Hk; mem.

(** A key outside a list of keys is outside a shorter list of them. *)
Ltac not_mem Hk :=
  let Hin := fresh "Hin" in
  simpl; intros Hin; apply Hk;
  repeat (apply elem_of_cons in Hin as [->|Hin]; [mem|]); inversion Hin.

(** Comparisons of given keys are computed. *)
Ltac eval_eqb :=
  repeat match goal with
         | |- context [String.eqb ?a ?b] =>
             let r := eval vm_compute in (String.eqb a b) in
             lazymatch r with
             | true => change (String.eqb a b) with true
             | false => change (String.eqb a b) with false
             end
         end;
  cbv iota.


(** ** Dictionaries *)

Lemma dict_get_set (d : dict) (k : string) (v : pyval) (k' : string) :
  dict_get (dict_set d k v) k'
  = if String.eqb k' k then Some v else dict_get d k'.
Proof.
  induction d as [|[k0 v0] d IH]; simpl.
  - reflexivity.
  - destruct (String.eqb k k0) eqn:Hk; simpl.
    + apply String.eqb_eq in Hk. subst k0.
      destruct (String.eqb k' k); reflexivity.
    + rewrite IH. destruct (String.eqb k' k0) eqn:Hk0; [|reflexivity].
      apply String.eqb_eq in Hk0. subst k0.
      rewrite String.eqb_sym, Hk. reflexivity.
Qed.

Lemma keys_set (d : dict) (k : string) (v : pyval) :
  k ∈ keys d -> keys (dict_set d k v) = keys d.
Proof.
  unfold keys. induction d as [|[k0 v0] d IH]; simpl; intros Hin.
  - inversion Hin.
  - destruct (String.eqb k k0) eqn:Hk; simpl; [reflexivity|].
    f_equal. apply IH. apply elem_of_cons in Hin as [->|Hin]; [|exact Hin].
    rewrite String.eqb_refl in Hk. discriminate.
Qed.

Lemma keys_update (d u : dict) :
  Forall (fun kv => fst kv ∈ keys d) u -> keys (dict_update d u) = keys d.
Proof.
  unfold dict_update. revert d.
  induction u as [|[k v] u IH]; simpl; intros d Hall; [reflexivity|].
  inversion Hall as [|? ? Hk Hu]; subst. simpl in Hk.
  rewrite IH.
  - apply keys_set, Hk.
  - rewrite keys_set by exact Hk. exact Hu.
Qed.

Lemma dict_get_update_other (d u : dict) (k : string) :
  k ∉ map fst u -> dict_get (dict_update d u) k = dict_get d k.
Proof.
  unfold dict_update. revert d.
  induction u as [|[k0 v0] u IH]; simpl; intros d Hk; [reflexivity|].
  apply not_elem_of_cons in Hk as [Hne Hk].
  rewrite IH by exact Hk. rewrite dict_get_set.
  destruct (String.eqb k k0) eqn:E; [|reflexivity].
  apply String.eqb_eq in E. contradiction.
Qed.

(** ** The simulation type *)

Lemma find_data_type_last_match (mc : bool) (path : string) :
  _find_data_type mc (Some path) = Ok (last_match_wins mc path).
Proof.
  unfold _find_data_type, last_match_wins. cbn.
  destruct (str_in "L2" path); [reflexivity|].
  destruct (str_in "noise" path); [reflexivity|].
  destruct (str_in "genie" path || str_in "nu" (lower path)); [reflexivity|].
  destruct (str_in "corsika" path); [reflexivity|].
  destruct (str_in "muon" path); [reflexivity|].
  destruct mc; reflexivity.
Qed.

Lemma last_match_in_tags (mc : bool) (path : string) :
  last_match_wins mc path ∈ sim_tags.
Proof.
  unfold last_match_wins. cbn.
  destruct (str_in "L2" path); [mem|].
  destruct (str_in "noise" path); [mem|].
  destruct (str_in "genie" path || str_in "nu" (lower path)); [mem|].
  destruct (str_in "corsika" path); [mem|].
  destruct (str_in "muon" path); [mem|].
  destruct mc; mem.
Qed.

(** C3, as stated: a path that holds both "corsika" and "muon" is not always
    classified as "corsika"; a later rule that also matches takes over. *)
Lemma find_data_type_corsika_muon_overridden :
  ~ (forall (mc : bool) (path : string),
        str_in "corsika" path = true -> str_in "muon" path = true ->
        _find_data_type mc (Some path) = Ok "corsika").
Proof.
  intros H.
  specialize (H true "/sim/corsika/muon/L2/f.i3" eq_refl eq_refl).
  vm_compute in H. discriminate H.
Qed.

(** C3, amended: the classifier returns one of the seven tags, namely the tag
    of the last rule of the ordered table (muon, corsika, genie or
    case-insensitive nu, noise, L2) that matches the path, and the start tag
    ("data", or "NuGen" for Monte Carlo) when none matches; a path that holds
    both "corsika" and "muon" and matches none of the three later rules is
    classified as "corsika". *)
Theorem find_data_type_spec (mc : bool) (path : string) :
  (exists tag : string,
      _find_data_type mc (Some path) = Ok tag
      /\ tag ∈ sim_tags
      /\ tag = last_match_wins mc path)
  /\ (str_in "corsika" path = true -> str_in "muon" path = true ->
      str_in "genie" path || str_in "nu" (lower path) = false ->
      str_in "noise" path = false -> str_in "L2" path = false ->
      _find_data_type mc (Some path) = Ok "corsika").
Proof.
  split.
  - exists (last_match_wins mc path).
    split; [apply find_data_type_last_match|].
    split; [apply last_match_in_tags|reflexivity].
  - intros Hc _ Hg Hn Hl. unfold _find_data_type. cbv zeta.
    rewrite Hl, Hn, Hg, Hc. reflexivity.
Qed.

Lemma find_data_type_spec_witness :
  _find_data_type true (Some "/sim/corsika/muon_f.i3") = Ok "corsika".
Proof.
  apply (proj2 (find_data_type_spec true "/sim/corsika/muon_f.i3"));
    vm_compute; reflexivity.
Defined.

(** ** Extraction without a context *)

(** C9, as stated: on a sample frame, the call made before [set_files] does
    not fail with an error named MissingContextError. *)
Lemma call_before_set_files_no_MissingContextError :
  ~ (exists e : exn,
        fst (__call__ (ext := Sample.externals) (__init__ "truth" None)
                      Sample.dbang_frame (PyInt (-1)))
        = Raise e
        /\ exn_name e = "MissingContextError").
Proof.
  intros [e [He Hname]]. vm_compute in He. inversion He; subst e.
  vm_compute in Hname. discriminate Hname.
Qed.

(** C9, amended: a call made before [set_files] never returns an output; on
    every frame it raises the [TypeError] of the substring test on the unset
    file path, and leaves the frame as it was. *)
Theorem call_before_set_files_raises_TypeError `{Externals}
    (name : string) (borders : option borders_t) (frame : I3Frame.t)
    (padding_value : pyval) :
  __call__ (__init__ name borders) frame padding_value
  = (Raise TypeError, frame).
Proof. reflexivity. Qed.

(** ** The phases of the call *)

Section Phases.

Context {ext : Externals}.

Lemma dict_get_set_flag (output : dict) (name : string) (entry : option bool)
    (k : string) :
  dict_get (set_flag output name entry) k
  = match entry with
    | Some b => if String.eqb k name then Some (PyInt (Z.b2z b))
                else dict_get output k
    | None => dict_get output k
    end.
Proof. destruct entry; simpl; [apply dict_get_set|reflexivity]. Qed.

Lemma keys_set_flag (output : dict) (name : string) (entry : option bool) :
  name ∈ keys output -> keys (set_flag output name entry) = keys output.
Proof. destruct entry; simpl; [apply keys_set|reflexivity]. Qed.

Lemma keys_filter_flags (frame : I3Frame.t) (output : dict) :
  keys output = schema -> keys (filter_flags frame output) = schema.
Proof.
  intros Hk. unfold filter_flags.
  assert (Hstep : forall name o e, name ∈ schema -> keys o = schema ->
                    keys (set_flag o name e) = schema).
  { intros name o e Hn Ho. rewrite keys_set_flag; rewrite ?Ho; auto. }
  destruct (I3Frame.FilterMask frame) as [mask|];
    repeat (apply Hstep; [mem|]); exact Hk.
Qed.

Lemma muon_update_cases self primary output o :
  muon_update self primary output = Ok o ->
  o = output
  \/ exists x y z stopped,
      o = dict_update
            (dict_update output
               [ ("track_length", PyFloat (I3Particle.length primary)) ])
            [ ("position_x", x); ("position_y", y); ("position_z", z);
              ("stopped_muon", stopped) ].
Proof.
  unfold muon_update. intros Hm.
  destruct (getitem (dict_get output "pid")) as [pid|]; [|discriminate].
  cbn [bind] in Hm.
  destruct (abs_eq pid 13) as [[|]|]; cbn [bind] in Hm; try discriminate.
  - destruct (_muon_stopped _ _ _ _) as [mf|]; [|discriminate].
    cbn [bind] in Hm.
    destruct (getitem (dict_get mf "x")) as [x|]; [|discriminate].
    cbn [bind] in Hm.
    destruct (getitem (dict_get mf "y")) as [y|]; [|discriminate].
    cbn [bind] in Hm.
    destruct (getitem (dict_get mf "z")) as [z|]; [|discriminate].
    cbn [bind] in Hm.
    destruct (getitem (dict_get mf "stopped")) as [st|]; [|discriminate].
    cbn [bind] in Hm.
    inversion Hm; subst o. right. eauto.
  - inversion Hm; subst o. left. reflexivity.
Qed.

Lemma muon_update_get_other self primary output o k :
  muon_update self primary output = Ok o ->
  k ∉ ["track_length"; "position_x"; "position_y"; "position_z";
       "stopped_muon"] ->
  dict_get o k = dict_get output k.
Proof.
  intros Hm Hk.
  destruct (muon_update_cases _ _ _ _ Hm) as [->|(x & y & z & st & ->)];
    [reflexivity|].
  rewrite !dict_get_update_other; [reflexivity|not_mem Hk|not_mem Hk].
Qed.

Lemma muon_update_keys self primary output o :
  keys output = schema -> muon_update self primary output = Ok o ->
  keys o = schema.
Proof.
  intros Hk Hm.
  destruct (muon_update_cases _ _ _ _ Hm) as [->|(x & y & z & st & ->)];
    [exact Hk|].
  assert (Hk1 : keys (dict_update output
                        [ ("track_length",
                           PyFloat (I3Particle.length primary)) ]) = schema)
    by (rewrite keys_update; [exact Hk|all_mem Hk]).
  rewrite keys_update; [exact Hk1|all_mem Hk1].
Qed.

Lemma mc_truth_inv self frame sim_type padding_value output o :
  fst (mc_truth self frame sim_type padding_value output) = Ok o ->
  exists primary interaction_type elasticity energy_track inelasticity
         dbang_decay_length,
    _get_primary_particle_interaction_type_and_elasticity
      frame sim_type (PyInt (-1))
    = Ok (Some primary, interaction_type, elasticity)
    /\ _get_primary_track_energy_and_inelasticity frame
       = Ok (energy_track, inelasticity)
    /\ fst (_extract_dbang_decay_length frame padding_value)
       = Ok dbang_decay_length
    /\ muon_update self primary
         (dict_update output
            (truth_fields primary interaction_type elasticity
                          dbang_decay_length energy_track inelasticity))
       = Ok o.
Proof.
  unfold mc_truth. intros Ho.
  destruct (_get_primary_particle_interaction_type_and_elasticity _ _ _)
    as [[[primary it] el]|]; cbn [bind] in Ho; [|discriminate].
  destruct (_get_primary_track_energy_and_inelasticity frame)
    as [[et inel]|]; cbn [bind] in Ho; [|discriminate].
  cbn [fst snd] in Ho. destruct primary as [primary|];
    cbn [deref bind fst snd] in Ho; [|discriminate].
  destruct (fst (_extract_dbang_decay_length frame padding_value))
    as [dl|] eqn:Hdl; cbn [bind] in Ho; [|discriminate].
  exists primary, it, el, et, inel, dl. auto.
Qed.

Lemma mc_truth_keys self frame sim_type padding_value output o :
  keys output = schema ->
  fst (mc_truth self frame sim_type padding_value output) = Ok o ->
  keys o = schema.
Proof.
  intros Hk Ho.
  destruct (mc_truth_inv _ _ _ _ _ _ Ho)
    as (primary & it & el & et & inel & dl & _ & _ & _ & Hm).
  apply (muon_update_keys _ _ _ _) in Hm; [exact Hm|].
  rewrite keys_update; [exact Hk|unfold truth_fields; all_mem Hk].
Qed.

Lemma mc_truth_get_other self frame sim_type padding_value output o k :
  fst (mc_truth self frame sim_type padding_value output) = Ok o ->
  k ∉ mc_fields ->
  dict_get o k = dict_get output k.
Proof.
  intros Ho Hk.
  destruct (mc_truth_inv _ _ _ _ _ _ Ho)
    as (primary & it & el & et & inel & dl & _ & _ & _ & Hm).
  rewrite (muon_update_get_other _ _ _ _ k Hm); [|unfold mc_fields in Hk; not_mem Hk].
  apply dict_get_update_other. unfold mc_fields in Hk. not_mem Hk.
Qed.

(** Whatever the call returns has the keys of the schema, in its order. *)
Lemma call_keys self frame padding_value o :
  fst (__call__ self frame padding_value) = Ok o -> keys o = schema.
Proof.
  unfold __call__. intros Ho.
  destruct (_find_data_type _ _) as [sim_type|]; cbn [bind] in Ho;
    [|discriminate].
  destruct (getitem (I3Frame.I3EventHeader frame)) as [header|];
    cbn [bind] in Ho; [|discriminate].
  destruct (negb (String.eqb _ _)); cbn [fst] in Ho.
  - inversion Ho; subst o. reflexivity.
  - destruct (frame_is_montecarlo frame && negb (frame_is_noise frame)).
    + eapply mc_truth_keys; [|exact Ho].
      apply keys_filter_flags. reflexivity.
    + cbn [fst] in Ho. inversion Ho; subst o.
      apply keys_filter_flags. reflexivity.
Qed.

End Phases.

(** ** Frames outside the in-ice split *)

(** C2: when the sub-event stream of the header is not "InIceSplit", the call
    returns at once: event_time, RunID, SubrunID, EventID and SubEventID come
    from the header, sim_type from the classifier, and every other field
    holds the padding value.  The frame is left as it was. *)
Theorem call_other_stream `{Externals} (self : I3TruthExtractor)
    (path : string) (frame : I3Frame.t) (header : I3EventHeader.t)
    (padding_value : pyval) :
  _i3_file self = Some path ->
  I3Frame.I3EventHeader frame = Some header ->
  I3EventHeader.sub_event_stream header <> "InIceSplit" ->
  __call__ self frame padding_value
  = (Ok [ ("energy", padding_value);
          ("position_x", padding_value);
          ("position_y", padding_value);
          ("position_z", padding_value);
          ("azimuth", padding_value);
          ("zenith", padding_value);
          ("pid", padding_value);
          ("event_time", PyInt (I3EventHeader.utc_daq_time header));
          ("sim_type",
           PyStr (last_match_wins (frame_is_montecarlo frame) path));
          ("interaction_type", padding_value);
          ("elasticity", padding_value);
          ("RunID", PyInt (I3EventHeader.run_id header));
          ("SubrunID", PyInt (I3EventHeader.sub_run_id header));
          ("EventID", PyInt (I3EventHeader.event_id header));
          ("SubEventID", PyInt (I3EventHeader.sub_event_id header));
          ("dbang_decay_length", padding_value);
          ("track_length", padding_value);
          ("stopped_muon", padding_value);
          ("energy_track", padding_value);
          ("inelasticity", padding_value);
          ("DeepCoreFilter_13", padding_value);
          ("CascadeFilter_13", padding_value);
          ("MuonFilter_13", padding_value);
          ("OnlineL2Filter_17", padding_value);
          ("L3_oscNext_bool", padding_value);
          ("L4_oscNext_bool", padding_value);
          ("L5_oscNext_bool", padding_value);
          ("L6_oscNext_bool", padding_value);
          ("L7_oscNext_bool", padding_value) ],
     frame).
Proof.
  intros Hfile Hheader Hstream. unfold __call__.
  rewrite Hfile, find_data_type_last_match, Hheader. cbn [bind getitem].
  destruct (String.eqb (I3EventHeader.sub_event_stream header) "InIceSplit")
    eqn:E.
  - apply String.eqb_eq in E. contradiction.
  - reflexivity.
Qed.

Lemma call_other_stream_witness :
  fst (__call__ (ext := Sample.externals) (Sample.extractor "/sim/muongun/f.i3")
                (Sample.muon_frame "NullSplit") (PyInt (-1)))
  = Ok [ ("energy", PyInt (-1)); ("position_x", PyInt (-1));
         ("position_y", PyInt (-1)); ("position_z", PyInt (-1));
         ("azimuth", PyInt (-1)); ("zenith", PyInt (-1)); ("pid", PyInt (-1));
         ("event_time", PyInt 1000); ("sim_type", PyStr "muongun");
         ("interaction_type", PyInt (-1)); ("elasticity", PyInt (-1));
         ("RunID", PyInt 7); ("SubrunID", PyInt 2); ("EventID", PyInt 31);
         ("SubEventID", PyInt 0); ("dbang_decay_length", PyInt (-1));
         ("track_length", PyInt (-1)); ("stopped_muon", PyInt (-1));
         ("energy_track", PyInt (-1)); ("inelasticity", PyInt (-1));
         ("DeepCoreFilter_13", PyInt (-1)); ("CascadeFilter_13", PyInt (-1));
         ("MuonFilter_13", PyInt (-1)); ("OnlineL2Filter_17", PyInt (-1));
         ("L3_oscNext_bool", PyInt (-1)); ("L4_oscNext_bool", PyInt (-1));
         ("L5_oscNext_bool", PyInt (-1)); ("L6_oscNext_bool", PyInt (-1));
         ("L7_oscNext_bool", PyInt (-1)) ].
Proof.
  rewrite (call_other_stream (H := Sample.externals)
             (Sample.extractor "/sim/muongun/f.i3") "/sim/muongun/f.i3"
             (Sample.muon_frame "NullSplit") (Sample.header "NullSplit")
             (PyInt (-1)) eq_refl eq_refl).
  - vm_compute. reflexivity.
  - vm_compute. discriminate.
Defined.

(** ** The filter mask and the legacy top-level filter *)

(** C10: when the frame holds a "FilterMask", the top-level
    "DeepCoreFilter_13" is not consulted.  If the mask has no
    "DeepCoreFilter_13" entry, every output the call returns holds the padding
    value in that field, whatever the top-level key holds; and, for frame
    tests that do not look at the top-level key, setting or removing it does
    not change what the call returns or raises.  The top-level key is read
    when "FilterMask" is absent: in the in-ice split its truth value is then
    the field. *)
Theorem FilterMask_shadows_top_level `{Externals} (self : I3TruthExtractor)
    (frame : I3Frame.t) (padding_value : pyval) :
  (forall (mask : gmap string bool) (o : dict),
      I3Frame.FilterMask frame = Some mask ->
      mask !! "DeepCoreFilter_13" = None ->
      fst (__call__ self frame padding_value) = Ok o ->
      dict_get o "DeepCoreFilter_13" = Some padding_value)
  /\ (forall (mask : gmap string bool) (top : option bool),
        I3Frame.FilterMask frame = Some mask ->
        frame_is_montecarlo (I3Frame.with_DeepCoreFilter_13 frame top)
        = frame_is_montecarlo frame ->
        frame_is_noise (I3Frame.with_DeepCoreFilter_13 frame top)
        = frame_is_noise frame ->
        fst (__call__ self (I3Frame.with_DeepCoreFilter_13 frame top)
                      padding_value)
        = fst (__call__ self frame padding_value))
  /\ (forall (header : I3EventHeader.t) (b : bool) (o : dict),
        I3Frame.FilterMask frame = None ->
        I3Frame.DeepCoreFilter_13 frame = Some b ->
        I3Frame.I3EventHeader frame = Some header ->
        I3EventHeader.sub_event_stream header = "InIceSplit" ->
        fst (__call__ self frame padding_value) = Ok o ->
        dict_get o "DeepCoreFilter_13" = Some (PyInt (Z.b2z b))).
Proof.
  assert (Hflags :
    forall o, dict_get (filter_flags frame o) "DeepCoreFilter_13"
    = match I3Frame.FilterMask frame with
      | Some mask =>
          match mask !! "DeepCoreFilter_13" with
          | Some b => Some (PyInt (Z.b2z b))
          | None => dict_get o "DeepCoreFilter_13"
          end
      | None =>
          match I3Frame.DeepCoreFilter_13 frame with
          | Some b => Some (PyInt (Z.b2z b))
          | None => dict_get o "DeepCoreFilter_13"
          end
      end).
  { intros o. unfold filter_flags.
    rewrite !dict_get_set_flag.
    destruct (I3Frame.L7_oscNext_bool frame), (I3Frame.L6_oscNext_bool frame),
      (I3Frame.L5_oscNext_bool frame), (I3Frame.L4_oscNext_bool frame),
      (I3Frame.L3_oscNext_bool frame); cbn [String.eqb Ascii.eqb Bool.eqb];
      (destruct (I3Frame.FilterMask frame) as [mask|];
       [ rewrite !dict_get_set_flag;
         destruct (mask !! "OnlineL2Filter_17"), (mask !! "MuonFilter_13"),
           (mask !! "CascadeFilter_13"), (mask !! "DeepCoreFilter_13");
         reflexivity
       | rewrite dict_get_set_flag;
         destruct (I3Frame.DeepCoreFilter_13 frame); reflexivity ]). }
  assert (Hcall :
    forall header o,
      I3Frame.I3EventHeader frame = Some header ->
      fst (__call__ self frame padding_value) = Ok o ->
      negb (String.eqb (I3EventHeader.sub_event_stream header) "InIceSplit")
      = false ->
      exists sim_type,
        dict_get o "DeepCoreFilter_13"
        = dict_get (filter_flags frame
                      (initial_output header sim_type padding_value))
                   "DeepCoreFilter_13").
  { intros header o Hh Ho Hs. unfold __call__ in Ho.
    destruct (_find_data_type _ _) as [sim_type|]; cbn [bind] in Ho;
      [|discriminate].
    rewrite Hh in Ho. cbn [bind getitem] in Ho. rewrite Hs in Ho.
    exists sim_type.
    destruct (frame_is_montecarlo frame && negb (frame_is_noise frame)).
    - apply (mc_truth_get_other _ _ _ _ _ _ "DeepCoreFilter_13") in Ho;
        [exact Ho|].
      unfold mc_fields. intros Hin.
      repeat (apply elem_of_cons in Hin as [Hin|Hin]; [discriminate Hin|]).
      inversion Hin.
    - cbn [fst] in Ho. inversion Ho; subst o. reflexivity. }
  split; [|split].
  - intros mask o Hmask Hnone Ho.
    unfold __call__ in Ho.
    destruct (_find_data_type _ _) as [sim_type|] eqn:Hsim; cbn [bind] in Ho;
      [|discriminate].
    destruct (I3Frame.I3EventHeader frame) as [header|] eqn:Hh;
      cbn [bind getitem] in Ho; [|discriminate].
    destruct (negb (String.eqb _ _)) eqn:Hs.
    + cbn [fst] in Ho. inversion Ho; subst o. reflexivity.
    + destruct (Hcall header o eq_refl) as [sim' Hget]; [|exact Hs|].
      * unfold __call__. rewrite Hsim, Hh. cbn [bind getitem].
        rewrite Hs. exact Ho.
      * rewrite Hget, Hflags, Hmask, Hnone. reflexivity.
  - intros mask top Hmask Hmc Hnoise. unfold __call__.
    rewrite Hmc, Hnoise. cbn [I3Frame.with_DeepCoreFilter_13
      I3Frame.I3EventHeader].
    destruct (_find_data_type _ _) as [sim_type|]; cbn [bind];
      [|reflexivity].
    destruct (I3Frame.I3EventHeader frame) as [header|];
      cbn [bind getitem]; [|reflexivity].
    destruct (negb (String.eqb _ _)); [reflexivity|].
    assert (Hff : forall o,
      filter_flags (I3Frame.with_DeepCoreFilter_13 frame top) o
      = filter_flags frame o).
    { intros o. unfold filter_flags.
      cbn [I3Frame.with_DeepCoreFilter_13 I3Frame.FilterMask
           I3Frame.L3_oscNext_bool I3Frame.L4_oscNext_bool
           I3Frame.L5_oscNext_bool I3Frame.L6_oscNext_bool
           I3Frame.L7_oscNext_bool].
      rewrite Hmask. reflexivity. }
    rewrite Hff.
    destruct (frame_is_montecarlo frame && negb (frame_is_noise frame));
      [|reflexivity].
    unfold mc_truth, _extract_dbang_decay_length,
      _get_primary_particle_interaction_type_and_elasticity,
      _get_primary_track_energy_and_inelasticity.
    cbn [I3Frame.with_DeepCoreFilter_13 I3Frame.MCInIcePrimary
         I3Frame.I3MCTree I3Frame.I3MCWeightDict I3Frame.I3GENIEResultDict].
    repeat match goal with
           | |- context [match ?r with Ok _ => _ | Raise _ => _ end] =>
               destruct r
           | |- context [let (_, _) := ?r in _] => destruct r
           end; reflexivity.
  - intros header b o Hmask Htop Hh Hstream Ho.
    destruct (Hcall header o Hh Ho) as [sim' Hget].
    + rewrite Hstream. reflexivity.
    + rewrite Hget, Hflags, Hmask, Htop. reflexivity.
Qed.

Lemma FilterMask_shadows_top_level_witness :
  exists o : dict,
    fst (__call__ (ext := Sample.externals) (Sample.extractor "/data/f.i3")
                  Sample.masked_frame (PyInt (-1))) = Ok o
    /\ dict_get o "DeepCoreFilter_13" = Some (PyInt (-1))
    /\ dict_get o "CascadeFilter_13" = Some (PyInt 1).
Proof.
  eexists. split; [vm_compute; reflexivity|]. split.
  - apply (proj1 (FilterMask_shadows_top_level (H := Sample.externals)
                    (Sample.extractor "/data/f.i3") Sample.masked_frame
                    (PyInt (-1)))
             {[ "CascadeFilter_13" := true ]}).
    + reflexivity.
    + vm_compute. reflexivity.
    + vm_compute. reflexivity.
  - vm_compute. reflexivity.
Defined.

(** ** The padding value and the helper for the primary *)

(** C1, at a failing input: a Monte-Carlo frame of the in-ice split without
    weight and generator dictionaries, extracted with the padding value 0.
    The call returns the 29 fields; the fields it cannot fill hold 0, but
    interaction_type and elasticity hold -1, the default of the helper that
    is called without the padding value. *)
Theorem padding_not_passed_to_primary_helper :
  exists o : dict,
    fst (__call__ (ext := Sample.externals) (Sample.extractor "/sim/genie/f.i3")
                  Sample.dbang_frame (PyInt 0)) = Ok o
    /\ keys o = schema
    /\ I3Frame.I3MCWeightDict Sample.dbang_frame = None
    /\ I3Frame.I3GENIEResultDict Sample.dbang_frame = None
    /\ dict_get o "interaction_type" = Some (PyInt (-1))
    /\ dict_get o "elasticity" = Some (PyInt (-1))
    /\ dict_get o "track_length" = Some (PyInt 0)
    /\ dict_get o "stopped_muon" = Some (PyInt 0)
    /\ dict_get o "DeepCoreFilter_13" = Some (PyInt 0).
Proof.
  eexists. split; [vm_compute; reflexivity|].
  repeat split; vm_compute; reflexivity.
Qed.

(** The same frame read from a file whose path holds "noise": the helper
    gives no primary for the simulation type "noise", and the call, which
    asks the frame and not the path whether the event is noise, raises. *)
Lemma call_noise_path_raises :
  Sample.externals.(frame_is_montecarlo) Sample.dbang_frame = true
  /\ Sample.externals.(frame_is_noise) Sample.dbang_frame = false
  /\ fst (__call__ (ext := Sample.externals)
                   (Sample.extractor "/sim/noise/genie.i3")
                   Sample.dbang_frame (PyInt (-1)))
     = Raise AttributeError.
Proof. repeat split; vm_compute; reflexivity. Qed.

(** ** The particle tree after a call *)

(** Were the daughters that the tree hands out its own objects, the merge of
    the decay-length search would reach the tree.  The tree of the sample
    frame has a heavy neutral lepton with two decay particles of energies 10
    and 5: two calls in a row return the same output, but the first leaves
    the first decay particle of the tree with the energy 15, and the second
    with 20. *)
Lemma shared_daughters_merge_changes_tree :
  let self := Sample.extractor "/sim/genie/f.i3" in
  let first := __call__ (ext := Sample.sharing_externals) self
                        Sample.dbang_frame (PyInt (-1)) in
  let second := __call__ (ext := Sample.sharing_externals) self (snd first)
                         (PyInt (-1)) in
  I3Frame.I3MCTree Sample.dbang_frame = Some (Sample.dbang_tree_with 10)
  /\ I3Frame.I3MCTree (snd first) = Some (Sample.dbang_tree_with 15)
  /\ I3Frame.I3MCTree (snd second) = Some (Sample.dbang_tree_with 20)
  /\ PrimFloat.eqb 10 15 = false
  /\ fst second = fst first
  /\ exists o, fst first = Ok o
               /\ dict_get o "dbang_decay_length" = Some (PyFloat 30).
Proof.
  repeat split; try (vm_compute; reflexivity).
  eexists. split; vm_compute; reflexivity.
Qed.

(** ** The primary particle *)

(** C6, as stated: the not-a-number fallback is not confined to the first
    tree entry.  The sample frame has a named primary whose energy is not a
    number; the helper returns the second tree entry, not the named
    primary. *)
Lemma named_primary_nan_falls_back :
  ~ (forall (frame : I3Frame.t) (sim_type : string)
            (padding_value : pyval) (named : I3Particle.t),
        sim_type <> "noise" ->
        I3Frame.MCInIcePrimary frame = Some named ->
        exists interaction_type elasticity,
          _get_primary_particle_interaction_type_and_elasticity
            frame sim_type padding_value
          = Ok (Some named, interaction_type, elasticity)).
Proof.
  intros H.
  destruct (H Sample.placeholder_frame "muongun" (PyInt (-1))
              Sample.placeholder)
    as (it & el & Hres).
  - discriminate.
  - reflexivity.
  - vm_compute in Hres. discriminate Hres.
Qed.

(** C6, amended: for a simulation type other than "noise", the particle
    chosen first is the named primary when the frame has one and the first
    tree entry otherwise; it is the primary when its energy is a number, and
    when its energy is not a number, whichever of the two it is, the second
    tree entry is the primary. *)
Theorem primary_resolution (frame : I3Frame.t)
    (sim_type : string) (padding_value : pyval) (chosen : I3Particle.t) :
  sim_type <> "noise" ->
  (I3Frame.MCInIcePrimary frame = Some chosen
   \/ (I3Frame.MCInIcePrimary frame = None
       /\ exists tree, I3Frame.I3MCTree frame = Some tree
                       /\ I3MCTree.item tree 0 = Ok chosen)) ->
  exists interaction_type elasticity,
    (PrimFloat.eqb (I3Particle.energy chosen) (I3Particle.energy chosen) = true ->
     _get_primary_particle_interaction_type_and_elasticity
       frame sim_type padding_value
     = Ok (Some chosen, interaction_type, elasticity))
    /\ (PrimFloat.eqb (I3Particle.energy chosen) (I3Particle.energy chosen)
        = false ->
        forall tree second,
          I3Frame.I3MCTree frame = Some tree ->
          I3MCTree.item tree 1 = Ok second ->
          _get_primary_particle_interaction_type_and_elasticity
            frame sim_type padding_value
          = Ok (Some second, interaction_type, elasticity)).
Proof.
  intros Hsim Hchosen.
  assert (Hnoise : String.eqb sim_type "noise" = false).
  { destruct (String.eqb sim_type "noise") eqn:E; [|reflexivity].
    apply String.eqb_eq in E. contradiction. }
  unfold _get_primary_particle_interaction_type_and_elasticity.
  rewrite Hnoise. cbn [negb].
  assert (Hfirst :
    except_KeyError (getitem (I3Frame.MCInIcePrimary frame))
      (tree <- getitem (I3Frame.I3MCTree frame) ;; I3MCTree.item tree 0)
    = Ok chosen).
  { destruct Hchosen as [->|[-> (tree & -> & Hitem)]]; cbn; [reflexivity|].
    exact Hitem. }
  rewrite Hfirst. cbn [bind]. unfold float_ne.
  destruct (except_KeyError
              (d <- getitem (I3Frame.I3MCWeightDict frame) ;;
               v <- getitem (d !! "InteractionType") ;; Ok (PyFloat v))
              (Ok padding_value)) as [it|e1] eqn:Hit.
  2:{ exfalso. revert Hit. unfold except_KeyError.
      destruct (I3Frame.I3MCWeightDict frame) as [d|]; cbn; [|discriminate].
      destruct (d !! "InteractionType"); cbn; discriminate. }
  destruct (except_KeyError
              (d <- getitem (I3Frame.I3GENIEResultDict frame) ;;
               v <- getitem (d !! "y") ;; Ok (PyFloat v))
              (Ok padding_value)) as [el|e2] eqn:Hel.
  2:{ exfalso. revert Hel. unfold except_KeyError.
      destruct (I3Frame.I3GENIEResultDict frame) as [d|]; cbn; [|discriminate].
      destruct (d !! "y"); cbn; discriminate. }
  exists it, el. split.
  - intros ->. reflexivity.
  - intros -> tree second Htree Hitem. cbn [negb].
    rewrite Htree. cbn [getitem bind]. rewrite Hitem. reflexivity.
Qed.

Lemma primary_resolution_witness :
  exists interaction_type elasticity,
    _get_primary_particle_interaction_type_and_elasticity
      Sample.placeholder_frame "muongun" (PyInt (-1))
    = Ok (Some Sample.muon, interaction_type, elasticity).
Proof.
  destruct (primary_resolution Sample.placeholder_frame "muongun" (PyInt (-1))
              Sample.placeholder)
    as (it & el & _ & Hnan).
  - discriminate.
  - left. reflexivity.
  - exists it, el.
    apply (Hnan eq_refl [ I3MCTree.Node Sample.placeholder
                            [ I3MCTree.Node Sample.muon [] ] ]);
      reflexivity.
Defined.

(** ** The muon branch *)

Lemma dict_update_snoc (d u : dict) (k : string) (v : pyval) :
  dict_update d (u ++ [(k, v)])%list = dict_set (dict_update d u) k v.
Proof. unfold dict_update. rewrite fold_left_app. reflexivity. Qed.

(** A lookup after an update: the last entry of the update for the key, and
    the old value when the update has none. *)
Lemma dict_get_update (d u : dict) (k : string) :
  dict_get (dict_update d u) k
  = match dict_get (rev u) k with
    | Some v => Some v
    | None => dict_get d k
    end.
Proof.
  induction u as [|[k0 v0] u IH] using rev_ind; [reflexivity|].
  rewrite dict_update_snoc, dict_get_set, rev_app_distr. cbn [rev app dict_get].
  destruct (String.eqb k k0); [reflexivity|exact IH].
Qed.

Section Muon.

Context {ext : Externals}.

Lemma dbang_returns (frame : I3Frame.t) (tree : I3MCTree.t)
    (padding_value : pyval) :
  I3Frame.I3MCTree frame = Some tree ->
  exists decay_length,
    fst (_extract_dbang_decay_length frame padding_value) = Ok decay_length.
Proof.
  intros Htree. unfold _extract_dbang_decay_length. rewrite Htree.
  cbn [getitem fst].
  destruct (fst (dbang_try tree padding_value)); eauto.
Qed.

Lemma track_energy_needs_tree (frame : I3Frame.t) r :
  _get_primary_track_energy_and_inelasticity frame = Ok r ->
  exists tree, I3Frame.I3MCTree frame = Some tree.
Proof.
  unfold _get_primary_track_energy_and_inelasticity.
  destruct (I3Frame.I3MCTree frame) as [tree|]; [eauto|discriminate].
Qed.

End Muon.




(** ** The decay length *)

Section DecayLength.

Context {ext : Externals}.

Lemma set_energy_id (p : I3Particle.t) :
  I3Particle.set_energy p (I3Particle.energy p) = p.
Proof. destruct p. reflexivity. Qed.

Lemma merge_same_place (casc : I3Particle.t) (rest : list I3MCTree.node) :
  same_place casc rest = true ->
  merge_hnl_daughters casc rest = (Ok tt, merged_cascade casc rest).
Proof.
  revert casc. induction rest as [|d rest IH]; intros casc Hsame.
  - unfold merged_cascade. cbn. rewrite set_energy_id. reflexivity.
  - cbn in Hsame. apply andb_prop in Hsame as [Hd Hrest].
    cbn [merge_hnl_daughters]. rewrite Hd. rewrite IH.
    + unfold merged_cascade. cbn. reflexivity.
    + exact Hrest.
Qed.

Lemma merge_other_place (casc : I3Particle.t) (rest : list I3MCTree.node) :
  same_place casc rest = false ->
  fst (merge_hnl_daughters casc rest) = Raise AssertionError.
Proof.
  revert casc. induction rest as [|d rest IH]; intros casc Hsame.
  - discriminate Hsame.
  - cbn in Hsame. cbn [merge_hnl_daughters].
    destruct (I3Position_eq _ _); [|reflexivity].
    apply IH. exact Hsame.
Qed.

Lemma classify_two (a b : I3MCTree.node) :
  classify_daughters [a; b]
  = match is_Hadrons (I3Particle.type (I3MCTree.particle a)),
          is_Hadrons (I3Particle.type (I3MCTree.particle b)) with
    | true, true => (Some b, None)
    | true, false => (Some a, Some (1%nat, b))
    | false, true => (Some b, Some (0%nat, a))
    | false, false => (None, Some (1%nat, b))
    end.
Proof.
  unfold classify_daughters. cbn.
  destruct (is_Hadrons (I3Particle.type (I3MCTree.particle a))),
    (is_Hadrons (I3Particle.type (I3MCTree.particle b))); reflexivity.
Qed.

End DecayLength.

Section DecayLengthValue.

Context {ext : Externals}.

(** On a frame with a tree the search returns the decay length it finds,
    and the padding value when it finds none. *)
Lemma decay_length_value (frame : I3Frame.t) (mctree : I3MCTree.t)
    (padding_value : pyval) :
  I3Frame.I3MCTree frame = Some mctree ->
  fst (_extract_dbang_decay_length frame padding_value)
  = Ok (default padding_value (PyFloat <$> found_decay_length mctree)).
Proof.
  intros Htree.
  unfold _extract_dbang_decay_length. rewrite Htree. cbn [getitem fst].
  unfold found_decay_length, dbang_try, double_cascade.
  destruct mctree as [|[p_true p_daughters] others]; [reflexivity|].
  cbn [I3MCTree.primaries index lookup list_lookup bind
       I3MCTree.get_daughters].
  destruct p_daughters as [|a [|b [|c ds]]]; try reflexivity.
  cbn [List.length Nat.eqb]. rewrite classify_two.
  destruct (is_Hadrons (I3Particle.type (I3MCTree.particle a))),
    (is_Hadrons (I3Particle.type (I3MCTree.particle b)));
    cbn [fst snd local bind]; try reflexivity.
  - destruct (I3MCTree.get_daughters b) as [|first rest]; [reflexivity|].
    destruct (same_place (I3MCTree.particle first) rest) eqn:Hsame.
    + rewrite (merge_same_place _ _ Hsame). cbn [fst snd bind local].
      unfold truediv. destruct (PrimFloat.eqb I3Units_m 0); reflexivity.
    + cbn [fst]. rewrite (merge_other_place _ _ Hsame). reflexivity.
  - destruct (I3MCTree.get_daughters a) as [|first rest]; [reflexivity|].
    destruct (same_place (I3MCTree.particle first) rest) eqn:Hsame.
    + rewrite (merge_same_place _ _ Hsame). cbn [fst snd bind local].
      unfold truediv. destruct (PrimFloat.eqb I3Units_m 0); reflexivity.
    + cbn [fst]. rewrite (merge_other_place _ _ Hsame). reflexivity.
  - destruct (I3MCTree.get_daughters b) as [|first rest]; [reflexivity|].
    cbn [fst]. destruct (fst (merge_hnl_daughters _ _)); reflexivity.
Qed.

End DecayLengthValue.

(** C5, as stated: a frame without a particle tree.  The lookup of the tree
    stands before the [try] of the search: the [KeyError] leaves the method,
    which returns no padding value. *)
Lemma decay_length_without_tree_raises :
  let frame := Sample.frame_with "InIceSplit" (Some Sample.nu) None in
  let search := _extract_dbang_decay_length (ext := Sample.externals)
                  frame (PyInt (-1)) in
  I3Frame.I3MCTree frame = None
  /\ fst search = Raise KeyError
  /\ fst search <> Ok (PyInt (-1)).
Proof. repeat split. discriminate. Qed.

(** C5, amended: on a frame that holds a particle tree, the decay-length
    computation raises nothing.  It returns the distance between the hadronic
    cascade and the merged cascade, over the length unit, exactly when the
    first primary has exactly two daughters, exactly one of them of type
    Hadrons, the one that is not has at least one daughter, and all its
    further daughters are where the first is; in every other case (no
    primary, not exactly two daughters, both or none of them of type
    Hadrons, no daughter to merge, a failed assertion) it returns the padding
    value.  The merged cascade is the first daughter, at its own position,
    with the energies of the further daughters added in order.  On a frame
    without a particle tree the computation raises [KeyError]. *)
Theorem decay_length_correct `{Externals} (frame : I3Frame.t)
    (padding_value : pyval) :
  PrimFloat.eqb I3Units_m 0 = false ->
  match I3Frame.I3MCTree frame with
  | Some mctree =>
      fst (_extract_dbang_decay_length frame padding_value)
      = Ok (decay_length_spec mctree padding_value)
  | None =>
      fst (_extract_dbang_decay_length frame padding_value) = Raise KeyError
  end
  /\ (forall casc rest,
        I3Particle.pos (merged_cascade casc rest) = I3Particle.pos casc
        /\ I3Particle.energy (merged_cascade casc rest)
           = fold_left PrimFloat.add
               (map (fun d => I3Particle.energy (I3MCTree.particle d)) rest)
               (I3Particle.energy casc)).
Proof.
  intros Hunit. split; [|intros; split; reflexivity].
  destruct (I3Frame.I3MCTree frame) as [mctree|] eqn:Htree.
  - rewrite (decay_length_value frame mctree padding_value Htree).
    unfold found_decay_length, decay_length_spec. rewrite Hunit.
    destruct (double_cascade mctree) as [[[casc_0 first] rest]|];
      [|reflexivity].
    destruct (same_place first rest); reflexivity.
  - unfold _extract_dbang_decay_length. rewrite Htree. reflexivity.
Qed.

Lemma decay_length_correct_witness :
  fst (_extract_dbang_decay_length (ext := Sample.externals)
         Sample.dbang_frame (PyInt (-1)))
  = Ok (PyFloat 30).
Proof.
  pose proof (proj1 (decay_length_correct (H := Sample.externals)
                       Sample.dbang_frame (PyInt (-1)) eq_refl)) as Hvalue.
  change (fst (_extract_dbang_decay_length (ext := Sample.externals)
                 Sample.dbang_frame (PyInt (-1)))
          = Ok (decay_length_spec (ext := Sample.externals)
                  Sample.dbang_tree (PyInt (-1)))) in Hvalue.
  rewrite Hvalue. vm_compute. reflexivity.
Defined.

(** ** The padding value *)

Lemma fill_set (T : template) (k : string) (v : option pyval) (p : pyval) :
  dict_set (fill T p) k (default p v) = fill (tset T k v) p.
Proof.
  induction T as [|[k' v'] T IH]; cbn; [reflexivity|].
  destruct (String.eqb k k'); cbn; [reflexivity|].
  f_equal. exact IH.
Qed.

Lemma fill_update (T U : template) (p : pyval) :
  dict_update (fill T p) (fill U p) = fill (tupdate T U) p.
Proof.
  unfold dict_update, tupdate. revert T.
  induction U as [|[k v] U IH]; intros T; cbn; [reflexivity|].
  rewrite fill_set. apply IH.
Qed.

Lemma dict_get_fill (T : template) (k : string) (p : pyval) :
  dict_get (fill T p) k = default p <$> tget T k.
Proof.
  induction T as [|[k' v'] T IH]; cbn; [reflexivity|].
  destruct (String.eqb k k'); [reflexivity|exact IH].
Qed.

Lemma padded_get (T : template) (k : string) (p : pyval) :
  padded T k = true -> dict_get (fill T p) k = Some p.
Proof.
  unfold padded. rewrite dict_get_fill.
  destruct (tget T k) as [[v|]|]; try discriminate. reflexivity.
Qed.

Lemma computed_get (T : template) (k : string) (p q : pyval) :
  padded T k = false -> dict_get (fill T p) k = dict_get (fill T q) k.
Proof.
  unfold padded. rewrite !dict_get_fill.
  destruct (tget T k) as [[v|]|]; try discriminate; reflexivity.
Qed.

Section Padding.

Context {ext : Externals}.

Lemma initial_output_fill header sim_type p :
  initial_output header sim_type p = fill (initial_template header sim_type) p.
Proof. reflexivity. Qed.

Lemma set_flag_fill (T : template) (name : string) (entry : option bool)
    (p : pyval) :
  set_flag (fill T p) name entry
  = fill (match entry with
          | Some b => tset T name (Some (PyInt (Z.b2z b)))
          | None => T
          end) p.
Proof.
  destruct entry as [b|]; cbn [set_flag]; [|reflexivity].
  apply (fill_set T name (Some (PyInt (Z.b2z b))) p).
Qed.

Lemma filter_flags_fill (frame : I3Frame.t) (T : template) :
  exists T', forall p, filter_flags frame (fill T p) = fill T' p.
Proof.
  unfold filter_flags.
  destruct (I3Frame.FilterMask frame) as [mask|];
    eexists; intros p; rewrite !set_flag_fill; reflexivity.
Qed.

(** The decay length is the padding value or does not depend on it. *)
Lemma dbang_fill (frame : I3Frame.t) (tree : I3MCTree.t) :
  I3Frame.I3MCTree frame = Some tree ->
  exists v : option pyval,
    forall p, fst (_extract_dbang_decay_length frame p) = Ok (default p v).
Proof.
  intros Htree. unfold _extract_dbang_decay_length. rewrite Htree.
  cbn [getitem fst]. unfold dbang_try.
  destruct (p_true <- index (I3MCTree.primaries tree) 0 ;; _)
    as [[[casc_0 place] ds]|e].
  2:{ exists None. reflexivity. }
  destruct ds as [|first rest]; [exists None; reflexivity|].
  destruct place as [j|]; [|exists None; reflexivity].
  cbn [fst].
  destruct (_ <- fst (merge_hnl_daughters (I3MCTree.particle first) rest) ;; _)
    as [v|e].
  - exists (Some v). reflexivity.
  - exists None. reflexivity.
Qed.

(** After the update with the truth fields the muon branch raises nothing,
    and what it writes does not depend on the rest of the output. *)
Lemma muon_update_truth_fields self primary output it el dl et inel :
  muon_update self primary
    (dict_update output (truth_fields primary it el dl et inel))
  = Ok (if Z.abs (I3Particle.pdg_encoding primary) =? 13
        then dict_update
               (dict_update
                  (dict_update output (truth_fields primary it el dl et inel))
                  [ ("track_length", PyFloat (I3Particle.length primary)) ])
               (muon_fields self primary)
        else dict_update output (truth_fields primary it el dl et inel)).
Proof.
  unfold muon_update.
  rewrite dict_get_update. cbn [truth_fields rev app dict_get]. eval_eqb.
  cbn [getitem bind abs_eq].
  destruct (Z.abs (I3Particle.pdg_encoding primary) =? 13); [|reflexivity].
  unfold _muon_stopped, truth_float.
  repeat (rewrite !dict_get_update;
          cbn [truth_fields rev app dict_get]; eval_eqb;
          cbn [getitem bind as_float]).
  cbn [fst snd dict_get]. eval_eqb. cbn [getitem bind].
  reflexivity.
Qed.

Lemma fill_const (u : dict) (p : pyval) : fill (const_template u) p = u.
Proof.
  unfold fill, const_template. rewrite map_map.
  induction u as [|[k v] u IH]; cbn; [reflexivity|]. f_equal. exact IH.
Qed.

Lemma truth_fields_fill primary it el (dl : option pyval) et inel p :
  truth_fields primary it el (default p dl) et inel
  = fill (tset (const_template (truth_fields primary it el PyNone et inel))
               "dbang_decay_length" dl) p.
Proof. reflexivity. Qed.

Lemma mc_truth_fill self frame sim_type (T : template) :
  (exists e, forall p, fst (mc_truth self frame sim_type p (fill T p)) = Raise e)
  \/ (exists T', forall p,
         fst (mc_truth self frame sim_type p (fill T p)) = Ok (fill T' p)).
Proof.
  unfold mc_truth.
  destruct (_get_primary_particle_interaction_type_and_elasticity _ _ _)
    as [[[primary it] el]|e]; cbn [bind]; [|left; exists e; reflexivity].
  destruct (_get_primary_track_energy_and_inelasticity frame)
    as [[et inel]|e] eqn:Htrack; cbn [bind]; [|left; exists e; reflexivity].
  cbn [fst snd]. destruct primary as [primary|]; cbn [deref bind fst snd];
    [|left; exists AttributeError; reflexivity].
  destruct (track_energy_needs_tree _ _ Htrack) as [tree Htree].
  destruct (dbang_fill frame tree Htree) as [dl Hdl].
  right.
  exists (if Z.abs (I3Particle.pdg_encoding primary) =? 13
          then tupdate
                 (tupdate
                    (tupdate T
                       (tset (const_template
                                (truth_fields primary it el PyNone et inel))
                             "dbang_decay_length" dl))
                    (const_template
                       [ ("track_length",
                          PyFloat (I3Particle.length primary)) ]))
                 (const_template (muon_fields self primary))
          else tupdate T
                 (tset (const_template
                          (truth_fields primary it el PyNone et inel))
                       "dbang_decay_length" dl)).
  intros p. rewrite Hdl. cbn [bind].
  rewrite muon_update_truth_fields. f_equal.
  rewrite truth_fields_fill, fill_update.
  destruct (Z.abs (I3Particle.pdg_encoding primary) =? 13); [|reflexivity].
  rewrite <- (fill_const [ ("track_length", _) ] p) at 1.
  rewrite fill_update.
  rewrite <- (fill_const (muon_fields self primary) p) at 1.
  rewrite fill_update. reflexivity.
Qed.

(** The call raises the same exception for every padding value, or returns
    one template filled with the padding value. *)
Lemma call_fill self frame :
  (exists e, forall p, fst (__call__ self frame p) = Raise e)
  \/ (exists T, forall p, fst (__call__ self frame p) = Ok (fill T p)).
Proof.
  unfold __call__.
  destruct (_find_data_type _ _) as [sim_type|e]; cbn [bind];
    [|left; exists e; reflexivity].
  destruct (getitem (I3Frame.I3EventHeader frame)) as [header|e];
    cbn [bind]; [|left; exists e; reflexivity].
  destruct (negb (String.eqb _ _)).
  - right. exists (initial_template header sim_type). reflexivity.
  - destruct (filter_flags_fill frame (initial_template header sim_type))
      as [T HT].
    destruct (frame_is_montecarlo frame && negb (frame_is_noise frame)).
    + destruct (mc_truth_fill self frame sim_type T) as [[e He]|[T' HT']].
      * left. exists e. intros p.
        rewrite initial_output_fill, HT. apply He.
      * right. exists T'. intros p.
        rewrite initial_output_fill, HT. apply HT'.
    + right. exists T. intros p. cbn [fst].
      rewrite initial_output_fill, HT. reflexivity.
Qed.

End Padding.

Section PaddingTheorem.

Context {ext : Externals}.

Lemma primary_helper_defaults frame sim_type padding_value primary it el :
  _get_primary_particle_interaction_type_and_elasticity
    frame sim_type padding_value = Ok (primary, it, el) ->
  (I3Frame.I3MCWeightDict frame = None -> it = padding_value)
  /\ (I3Frame.I3GENIEResultDict frame = None -> el = padding_value).
Proof.
  unfold _get_primary_particle_interaction_type_and_elasticity.
  destruct (if negb (String.eqb sim_type "noise") then _ else _) as [m|];
    cbn [bind]; [|discriminate].
  intros Hres. split; intros Hnone; rewrite Hnone in Hres;
    cbn [getitem bind except_KeyError] in Hres.
  - destruct (except_KeyError _ _) in Hres; cbn [bind] in Hres;
      [|discriminate]. inversion Hres. reflexivity.
  - destruct (except_KeyError _ _) in Hres; cbn [bind] in Hres;
      [|discriminate]. inversion Hres. reflexivity.
Qed.

(** In the Monte-Carlo branch, interaction_type and elasticity are what the
    helper returned, for every padding value of the call. *)
Lemma mc_interaction_type self frame header :
  I3Frame.I3EventHeader frame = Some header ->
  I3EventHeader.sub_event_stream header = "InIceSplit" ->
  frame_is_montecarlo frame = true ->
  frame_is_noise frame = false ->
  exists it el,
    (I3Frame.I3MCWeightDict frame = None -> it = PyInt (-1))
    /\ (I3Frame.I3GENIEResultDict frame = None -> el = PyInt (-1))
    /\ forall p o,
         fst (__call__ self frame p) = Ok o ->
         dict_get o "interaction_type" = Some it
         /\ dict_get o "elasticity" = Some el.
Proof.
  intros Hheader Hstream Hmc Hnoise. unfold __call__.
  rewrite Hheader, Hmc, Hnoise.
  destruct (_find_data_type true (_i3_file self)) as [sim_type|e];
    cbn [bind getitem andb negb].
  2:{ exists (PyInt (-1)), (PyInt (-1)).
      split; [reflexivity|]. split; [reflexivity|].
      intros p o Ho. discriminate Ho. }
  rewrite Hstream. eval_eqb. cbn [negb].
  destruct (_get_primary_particle_interaction_type_and_elasticity
              frame sim_type (PyInt (-1))) as [[[primary it] el]|e] eqn:Hp.
  2:{ exists (PyInt (-1)), (PyInt (-1)).
      split; [reflexivity|]. split; [reflexivity|].
      intros p o Ho. apply mc_truth_inv in Ho.
      destruct Ho as (? & ? & ? & ? & ? & ? & Hp' & _).
      rewrite Hp in Hp'. discriminate Hp'. }
  destruct (primary_helper_defaults _ _ _ _ _ _ Hp) as [Hit Hel].
  exists it, el. split; [exact Hit|]. split; [exact Hel|].
  intros p o Ho. apply mc_truth_inv in Ho.
  destruct Ho as (pr & it' & el' & et & inel & dl & Hp' & _ & _ & Hm).
  rewrite Hp in Hp'. inversion Hp'; subst it' el'.
  rewrite !(muon_update_get_other _ _ _ _ _ Hm).
  - rewrite !dict_get_update. cbn [truth_fields rev app dict_get]. eval_eqb.
    split; reflexivity.
  - intros Hin.
    repeat (apply elem_of_cons in Hin as [Hin|Hin]; [discriminate Hin|]).
    inversion Hin.
  - intros Hin.
    repeat (apply elem_of_cons in Hin as [Hin|Hin]; [discriminate Hin|]).
    inversion Hin.
Qed.

End PaddingTheorem.

(** * Further properties of the code *)

(** ** Substrings *)

Lemma prefix_app (word rest : string) :
  String.prefix word (word ++ rest) = true.
Proof.
  induction word as [|c word IH]; simpl.
  - destruct rest; reflexivity.
  - destruct (ascii_dec c c) as [_|Hne]; [exact IH|contradiction].
Qed.

Lemma prefix_split (word s : string) :
  String.prefix word s = true -> exists rest, s = word ++ rest.
Proof.
  revert s. induction word as [|c word IH]; intros s Hp.
  - exists s. reflexivity.
  - destruct s as [|c' s]; [discriminate Hp|]. simpl in Hp.
    destruct (ascii_dec c c') as [Hc|Hc]; [|discriminate Hp]. subst c'.
    destruct (IH s Hp) as [rest ->]. exists rest. reflexivity.
Qed.

Lemma str_in_prefix (word s : string) :
  String.prefix word s = true -> str_in word s = true.
Proof. intros Hp. destruct s; cbn [str_in]; rewrite Hp; reflexivity. Qed.

(** The substring test holds exactly for the strings that hold the word
    between a beginning and an end. *)
Lemma str_in_iff (word s : string) :
  str_in word s = true <-> exists before after, s = before ++ word ++ after.
Proof.
  split.
  - induction s as [|c s IH]; cbn [str_in]; intros Hin.
    + rewrite orb_false_r in Hin. destruct (prefix_split _ _ Hin) as [rest ->].
      exists "", rest. reflexivity.
    + apply orb_prop in Hin as [Hp|Hin].
      * destruct (prefix_split _ _ Hp) as [rest ->].
        exists "", rest. reflexivity.
      * destruct (IH Hin) as (before & after & ->).
        exists (String c before), after. reflexivity.
  - intros (before & after & ->).
    induction before as [|c before IH].
    + change (str_in word (word ++ after) = true).
      apply str_in_prefix, prefix_app.
    + change (str_in word (String c (before ++ word ++ after)) = true).
      cbn [str_in]. rewrite IH. apply orb_true_r.
Qed.

Lemma str_in_app (word before after : string) :
  str_in word (before ++ word ++ after) = true.
Proof. apply str_in_iff. eauto. Qed.

Lemma lower_app (a b : string) : lower (a ++ b) = lower a ++ lower b.
Proof.
  induction a as [|c a IH]; [reflexivity|].
  change (String (ascii_lower c) (lower (a ++ b))
          = String (ascii_lower c) (lower a ++ lower b)).
  rewrite IH. reflexivity.
Qed.

(** ** More on the simulation type *)

(** X1: "L2" anywhere in the path decides: the type is "dbang", whatever the
    Monte-Carlo flag and whatever else the path holds.  A path with "noise"
    and without "L2" is "noise". *)
Theorem find_data_type_last_rules (mc : bool) (before after : string) :
  _find_data_type mc (Some (before ++ "L2" ++ after)) = Ok "dbang"
  /\ (str_in "L2" (before ++ "noise" ++ after) = false ->
      _find_data_type mc (Some (before ++ "noise" ++ after)) = Ok "noise").
Proof.
  split.
  - unfold _find_data_type. cbv zeta. rewrite str_in_app. reflexivity.
  - intros HL2. unfold _find_data_type. cbv zeta.
    rewrite HL2, str_in_app. reflexivity.
Qed.

Lemma find_data_type_last_rules_witness :
  _find_data_type false (Some ("/data/" ++ "noise" ++ "/run1.i3.zst"))
  = Ok "noise".
Proof.
  apply (proj2 (find_data_type_last_rules false "/data/" "/run1.i3.zst")).
  vm_compute. reflexivity.
Defined.

(** X2: the Monte-Carlo flag matters only for paths that match no rule: the
    type is "NuGen" exactly for a Monte-Carlo file whose path matches none of
    the five rules, "data" exactly for such a file that is not Monte Carlo,
    and for a path that matches a rule the flag makes no difference. *)
Theorem find_data_type_start_tags (mc : bool) (path : string) :
  let no_rule :=
    negb (str_in "muon" path) && negb (str_in "corsika" path)
    && negb (str_in "genie" path || str_in "nu" (lower path))
    && negb (str_in "noise" path) && negb (str_in "L2" path) in
  (_find_data_type mc (Some path) = Ok "NuGen"
   <-> mc = true /\ no_rule = true)
  /\ (_find_data_type mc (Some path) = Ok "data"
      <-> mc = false /\ no_rule = true)
  /\ (no_rule = false ->
      _find_data_type true (Some path) = _find_data_type false (Some path)).
Proof.
  unfold _find_data_type. cbv zeta.
  destruct (str_in "L2" path), (str_in "noise" path),
    (str_in "genie" path || str_in "nu" (lower path)),
    (str_in "corsika" path), (str_in "muon" path), mc; cbn;
    repeat split; try intros [? ?]; try intros ?;
    try discriminate; try reflexivity.
Qed.

Lemma find_data_type_start_tags_witness :
  _find_data_type true (Some "/sim/L2/a.i3")
  = _find_data_type false (Some "/sim/L2/a.i3").
Proof.
  apply (proj2 (proj2 (find_data_type_start_tags true "/sim/L2/a.i3"))).
  vm_compute. reflexivity.
Defined.

(** X3: a path that holds "NuGen" is never classified as "NuGen": the
    case-insensitive "nu" rule makes it "genie", unless "noise" or "L2" take
    over. *)
Theorem find_data_type_NuGen_path (mc : bool) (before after : string) :
  exists tag,
    _find_data_type mc (Some (before ++ "NuGen" ++ after)) = Ok tag
    /\ (tag = "genie" \/ tag = "noise" \/ tag = "dbang").
Proof.
  assert (Hnu : str_in "nu" (lower (before ++ "NuGen" ++ after)) = true).
  { rewrite !lower_app. apply str_in_iff.
    exists (lower before), ("gen" ++ lower after). reflexivity. }
  set (path := before ++ "NuGen" ++ after) in *.
  unfold _find_data_type. cbv zeta. rewrite Hnu, orb_true_r.
  destruct (str_in "L2" path), (str_in "noise" path); eauto.
Qed.

(** ** More on the call *)

(** A key is none of the keys of a given list. *)
Ltac key_differs Hk :=
  match goal with
  | |- String.eqb ?k ?name = false =>
      destruct (String.eqb_spec k name) as [->|_]; [|reflexivity];
      exfalso; apply Hk; unfold flag_fields, mc_fields; mem
  end.

(** A given key is none of the keys of a given list. *)
Ltac given_key_not_in :=
  let Hin := fresh "Hin" in
  intros Hin;
  repeat (apply elem_of_cons in Hin as [Hin|Hin]; [discriminate Hin|]);
  inversion Hin.

Section Call.

Context {ext : Externals}.

Lemma filter_flags_get_other (frame : I3Frame.t) (output : dict) (k : string) :
  k ∉ flag_fields ->
  dict_get (filter_flags frame output) k = dict_get output k.
Proof.
  intros Hk. unfold filter_flags.
  assert (Hflag : forall name o entry,
            String.eqb k name = false ->
            dict_get (set_flag o name entry) k = dict_get o k).
  { intros name o entry Hne. rewrite dict_get_set_flag, Hne.
    destruct entry; reflexivity. }
  destruct (I3Frame.FilterMask frame) as [mask|];
    repeat (rewrite Hflag; [|key_differs Hk]); reflexivity.
Qed.

(** What a returned output is made of. *)
Lemma call_inv self frame padding_value o :
  fst (__call__ self frame padding_value) = Ok o ->
  exists header sim_type,
    I3Frame.I3EventHeader frame = Some header
    /\ _find_data_type (frame_is_montecarlo frame) (_i3_file self)
       = Ok sim_type
    /\ ((I3EventHeader.sub_event_stream header <> "InIceSplit"
         /\ o = initial_output header sim_type padding_value)
        \/ (I3EventHeader.sub_event_stream header = "InIceSplit"
            /\ ((frame_is_montecarlo frame && negb (frame_is_noise frame)
                 = false
                 /\ o = filter_flags frame
                          (initial_output header sim_type padding_value))
                \/ (frame_is_montecarlo frame && negb (frame_is_noise frame)
                    = true
                    /\ fst (mc_truth self frame sim_type padding_value
                              (filter_flags frame
                                 (initial_output header sim_type
                                    padding_value)))
                       = Ok o)))).
Proof.
  unfold __call__. intros Ho.
  destruct (_find_data_type _ _) as [sim_type|]; cbn [bind] in Ho;
    [|discriminate].
  destruct (I3Frame.I3EventHeader frame) as [header|];
    cbn [bind getitem] in Ho; [|discriminate].
  exists header, sim_type. split; [reflexivity|]. split; [reflexivity|].
  destruct (String.eqb_spec (I3EventHeader.sub_event_stream header)
              "InIceSplit") as [Hs|Hs]; cbn [negb] in Ho.
  - right. split; [exact Hs|].
    destruct (frame_is_montecarlo frame && negb (frame_is_noise frame)).
    + right. split; [reflexivity|exact Ho].
    + left. split; [reflexivity|]. cbn [fst] in Ho. inversion Ho. reflexivity.
  - left. split; [exact Hs|]. cbn [fst] in Ho. inversion Ho. reflexivity.
Qed.

Lemma call_get_other self frame padding_value o k :
  fst (__call__ self frame padding_value) = Ok o ->
  k ∉ flag_fields -> k ∉ mc_fields ->
  exists header sim_type,
    I3Frame.I3EventHeader frame = Some header
    /\ _find_data_type (frame_is_montecarlo frame) (_i3_file self)
       = Ok sim_type
    /\ dict_get o k
       = dict_get (initial_output header sim_type padding_value) k.
Proof.
  intros Ho Hflag Hmc.
  destruct (call_inv _ _ _ _ Ho)
    as (header & sim_type & Hh & Hsim & [[_ ->]|[_ [[_ ->]|[_ Hm]]]]);
    exists header, sim_type; (split; [exact Hh|]); (split; [exact Hsim|]).
  - reflexivity.
  - apply filter_flags_get_other, Hflag.
  - rewrite (mc_truth_get_other _ _ _ _ _ _ k Hm Hmc).
    apply filter_flags_get_other, Hflag.
Qed.

End Call.

(** X4: whatever path the call takes, the output it returns holds the start
    time and the four ids of the event header and the simulation type of the
    classifier: no later step overwrites them. *)
Theorem call_header_fields `{Externals} (self : I3TruthExtractor)
    (frame : I3Frame.t) (padding_value : pyval) (o : dict) :
  fst (__call__ self frame padding_value) = Ok o ->
  exists header sim_type,
    I3Frame.I3EventHeader frame = Some header
    /\ _find_data_type (frame_is_montecarlo frame) (_i3_file self)
       = Ok sim_type
    /\ dict_get o "event_time"
       = Some (PyInt (I3EventHeader.utc_daq_time header))
    /\ dict_get o "sim_type" = Some (PyStr sim_type)
    /\ dict_get o "RunID" = Some (PyInt (I3EventHeader.run_id header))
    /\ dict_get o "SubrunID" = Some (PyInt (I3EventHeader.sub_run_id header))
    /\ dict_get o "EventID" = Some (PyInt (I3EventHeader.event_id header))
    /\ dict_get o "SubEventID"
       = Some (PyInt (I3EventHeader.sub_event_id header)).
Proof.
  intros Ho.
  destruct (call_inv _ _ _ _ Ho) as (header & sim_type & Hh & Hsim & _).
  exists header, sim_type. split; [exact Hh|]. split; [exact Hsim|].
  repeat split.
  all: match goal with
       | |- dict_get _ ?k = _ =>
           assert (Hf : k ∉ flag_fields) by given_key_not_in;
           assert (Hm : k ∉ mc_fields) by given_key_not_in;
           destruct (call_get_other _ _ _ _ k Ho Hf Hm)
             as (header' & sim' & Hh' & Hsim' & ->)
       end.
  all: rewrite Hh in Hh'; inversion Hh'; subst header';
    rewrite Hsim in Hsim'; inversion Hsim'; subst sim'; reflexivity.
Qed.

Lemma call_header_fields_witness :
  exists o,
    fst (__call__ (ext := Sample.externals)
                  (Sample.extractor "/sim/muongun/f.i3")
                  (Sample.muon_frame "InIceSplit") (PyInt (-1))) = Ok o
    /\ dict_get o "RunID" = Some (PyInt 7)
    /\ dict_get o "sim_type" = Some (PyStr "muongun").
Proof.
  destruct (fst (__call__ (ext := Sample.externals)
                   (Sample.extractor "/sim/muongun/f.i3")
                   (Sample.muon_frame "InIceSplit") (PyInt (-1))))
    as [o|e] eqn:Ho; [|vm_compute in Ho; discriminate Ho].
  exists o. split; [reflexivity|].
  destruct (call_header_fields (H := Sample.externals) _ _ _ _ Ho)
    as (header & sim_type & Hh & Hsim & _ & Hs & Hr & _).
  inversion Hh; subst header. vm_compute in Hsim. inversion Hsim; subst.
  split; [exact Hr|exact Hs].
Defined.

Section Exceptions.

Context {ext : Externals}.

(** The two optional values of the helper for the primary raise nothing. *)
Lemma optional_value_ok (d : option (gmap string float)) (k : string)
    (padding_value : pyval) :
  except_KeyError
    (d <- getitem d ;; v <- getitem (d !! k) ;; Ok (PyFloat v))
    (Ok padding_value)
  = Ok (match d with
        | Some d => match d !! k with
                    | Some v => PyFloat v
                    | None => padding_value
                    end
        | None => padding_value
        end).
Proof.
  destruct d as [d|]; cbn; [|reflexivity].
  destruct (d !! k); reflexivity.
Qed.

Lemma primary_helper_raises frame sim_type padding_value e :
  _get_primary_particle_interaction_type_and_elasticity
    frame sim_type padding_value = Raise e ->
  e = KeyError \/ e = IndexError.
Proof.
  unfold _get_primary_particle_interaction_type_and_elasticity.
  rewrite !optional_value_ok. cbn [bind].
  unfold I3MCTree.item, index.
  destruct (negb (String.eqb sim_type "noise")); cbn [bind];
    [|discriminate].
  destruct (I3Frame.MCInIcePrimary frame) as [named|],
    (I3Frame.I3MCTree frame) as [tree|]; cbn [getitem except_KeyError bind].
  all: repeat match goal with
         | |- context [match ?l !! ?i with _ => _ end] =>
             destruct (l !! i); cbn [bind]
         | |- context [if float_ne ?a ?b then _ else _] =>
             destruct (float_ne a b); cbn [bind getitem]
         end.
  all: intros Hr; inversion Hr; auto.
Qed.

Lemma py_sum_float (xs : list float) :
  exists a, as_float (py_sum xs) = Ok a.
Proof. destruct xs; cbn; eauto. Qed.

Lemma track_helper_raises frame e :
  _get_primary_track_energy_and_inelasticity frame = Raise e ->
  e = KeyError \/ e = IndexError \/ e = ZeroDivisionError.
Proof.
  unfold _get_primary_track_energy_and_inelasticity, index, truediv.
  destruct (I3Frame.I3MCTree frame) as [tree|]; cbn [getitem bind];
    [|intros Hr; inversion Hr; auto].
  unfold I3MCTree.primaries.
  match goal with
  | |- context [match ?x with Some _ => _ | None => _ end] =>
      destruct x as [primary|]
  end; cbn [bind]; [|intros Hr; inversion Hr; auto].
  cbv zeta.
  match goal with
  | |- context [as_float (py_sum ?xs)] =>
      destruct (py_sum_float xs) as [a ->]
  end.
  cbn [bind]. destruct (PrimFloat.eqb _ _); cbn [bind];
    intros Hr; inversion Hr; auto.
Qed.

(** With a primary and track energies the Monte-Carlo branch returns. *)
Lemma mc_truth_ok self frame sim_type padding_value output primary it el et
    inel dl :
  _get_primary_particle_interaction_type_and_elasticity
    frame sim_type (PyInt (-1)) = Ok (Some primary, it, el) ->
  _get_primary_track_energy_and_inelasticity frame = Ok (et, inel) ->
  fst (_extract_dbang_decay_length frame padding_value) = Ok dl ->
  fst (mc_truth self frame sim_type padding_value output)
  = Ok (if Z.abs (I3Particle.pdg_encoding primary) =? 13
        then dict_update
               (dict_update
                  (dict_update output (truth_fields primary it el dl et inel))
                  [ ("track_length", PyFloat (I3Particle.length primary)) ])
               (muon_fields self primary)
        else dict_update output (truth_fields primary it el dl et inel)).
Proof.
  intros Hp Ht Hdl. unfold mc_truth. rewrite Hp, Ht.
  cbn [bind fst snd deref]. rewrite Hdl. cbn [bind].
  apply muon_update_truth_fields.
Qed.

Lemma mc_truth_raises self frame sim_type padding_value output e :
  fst (mc_truth self frame sim_type padding_value output) = Raise e ->
  e = KeyError \/ e = IndexError \/ e = ZeroDivisionError
  \/ e = AttributeError.
Proof.
  intros Hr.
  destruct (_get_primary_particle_interaction_type_and_elasticity
              frame sim_type (PyInt (-1))) as [[[primary it] el]|e1] eqn:Hp.
  2:{ unfold mc_truth in Hr. rewrite Hp in Hr. cbn in Hr. inversion Hr.
      subst e1. destruct (primary_helper_raises _ _ _ _ Hp); auto. }
  destruct (_get_primary_track_energy_and_inelasticity frame)
    as [[et inel]|e1] eqn:Ht.
  2:{ unfold mc_truth in Hr. rewrite Hp, Ht in Hr. cbn in Hr. inversion Hr.
      subst e1. destruct (track_helper_raises _ _ Ht) as [?|[?|?]]; auto. }
  destruct primary as [primary|].
  2:{ unfold mc_truth in Hr. rewrite Hp, Ht in Hr. cbn in Hr. inversion Hr.
      auto. }
  destruct (track_energy_needs_tree _ _ Ht) as [tree Htree].
  destruct (dbang_returns frame tree padding_value Htree) as [dl Hdl].
  rewrite (mc_truth_ok _ _ _ _ _ _ _ _ _ _ _ Hp Ht Hdl) in Hr.
  discriminate Hr.
Qed.

End Exceptions.

(** X5: the exceptions that leave the call.  Before [set_files] it is the
    [TypeError] of the path test; afterwards a call can only raise
    [KeyError], [IndexError], [ZeroDivisionError] or [AttributeError].  The
    failed assertion and the unbound variables of the decay-length search
    never leave it. *)
Theorem call_exceptions `{Externals} (self : I3TruthExtractor)
    (frame : I3Frame.t) (padding_value : pyval) (e : exn) :
  fst (__call__ self frame padding_value) = Raise e ->
  (_i3_file self = None /\ e = TypeError)
  \/ (_i3_file self <> None
      /\ (e = KeyError \/ e = IndexError \/ e = ZeroDivisionError
          \/ e = AttributeError)).
Proof.
  unfold __call__. intros Hr.
  destruct (_i3_file self) as [path|] eqn:Hfile.
  2:{ left. split; [reflexivity|]. cbn in Hr. inversion Hr. reflexivity. }
  right. split; [discriminate|].
  rewrite find_data_type_last_match in Hr. cbn [bind] in Hr.
  destruct (I3Frame.I3EventHeader frame) as [header|];
    cbn [bind getitem fst] in Hr; [|inversion Hr; auto].
  destruct (negb (String.eqb _ _)); [discriminate Hr|].
  destruct (frame_is_montecarlo frame && negb (frame_is_noise frame));
    [|discriminate Hr].
  apply mc_truth_raises in Hr. exact Hr.
Qed.

Lemma call_exceptions_witness :
  fst (__call__ (ext := Sample.externals)
                (Sample.extractor "/sim/noise/genie.i3")
                Sample.dbang_frame (PyInt (-1)))
  = Raise AttributeError.
Proof.
  destruct (fst (__call__ (ext := Sample.externals)
                   (Sample.extractor "/sim/noise/genie.i3")
                   Sample.dbang_frame (PyInt (-1))))
    as [o|e] eqn:Hr; [vm_compute in Hr; discriminate Hr|].
  destruct (call_exceptions (H := Sample.externals) _ _ _ _ Hr)
    as [[Hnone _]|[_ _]]; [discriminate Hnone|].
  vm_compute in Hr. symmetry. exact Hr.
Defined.

(** X6: for a frame of the in-ice split that is not Monte Carlo, or is
    noise, the call needs only the file path and the header: it returns, the
    frame is left as it was, and every field of the Monte-Carlo truth holds
    the padding value. *)
Theorem call_without_truth `{Externals} (self : I3TruthExtractor)
    (path : string) (frame : I3Frame.t) (header : I3EventHeader.t)
    (padding_value : pyval) :
  _i3_file self = Some path ->
  I3Frame.I3EventHeader frame = Some header ->
  I3EventHeader.sub_event_stream header = "InIceSplit" ->
  frame_is_montecarlo frame = false \/ frame_is_noise frame = true ->
  exists o,
    __call__ self frame padding_value = (Ok o, frame)
    /\ forall k, k ∈ mc_fields -> dict_get o k = Some padding_value.
Proof.
  intros Hfile Hh Hs Hmc.
  assert (Hbranch :
            frame_is_montecarlo frame && negb (frame_is_noise frame) = false).
  { destruct Hmc as [-> | ->]; [reflexivity|apply andb_false_r]. }
  unfold __call__.
  rewrite Hfile, find_data_type_last_match, Hh, Hbranch.
  cbn [bind getitem]. rewrite Hs. eval_eqb. cbn [negb].
  eexists. split; [reflexivity|].
  intros k Hk. rewrite filter_flags_get_other.
  - unfold mc_fields in Hk.
    repeat (apply elem_of_cons in Hk as [->|Hk]; [reflexivity|]).
    inversion Hk.
  - unfold mc_fields in Hk.
    repeat (apply elem_of_cons in Hk as [->|Hk]; [given_key_not_in|]).
    inversion Hk.
Qed.

Lemma call_without_truth_witness :
  exists o,
    __call__ (ext := Sample.externals) (Sample.extractor "/data/f.i3")
             Sample.masked_frame (PyInt (-1))
    = (Ok o, Sample.masked_frame)
    /\ dict_get o "energy" = Some (PyInt (-1)).
Proof.
  destruct (call_without_truth (H := Sample.externals)
              (Sample.extractor "/data/f.i3") "/data/f.i3"
              Sample.masked_frame (Sample.header "InIceSplit") (PyInt (-1))
              eq_refl eq_refl eq_refl (or_introl eq_refl))
    as (o & Ho & Hk).
  exists o. split; [exact Ho|]. apply Hk. unfold mc_fields. mem.
Defined.

Section Flags.

Context {ext : Externals}.

Lemma filter_flags_level (frame : I3Frame.t) (output : dict) :
  dict_get (filter_flags frame output) "L3_oscNext_bool"
  = flag_value (I3Frame.L3_oscNext_bool frame)
               (dict_get output "L3_oscNext_bool")
  /\ dict_get (filter_flags frame output) "L4_oscNext_bool"
     = flag_value (I3Frame.L4_oscNext_bool frame)
                  (dict_get output "L4_oscNext_bool")
  /\ dict_get (filter_flags frame output) "L5_oscNext_bool"
     = flag_value (I3Frame.L5_oscNext_bool frame)
                  (dict_get output "L5_oscNext_bool")
  /\ dict_get (filter_flags frame output) "L6_oscNext_bool"
     = flag_value (I3Frame.L6_oscNext_bool frame)
                  (dict_get output "L6_oscNext_bool")
  /\ dict_get (filter_flags frame output) "L7_oscNext_bool"
     = flag_value (I3Frame.L7_oscNext_bool frame)
                  (dict_get output "L7_oscNext_bool").
Proof.
  unfold filter_flags, flag_value.
  repeat split; rewrite !dict_get_set_flag;
    destruct (I3Frame.L7_oscNext_bool frame), (I3Frame.L6_oscNext_bool frame),
      (I3Frame.L5_oscNext_bool frame), (I3Frame.L4_oscNext_bool frame),
      (I3Frame.L3_oscNext_bool frame); eval_eqb; try reflexivity;
    (destruct (I3Frame.FilterMask frame) as [mask|];
     [ rewrite !dict_get_set_flag;
       destruct (mask !! "OnlineL2Filter_17"), (mask !! "MuonFilter_13"),
         (mask !! "CascadeFilter_13"), (mask !! "DeepCoreFilter_13");
       eval_eqb; reflexivity
     | rewrite dict_get_set_flag;
       destruct (I3Frame.DeepCoreFilter_13 frame); eval_eqb; reflexivity ]).
Qed.

Lemma filter_flags_mask (frame : I3Frame.t) (output : dict) (k : string) :
  k ∈ ["CascadeFilter_13"; "MuonFilter_13"; "OnlineL2Filter_17"] ->
  dict_get (filter_flags frame output) k
  = flag_value (mask ← I3Frame.FilterMask frame; mask !! k)
               (dict_get output k).
Proof.
  intros Hk. unfold filter_flags, flag_value.
  repeat (apply elem_of_cons in Hk as [->|Hk]);
    [| | |inversion Hk];
    rewrite !dict_get_set_flag;
    destruct (I3Frame.L7_oscNext_bool frame), (I3Frame.L6_oscNext_bool frame),
      (I3Frame.L5_oscNext_bool frame), (I3Frame.L4_oscNext_bool frame),
      (I3Frame.L3_oscNext_bool frame); eval_eqb;
    (destruct (I3Frame.FilterMask frame) as [mask|]; cbn [mbind option_bind];
     [ rewrite !dict_get_set_flag;
       destruct (mask !! "OnlineL2Filter_17"), (mask !! "MuonFilter_13"),
         (mask !! "CascadeFilter_13"), (mask !! "DeepCoreFilter_13");
       eval_eqb; reflexivity
     | rewrite dict_get_set_flag;
       destruct (I3Frame.DeepCoreFilter_13 frame); eval_eqb; reflexivity ]).
Qed.

End Flags.

(** X7: in every output returned for a frame of the in-ice split, each of
    the five level flags is 1 or 0 as the frame's key of that name is true or
    false, and the padding value when the frame has no such key; each of
    "CascadeFilter_13", "MuonFilter_13" and "OnlineL2Filter_17" is 1 or 0 as
    the entry of the filter mask, and the padding value when the frame has no
    mask or the mask no such entry. *)
Theorem call_flags `{Externals} (self : I3TruthExtractor) (frame : I3Frame.t)
    (header : I3EventHeader.t) (padding_value : pyval) (o : dict) :
  I3Frame.I3EventHeader frame = Some header ->
  I3EventHeader.sub_event_stream header = "InIceSplit" ->
  fst (__call__ self frame padding_value) = Ok o ->
  dict_get o "L3_oscNext_bool"
  = flag_value (I3Frame.L3_oscNext_bool frame) (Some padding_value)
  /\ dict_get o "L4_oscNext_bool"
     = flag_value (I3Frame.L4_oscNext_bool frame) (Some padding_value)
  /\ dict_get o "L5_oscNext_bool"
     = flag_value (I3Frame.L5_oscNext_bool frame) (Some padding_value)
  /\ dict_get o "L6_oscNext_bool"
     = flag_value (I3Frame.L6_oscNext_bool frame) (Some padding_value)
  /\ dict_get o "L7_oscNext_bool"
     = flag_value (I3Frame.L7_oscNext_bool frame) (Some padding_value)
  /\ forall k,
       k ∈ ["CascadeFilter_13"; "MuonFilter_13"; "OnlineL2Filter_17"] ->
       dict_get o k
       = flag_value (mask ← I3Frame.FilterMask frame; mask !! k)
                    (Some padding_value).
Proof.
  intros Hh Hs Ho.
  destruct (call_inv _ _ _ _ Ho)
    as (header' & sim_type & Hh' & _ & Hcases).
  rewrite Hh in Hh'. inversion Hh'; subst header'.
  assert (Hget : forall k, k ∉ mc_fields ->
            dict_get o k
            = dict_get (filter_flags frame
                          (initial_output header sim_type padding_value)) k).
  { intros k Hk.
    destruct Hcases as [[Hne _]|[_ [[_ ->]|[_ Hm]]]];
      [contradiction|reflexivity|].
    apply (mc_truth_get_other _ _ _ _ _ _ k Hm Hk). }
  destruct (filter_flags_level frame
              (initial_output header sim_type padding_value))
    as (H3 & H4 & H5 & H6 & H7).
  repeat split.
  1-5: rewrite Hget by given_key_not_in.
  - exact H3.
  - exact H4.
  - exact H5.
  - exact H6.
  - exact H7.
  - intros k Hk. rewrite Hget.
    + rewrite (filter_flags_mask frame _ k Hk).
      repeat (apply elem_of_cons in Hk as [->|Hk]; [reflexivity|]).
      inversion Hk.
    + repeat (apply elem_of_cons in Hk as [->|Hk]; [given_key_not_in|]).
      inversion Hk.
Qed.

Lemma call_flags_witness :
  exists o,
    fst (__call__ (ext := Sample.externals) (Sample.extractor "/data/f.i3")
                  Sample.masked_frame (PyInt (-1))) = Ok o
    /\ dict_get o "CascadeFilter_13" = Some (PyInt 1)
    /\ dict_get o "MuonFilter_13" = Some (PyInt (-1))
    /\ dict_get o "L3_oscNext_bool" = Some (PyInt (-1)).
Proof.
  destruct (fst (__call__ (ext := Sample.externals)
                   (Sample.extractor "/data/f.i3") Sample.masked_frame
                   (PyInt (-1)))) as [o|e] eqn:Ho;
    [|vm_compute in Ho; discriminate Ho].
  exists o. split; [reflexivity|].
  destruct (call_flags (H := Sample.externals)
              (Sample.extractor "/data/f.i3") Sample.masked_frame
              (Sample.header "InIceSplit") (PyInt (-1)) o
              eq_refl eq_refl Ho)
    as (H3 & _ & _ & _ & _ & Hmask).
  split; [|split].
  - rewrite (Hmask "CascadeFilter_13") by mem. vm_compute. reflexivity.
  - rewrite (Hmask "MuonFilter_13") by mem. vm_compute. reflexivity.
  - exact H3.
Defined.

(** X8: in the Monte-Carlo branch the call returns exactly when the helper
    for the primary gives a particle and the helper for the track energy
    returns: the decay length and the muon branch never make it fail. *)
Theorem mc_branch_returns_iff `{Externals} (self : I3TruthExtractor)
    (frame : I3Frame.t) (header : I3EventHeader.t) (sim_type : string)
    (padding_value : pyval) :
  _find_data_type (frame_is_montecarlo frame) (_i3_file self) = Ok sim_type ->
  I3Frame.I3EventHeader frame = Some header ->
  I3EventHeader.sub_event_stream header = "InIceSplit" ->
  frame_is_montecarlo frame = true ->
  frame_is_noise frame = false ->
  (exists o, fst (__call__ self frame padding_value) = Ok o)
  <-> (exists primary it el et inel,
          _get_primary_particle_interaction_type_and_elasticity
            frame sim_type (PyInt (-1)) = Ok (Some primary, it, el)
          /\ _get_primary_track_energy_and_inelasticity frame
             = Ok (et, inel)).
Proof.
  intros Hsim Hh Hs Hmc Hn.
  assert (Hcall : fst (__call__ self frame padding_value)
                  = fst (mc_truth self frame sim_type padding_value
                           (filter_flags frame
                              (initial_output header sim_type
                                 padding_value)))).
  { unfold __call__. rewrite Hsim, Hh, Hmc, Hn. cbn [bind getitem].
    rewrite Hs. eval_eqb. reflexivity. }
  rewrite Hcall. split.
  - intros [o Ho]. apply mc_truth_inv in Ho.
    destruct Ho as (primary & it & el & et & inel & dl & Hp & Ht & _).
    eauto 10.
  - intros (primary & it & el & et & inel & Hp & Ht).
    destruct (track_energy_needs_tree _ _ Ht) as [tree Htree].
    destruct (dbang_returns frame tree padding_value Htree) as [dl Hdl].
    eexists. apply (mc_truth_ok _ _ _ _ _ _ _ _ _ _ _ Hp Ht Hdl).
Qed.

Lemma mc_branch_returns_iff_witness :
  exists o,
    fst (__call__ (ext := Sample.externals)
                  (Sample.extractor "/sim/genie/f.i3") Sample.dbang_frame
                  (PyInt (-1))) = Ok o.
Proof.
  apply (mc_branch_returns_iff (H := Sample.externals)
           (Sample.extractor "/sim/genie/f.i3") Sample.dbang_frame
           (Sample.header "InIceSplit") "genie" (PyInt (-1))
           eq_refl eq_refl eq_refl eq_refl eq_refl).
  exists Sample.nu, (PyInt (-1)), (PyInt (-1)), (PyFloat 30),
    (PyFloat (1 - 30 / 50)%float).
  split; vm_compute; reflexivity.
Defined.

Section TruthFields.

Context {ext : Externals}.

Lemma call_mc_branch self frame header sim_type padding_value primary it el
    et inel :
  _find_data_type (frame_is_montecarlo frame) (_i3_file self) = Ok sim_type ->
  I3Frame.I3EventHeader frame = Some header ->
  I3EventHeader.sub_event_stream header = "InIceSplit" ->
  frame_is_montecarlo frame = true ->
  frame_is_noise frame = false ->
  _get_primary_particle_interaction_type_and_elasticity
    frame sim_type (PyInt (-1)) = Ok (Some primary, it, el) ->
  _get_primary_track_energy_and_inelasticity frame = Ok (et, inel) ->
  exists dl,
    fst (_extract_dbang_decay_length frame padding_value) = Ok dl
    /\ fst (__call__ self frame padding_value)
       = Ok (let output :=
               dict_update
                 (filter_flags frame
                    (initial_output header sim_type padding_value))
                 (truth_fields primary it el dl et inel) in
             if Z.abs (I3Particle.pdg_encoding primary) =? 13
             then dict_update
                    (dict_update output
                       [ ("track_length",
                          PyFloat (I3Particle.length primary)) ])
                    (muon_fields self primary)
             else output).
Proof.
  intros Hsim Hh Hs Hmc Hn Hp Ht.
  destruct (track_energy_needs_tree _ _ Ht) as [tree Htree].
  destruct (dbang_returns frame tree padding_value Htree) as [dl Hdl].
  exists dl. split; [exact Hdl|].
  unfold __call__. rewrite Hsim, Hh, Hmc, Hn. cbn [bind getitem].
  rewrite Hs. eval_eqb. cbn [negb andb].
  apply (mc_truth_ok _ _ _ _ _ _ _ _ _ _ _ Hp Ht Hdl).
Qed.

End TruthFields.

(** Lookups in an output built by updates, for given keys. *)
Ltac lookup :=
  repeat (rewrite !dict_get_update;
          cbn [truth_fields muon_fields rev app dict_get]; eval_eqb).

(** X9: in the Monte-Carlo branch the output holds what the helpers
    returned: energy, azimuth, zenith and pid are those of the resolved
    primary, interaction_type and elasticity those of the helper for the
    primary, energy_track and inelasticity those of the helper for the track
    energy, and dbang_decay_length is the result of the decay-length
    search. *)
Theorem mc_branch_fields `{Externals} (self : I3TruthExtractor)
    (frame : I3Frame.t) (header : I3EventHeader.t) (sim_type : string)
    (padding_value : pyval) (primary : I3Particle.t)
    (it el et inel : pyval) :
  _find_data_type (frame_is_montecarlo frame) (_i3_file self) = Ok sim_type ->
  I3Frame.I3EventHeader frame = Some header ->
  I3EventHeader.sub_event_stream header = "InIceSplit" ->
  frame_is_montecarlo frame = true ->
  frame_is_noise frame = false ->
  _get_primary_particle_interaction_type_and_elasticity
    frame sim_type (PyInt (-1)) = Ok (Some primary, it, el) ->
  _get_primary_track_energy_and_inelasticity frame = Ok (et, inel) ->
  exists o dl,
    fst (__call__ self frame padding_value) = Ok o
    /\ fst (_extract_dbang_decay_length frame padding_value) = Ok dl
    /\ dict_get o "energy" = Some (PyFloat (I3Particle.energy primary))
    /\ dict_get o "azimuth"
       = Some (PyFloat (I3Direction.azimuth (I3Particle.dir primary)))
    /\ dict_get o "zenith"
       = Some (PyFloat (I3Direction.zenith (I3Particle.dir primary)))
    /\ dict_get o "pid" = Some (PyInt (I3Particle.pdg_encoding primary))
    /\ dict_get o "interaction_type" = Some it
    /\ dict_get o "elasticity" = Some el
    /\ dict_get o "dbang_decay_length" = Some dl
    /\ dict_get o "energy_track" = Some et
    /\ dict_get o "inelasticity" = Some inel.
Proof.
  intros Hsim Hh Hs Hmc Hn Hp Ht.
  destruct (call_mc_branch self frame header sim_type padding_value
              primary it el et inel Hsim Hh Hs Hmc Hn Hp Ht)
    as (dl & Hdl & Ho).
  eexists. exists dl. split; [exact Ho|]. split; [exact Hdl|].
  cbv zeta.
  destruct (Z.abs (I3Particle.pdg_encoding primary) =? 13);
    repeat split; lookup; reflexivity.
Qed.

Lemma mc_branch_fields_witness :
  exists o,
    fst (__call__ (ext := Sample.externals)
                  (Sample.extractor "/sim/genie/f.i3") Sample.dbang_frame
                  (PyInt (-1))) = Ok o
    /\ dict_get o "energy" = Some (PyFloat 50)
    /\ dict_get o "pid" = Some (PyInt 14)
    /\ dict_get o "energy_track" = Some (PyFloat 30).
Proof.
  destruct (mc_branch_fields (H := Sample.externals)
              (Sample.extractor "/sim/genie/f.i3") Sample.dbang_frame
              (Sample.header "InIceSplit") "genie" (PyInt (-1)) Sample.nu
              (PyInt (-1)) (PyInt (-1)) (PyFloat 30)
              (PyFloat (1 - 30 / 50)%float))
    as (o & dl & Ho & _ & He & _ & _ & Hpid & _ & _ & _ & Het & _);
    try (vm_compute; reflexivity).
  exists o. split; [exact Ho|]. split; [exact He|].
  split; [exact Hpid|exact Het].
Defined.

(** X10: when the particle code of the resolved primary is neither 13 nor
    -13, the muon branch is not taken: the position fields hold the position
    of the primary, and track_length and stopped_muon keep the padding
    value. *)
Theorem other_primary_keeps_vertex `{Externals} (self : I3TruthExtractor)
    (frame : I3Frame.t) (header : I3EventHeader.t) (sim_type : string)
    (padding_value : pyval) (primary : I3Particle.t)
    (it el et inel : pyval) :
  _find_data_type (frame_is_montecarlo frame) (_i3_file self) = Ok sim_type ->
  I3Frame.I3EventHeader frame = Some header ->
  I3EventHeader.sub_event_stream header = "InIceSplit" ->
  frame_is_montecarlo frame = true ->
  frame_is_noise frame = false ->
  _get_primary_particle_interaction_type_and_elasticity
    frame sim_type (PyInt (-1)) = Ok (Some primary, it, el) ->
  _get_primary_track_energy_and_inelasticity frame = Ok (et, inel) ->
  Z.abs (I3Particle.pdg_encoding primary) <> 13 ->
  exists o,
    fst (__call__ self frame padding_value) = Ok o
    /\ dict_get o "position_x"
       = Some (PyFloat (I3Position.x (I3Particle.pos primary)))
    /\ dict_get o "position_y"
       = Some (PyFloat (I3Position.y (I3Particle.pos primary)))
    /\ dict_get o "position_z"
       = Some (PyFloat (I3Position.z (I3Particle.pos primary)))
    /\ dict_get o "track_length" = Some padding_value
    /\ dict_get o "stopped_muon" = Some padding_value.
Proof.
  intros Hsim Hh Hs Hmc Hn Hp Ht Hpid.
  destruct (call_mc_branch self frame header sim_type padding_value
              primary it el et inel Hsim Hh Hs Hmc Hn Hp Ht)
    as (dl & Hdl & Ho).
  eexists. split; [exact Ho|]. cbv zeta.
  destruct (Z.eqb_spec (Z.abs (I3Particle.pdg_encoding primary)) 13)
    as [Heq|_]; [contradiction|].
  repeat split; lookup; try reflexivity;
    rewrite filter_flags_get_other by given_key_not_in; reflexivity.
Qed.

Lemma other_primary_keeps_vertex_witness :
  exists o,
    fst (__call__ (ext := Sample.externals)
                  (Sample.extractor "/sim/genie/f.i3") Sample.dbang_frame
                  (PyInt (-1))) = Ok o
    /\ dict_get o "position_z" = Some (PyFloat 0)
    /\ dict_get o "track_length" = Some (PyInt (-1)).
Proof.
  destruct (other_primary_keeps_vertex (H := Sample.externals)
              (Sample.extractor "/sim/genie/f.i3") Sample.dbang_frame
              (Sample.header "InIceSplit") "genie" (PyInt (-1)) Sample.nu
              (PyInt (-1)) (PyInt (-1)) (PyFloat 30)
              (PyFloat (1 - 30 / 50)%float))
    as (o & Ho & _ & _ & Hz & Hl & _);
    try (vm_compute; reflexivity).
  - vm_compute. discriminate.
  - exists o. split; [exact Ho|]. split; [exact Hz|exact Hl].
Defined.

(** ** The helpers *)

(** X11: the track-energy helper raises [KeyError] on a frame without a
    tree, [IndexError] on a tree without primaries, and [ZeroDivisionError]
    exactly when the total energy of the first primary equals zero; in every
    other case it returns, with a float as inelasticity. *)
Theorem track_energy_errors (frame : I3Frame.t) :
  match I3Frame.I3MCTree frame with
  | None => _get_primary_track_energy_and_inelasticity frame = Raise KeyError
  | Some [] =>
      _get_primary_track_energy_and_inelasticity frame = Raise IndexError
  | Some (I3MCTree.Node primary _ :: _) =>
      if PrimFloat.eqb (I3Particle.total_energy primary) 0
      then _get_primary_track_energy_and_inelasticity frame
           = Raise ZeroDivisionError
      else exists energy_track inelasticity,
             _get_primary_track_energy_and_inelasticity frame
             = Ok (energy_track, PyFloat inelasticity)
  end.
Proof.
  unfold _get_primary_track_energy_and_inelasticity.
  destruct (I3Frame.I3MCTree frame) as [[|[primary ds] rest]|];
    try reflexivity.
  cbn [getitem bind index I3MCTree.primaries lookup list_lookup
       I3MCTree.particle]. cbv zeta.
  match goal with
  | |- context [as_float (py_sum ?xs)] =>
      destruct (py_sum_float xs) as [a Ha]; rewrite Ha
  end.
  unfold truediv. cbn [bind].
  destruct (PrimFloat.eqb (I3Particle.total_energy primary) 0).
  - reflexivity.
  - cbn [bind]. eauto.
Qed.

(** X12: the track energy and the inelasticity depend on the tree only
    through the first primary and those of its direct daughters whose shape
    is "StartingTrack" or "Dark": daughters of other shapes, the daughters
    of daughters and further primaries change nothing. *)
Theorem track_energy_only_tracks (frame : I3Frame.t)
    (primary : I3Particle.t) (daughters daughters' : list I3MCTree.node)
    (others others' : list I3MCTree.node) :
  map I3MCTree.particle (filter (fun d => is_track d) daughters)
  = map I3MCTree.particle (filter (fun d => is_track d) daughters') ->
  _get_primary_track_energy_and_inelasticity
    (I3Frame.with_tree frame (I3MCTree.Node primary daughters :: others))
  = _get_primary_track_energy_and_inelasticity
      (I3Frame.with_tree frame (I3MCTree.Node primary daughters' :: others')).
Proof.
  intros Htracks.
  unfold _get_primary_track_energy_and_inelasticity.
  cbn [I3Frame.with_tree I3Frame.I3MCTree getitem bind index
       I3MCTree.primaries lookup list_lookup I3MCTree.particle
       I3MCTree.get_daughters].
  cbv zeta.
  assert (Hsum :
    map (fun track => I3Particle.total_energy (I3MCTree.particle track))
        (filter (fun d => is_track d) daughters)
    = map (fun track => I3Particle.total_energy (I3MCTree.particle track))
          (filter (fun d => is_track d) daughters')).
  { rewrite <- !(map_map I3MCTree.particle I3Particle.total_energy).
    rewrite Htracks. reflexivity. }
  rewrite Hsum. reflexivity.
Qed.

Lemma track_energy_only_tracks_witness :
  _get_primary_track_energy_and_inelasticity
    (I3Frame.with_tree Sample.dbang_frame Sample.dbang_tree)
  = _get_primary_track_energy_and_inelasticity
      (I3Frame.with_tree Sample.dbang_frame
         [ I3MCTree.Node Sample.nu [ I3MCTree.Node Sample.hnl [] ] ]).
Proof.
  apply (track_energy_only_tracks Sample.dbang_frame Sample.nu).
  vm_compute. reflexivity.
Defined.

(** X13: the interaction type and the elasticity that the helper for the
    primary returns are the entries "InteractionType" of the weight
    dictionary and "y" of the generator dictionary, and the padding value of
    the helper when the dictionary or the entry is missing; for the
    simulation type "noise" the helper returns no primary and raises
    nothing. *)
Theorem primary_helper_optional_values (frame : I3Frame.t)
    (sim_type : string) (padding_value : pyval) :
  let interaction_type :=
    match I3Frame.I3MCWeightDict frame with
    | Some d => match d !! "InteractionType" with
                | Some v => PyFloat v
                | None => padding_value
                end
    | None => padding_value
    end in
  let elasticity :=
    match I3Frame.I3GENIEResultDict frame with
    | Some d => match d !! "y" with
                | Some v => PyFloat v
                | None => padding_value
                end
    | None => padding_value
    end in
  (forall primary it el,
      _get_primary_particle_interaction_type_and_elasticity
        frame sim_type padding_value = Ok (primary, it, el) ->
      it = interaction_type /\ el = elasticity)
  /\ (sim_type = "noise" ->
      _get_primary_particle_interaction_type_and_elasticity
        frame sim_type padding_value
      = Ok (None, interaction_type, elasticity)).
Proof.
  cbv zeta.
  unfold _get_primary_particle_interaction_type_and_elasticity.
  rewrite !optional_value_ok. cbn [bind]. split.
  - intros primary it el.
    destruct (if negb (String.eqb sim_type "noise") then _ else _) as [m|];
      cbn [bind]; [|discriminate].
    intros Hr. inversion Hr. split; reflexivity.
  - intros ->. reflexivity.
Qed.

Lemma primary_helper_optional_values_witness :
  _get_primary_particle_interaction_type_and_elasticity
    Sample.dbang_frame "noise" (PyInt 0)
  = Ok (None, PyInt 0, PyInt 0).
Proof.
  apply (proj2 (primary_helper_optional_values Sample.dbang_frame "noise"
                  (PyInt 0))).
  reflexivity.
Defined.

(** X14: how the helper for the primary fails, for a simulation type other
    than "noise".  Without a named primary it raises [KeyError] when the
    frame has no tree and [IndexError] when the tree is empty.  When the
    energy of the chosen particle is not a number it raises [KeyError]
    without a tree and [IndexError] when the tree has fewer than two
    particles. *)
Theorem primary_helper_errors (frame : I3Frame.t) (sim_type : string)
    (padding_value : pyval) :
  sim_type <> "noise" ->
  let helper :=
    _get_primary_particle_interaction_type_and_elasticity
      frame sim_type padding_value in
  (I3Frame.MCInIcePrimary frame = None ->
   I3Frame.I3MCTree frame = None -> helper = Raise KeyError)
  /\ (I3Frame.MCInIcePrimary frame = None ->
      I3Frame.I3MCTree frame = Some [] -> helper = Raise IndexError)
  /\ (forall named,
        I3Frame.MCInIcePrimary frame = Some named ->
        PrimFloat.eqb (I3Particle.energy named) (I3Particle.energy named)
        = false ->
        (I3Frame.I3MCTree frame = None -> helper = Raise KeyError)
        /\ (forall tree,
              I3Frame.I3MCTree frame = Some tree ->
              I3MCTree.item tree 1 = Raise IndexError ->
              helper = Raise IndexError)).
Proof.
  intros Hsim helper. subst helper.
  assert (Hnoise : String.eqb sim_type "noise" = false).
  { destruct (String.eqb_spec sim_type "noise"); [contradiction|reflexivity]. }
  unfold _get_primary_particle_interaction_type_and_elasticity.
  rewrite !optional_value_ok, Hnoise. cbn [negb bind].
  split; [|split].
  - intros -> ->. reflexivity.
  - intros -> ->. reflexivity.
  - intros named -> Hnan. cbn [getitem except_KeyError bind].
    unfold float_ne. rewrite Hnan. cbn [negb]. split.
    + intros ->. reflexivity.
    + intros tree -> Hitem. cbn [getitem bind]. rewrite Hitem. reflexivity.
Qed.

Lemma primary_helper_errors_witness :
  _get_primary_particle_interaction_type_and_elasticity
    (Sample.frame_with "InIceSplit" (Some Sample.placeholder)
       (Some [ I3MCTree.Node Sample.placeholder [] ]))
    "muongun" (PyInt (-1))
  = Raise IndexError.
Proof.
  refine (proj2 (proj2 (proj2 (primary_helper_errors
            (Sample.frame_with "InIceSplit" (Some Sample.placeholder)
               (Some [ I3MCTree.Node Sample.placeholder [] ]))
            "muongun" (PyInt (-1)) _)) Sample.placeholder eq_refl eq_refl)
            [ I3MCTree.Node Sample.placeholder [] ] eq_refl eq_refl).
  discriminate.
Defined.

(** X15: given floats for the three position fields, the track length, the
    azimuth and the zenith, as the call gives them, [_muon_stopped] returns
    exactly the keys "x", "y", "z" and "stopped"; "stopped" is a truth value,
    true only when the polygon test at the end point with the radius
    -horizontal_pad succeeds, and false whenever the end point is not
    strictly between z_min + vertical_pad and z_max - vertical_pad.  Without
    "position_x" it raises [KeyError]. *)
Theorem muon_stopped_result `{Externals} (truth : dict) (borders : borders_t)
    (horizontal_pad vertical_pad : float) :
  (dict_get truth "position_x" = None ->
   _muon_stopped truth borders horizontal_pad vertical_pad = Raise KeyError)
  /\ (forall x0 y0 z0 length azimuth zenith,
        dict_get truth "position_x" = Some (PyFloat x0) ->
        dict_get truth "position_y" = Some (PyFloat y0) ->
        dict_get truth "position_z" = Some (PyFloat z0) ->
        dict_get truth "track_length" = Some (PyFloat length) ->
        dict_get truth "azimuth" = Some (PyFloat azimuth) ->
        dict_get truth "zenith" = Some (PyFloat zenith) ->
        let x := (x0 + (-1) * (length * np_cos azimuth * np_sin zenith))%float in
        let y := (y0 + (-1) * (length * np_sin azimuth * np_sin zenith))%float in
        let z := (z0 + (-1) * (length * np_cos zenith))%float in
        exists stopped : bool,
          _muon_stopped truth borders horizontal_pad vertical_pad
          = Ok [ ("x", PyFloat x); ("y", PyFloat y); ("z", PyFloat z);
                 ("stopped", PyBool stopped) ]
          /\ (stopped = true ->
              contains_point (fst borders) (x, y) (- horizontal_pad)%float
              = true)
          /\ (PrimFloat.ltb (fst (snd borders) + vertical_pad)%float z
              && PrimFloat.ltb z (snd (snd borders) - vertical_pad)%float
              = false -> stopped = false)).
Proof.
  split.
  - intros Hx. unfold _muon_stopped, truth_float. rewrite Hx. reflexivity.
  - intros x0 y0 z0 length azimuth zenith Hx Hy Hz Hl Ha Hzen x y z.
    unfold _muon_stopped, truth_float. rewrite Hx, Hy, Hz, Hl, Ha, Hzen.
    cbn [bind fst snd getitem as_float]. eexists. split; [reflexivity|].
    fold x y z.
    destruct (contains_point _ _ _),
      (PrimFloat.ltb (fst (snd borders) + vertical_pad)%float z),
      (PrimFloat.ltb z (snd (snd borders) - vertical_pad)%float);
      cbn; split; auto; intros; try reflexivity; discriminate.
Qed.

Lemma muon_stopped_result_witness :
  exists stopped : bool,
    _muon_stopped (ext := Sample.externals)
      [ ("position_x", PyFloat 0); ("position_y", PyFloat 0);
        ("position_z", PyFloat 600); ("track_length", PyFloat 10);
        ("azimuth", PyFloat 0); ("zenith", PyFloat 0) ]
      (default_border_xy, default_border_z) 100 100
    = Ok [ ("x", PyFloat 0); ("y", PyFloat 0); ("z", PyFloat 590);
           ("stopped", PyBool stopped) ]
    /\ stopped = false.
Proof.
  destruct (proj2 (muon_stopped_result (H := Sample.externals)
              [ ("position_x", PyFloat 0); ("position_y", PyFloat 0);
                ("position_z", PyFloat 600); ("track_length", PyFloat 10);
                ("azimuth", PyFloat 0); ("zenith", PyFloat 0) ]
              (default_border_xy, default_border_z) 100 100)
              0%float 0%float 600%float 10%float 0%float 0%float
              eq_refl eq_refl eq_refl eq_refl eq_refl eq_refl)
    as (stopped & Hr & _ & Hz).
  exists stopped. split; [|apply Hz; vm_compute; reflexivity].
  rewrite Hr. vm_compute. reflexivity.
Defined.

(** ** The frame after a call *)

Section FrameAfter.

Context {ext : Externals}.

Lemma merge_energy_only (casc : I3Particle.t) (rest : list I3MCTree.node) :
  exists e, snd (merge_hnl_daughters casc rest) = I3Particle.set_energy casc e.
Proof.
  revert casc. induction rest as [|d rest IH]; intros casc.
  - exists (I3Particle.energy casc). cbn. symmetry. apply set_energy_id.
  - cbn [merge_hnl_daughters].
    destruct (I3Position_eq _ _).
    + destruct (IH (I3Particle.set_energy casc
                      (PrimFloat.add (I3Particle.energy casc)
                         (I3Particle.energy (I3MCTree.particle d)))))
        as [e He].
      exists e. rewrite He. reflexivity.
    + exists (I3Particle.energy casc). cbn. symmetry. apply set_energy_id.
Qed.

(** With copies of the daughters the search leaves the tree as it was. *)
Lemma dbang_try_copies (tree : I3MCTree.t) (padding_value : pyval) :
  daughters_are_shared = false -> snd (dbang_try tree padding_value) = tree.
Proof.
  intros Hcopies. unfold dbang_try. rewrite Hcopies.
  destruct (p_true <- index (I3MCTree.primaries tree) 0 ;; _)
    as [[[casc_0 place] ds]|e]; [|reflexivity].
  destruct ds as [|first rest]; [reflexivity|].
  destruct place as [j|]; reflexivity.
Qed.

(** The tree after the body of the decay-length search. *)
Lemma dbang_try_tree (tree : I3MCTree.t) (padding_value : pyval) :
  snd (dbang_try tree padding_value) = tree
  \/ exists p_true a b others hnl first ds more e,
       tree = I3MCTree.Node p_true [a; b] :: others
       /\ more <> []
       /\ ((b = I3MCTree.Node hnl (I3MCTree.Node first ds :: more)
            /\ snd (dbang_try tree padding_value)
               = I3MCTree.Node p_true
                   [a; I3MCTree.Node hnl
                         (I3MCTree.Node (I3Particle.set_energy first e) ds
                          :: more)]
                 :: others)
           \/ (a = I3MCTree.Node hnl (I3MCTree.Node first ds :: more)
               /\ snd (dbang_try tree padding_value)
                  = I3MCTree.Node p_true
                      [I3MCTree.Node hnl
                         (I3MCTree.Node (I3Particle.set_energy first e) ds
                          :: more); b]
                    :: others)).
Proof.
  destruct daughters_are_shared eqn:Hshared;
    [|left; apply dbang_try_copies, Hshared].
  unfold dbang_try. rewrite Hshared.
  destruct tree as [|[p_true p_daughters] others]; [left; reflexivity|].
  cbn [I3MCTree.primaries index lookup list_lookup bind
       I3MCTree.get_daughters].
  destruct p_daughters as [|a [|b [|c ds]]]; try (left; reflexivity).
  cbn [List.length Nat.eqb]. rewrite classify_two.
  destruct (is_Hadrons (I3Particle.type (I3MCTree.particle a))),
    (is_Hadrons (I3Particle.type (I3MCTree.particle b)));
    cbn [fst snd local bind]; try (left; reflexivity).
  - destruct b as [hnl [|[first ds] more]]; [left; reflexivity|].
    cbn [I3MCTree.get_daughters I3MCTree.particle snd].
    destruct (merge_energy_only first more) as [e He]. rewrite He.
    destruct more as [|d more].
    + left. cbn in He. rewrite <- He. reflexivity.
    + right. exists p_true, a, (I3MCTree.Node hnl
                                  (I3MCTree.Node first ds :: d :: more)),
        others, hnl, first, ds, (d :: more), e.
      split; [reflexivity|]. split; [discriminate|].
      left. split; reflexivity.
  - destruct a as [hnl [|[first ds] more]]; [left; reflexivity|].
    cbn [I3MCTree.get_daughters I3MCTree.particle snd].
    destruct (merge_energy_only first more) as [e He]. rewrite He.
    destruct more as [|d more].
    + left. cbn in He. rewrite <- He. reflexivity.
    + right. exists p_true, (I3MCTree.Node hnl
                               (I3MCTree.Node first ds :: d :: more)), b,
        others, hnl, first, ds, (d :: more), e.
      split; [reflexivity|]. split; [discriminate|].
      right. split; reflexivity.
  - destruct b as [hnl [|[first ds] more]]; [left; reflexivity|].
    cbn [I3MCTree.get_daughters I3MCTree.particle snd].
    destruct (merge_energy_only first more) as [e He]. rewrite He.
    destruct more as [|d more].
    + left. cbn in He. rewrite <- He. reflexivity.
    + right. exists p_true, a, (I3MCTree.Node hnl
                                  (I3MCTree.Node first ds :: d :: more)),
        others, hnl, first, ds, (d :: more), e.
      split; [reflexivity|]. split; [discriminate|].
      left. split; reflexivity.
Qed.

Lemma with_tree_id (frame : I3Frame.t) (tree : I3MCTree.t) :
  I3Frame.I3MCTree frame = Some tree -> I3Frame.with_tree frame tree = frame.
Proof. destruct frame. cbn. intros ->. reflexivity. Qed.

(** The frame after the call is the frame before, or the frame with its
    tree after the decay-length search. *)
Lemma call_frame_after self frame padding_value :
  snd (__call__ self frame padding_value) = frame
  \/ exists tree,
       I3Frame.I3MCTree frame = Some tree
       /\ snd (__call__ self frame padding_value)
          = I3Frame.with_tree frame (snd (dbang_try tree padding_value)).
Proof.
  unfold __call__.
  destruct (_find_data_type _ _) as [sim_type|]; cbn [bind];
    [|left; reflexivity].
  destruct (getitem (I3Frame.I3EventHeader frame)) as [header|];
    cbn [bind]; [|left; reflexivity].
  destruct (negb (String.eqb _ _)); [left; reflexivity|].
  destruct (frame_is_montecarlo frame && negb (frame_is_noise frame));
    [|left; reflexivity].
  unfold mc_truth.
  destruct (_ <- _get_primary_particle_interaction_type_and_elasticity
                   frame sim_type (PyInt (-1)) ;; _)
    as [[[[[primary it] el] et] inel]|]; [|left; reflexivity].
  cbn [snd]. unfold _extract_dbang_decay_length.
  destruct (I3Frame.I3MCTree frame) as [tree|] eqn:Htree;
    cbn [getitem snd]; [|left; reflexivity].
  right. exists tree. split; reflexivity.
Qed.

End FrameAfter.



(** X17: the call leaves the frame exactly as it was when the frame has no
    tree, and when no daughter of the first primary has more than one
    daughter of its own or the first primary does not have exactly two
    daughters: only the merge of several decay particles writes to the
    tree. *)
Theorem call_leaves_frame `{Externals} (self : I3TruthExtractor)
    (frame : I3Frame.t) (padding_value : pyval) :
  (I3Frame.I3MCTree frame = None
   \/ exists tree, I3Frame.I3MCTree frame = Some tree /\ no_merge tree) ->
  snd (__call__ self frame padding_value) = frame.
Proof.
  intros Hquiet.
  destruct (call_frame_after self frame padding_value)
    as [->|(tree & Htree & ->)]; [reflexivity|].
  destruct Hquiet as [Hnone|(tree' & Htree' & Hquiet)];
    [rewrite Hnone in Htree; discriminate|].
  rewrite Htree in Htree'. inversion Htree'; subst tree'.
  destruct (dbang_try_tree tree padding_value)
    as [->|(p_true & a & b & others & hnl & first & ds & more & e & -> & Hmore
            & [[-> _]|[-> _]])].
  - apply with_tree_id, Htree.
  - exfalso. destruct Hquiet as [_ Hb]. cbn in Hb.
    destruct more; [contradiction|cbn in Hb; lia].
  - exfalso. destruct Hquiet as [Ha _]. cbn in Ha.
    destruct more; [contradiction|cbn in Ha; lia].
Qed.

Lemma call_leaves_frame_witness :
  snd (__call__ (ext := Sample.externals)
         (Sample.extractor "/sim/muongun/f.i3")
         (Sample.muon_frame "InIceSplit") (PyInt (-1)))
  = Sample.muon_frame "InIceSplit".
Proof.
  apply (call_leaves_frame (H := Sample.externals)).
  right. exists [ I3MCTree.Node Sample.muon [] ].
  split; [reflexivity|exact I].
Defined.

(** ** The extractor collection *)

Section CollectionProperties.

Context {E : Type}.

Lemma collection_check_members (es : list E) :
  I3ExtractorCollection.check (map IsExtractor es) = Ok tt
  /\ I3ExtractorCollection.members (map IsExtractor es) = es.
Proof.
  induction es as [|e es [IHc IHm]]; [split; reflexivity|].
  cbn. rewrite IHm. split; [exact IHc|reflexivity].
Qed.

Lemma collection_check_other (extractors : list (pyobject E)) (other : pyval) :
  NotExtractor other ∈ extractors ->
  I3ExtractorCollection.check extractors = Raise AssertionError.
Proof.
  induction extractors as [|[e|v] rest IH]; intros Hin.
  - inversion Hin.
  - cbn. apply IH. apply elem_of_cons in Hin as [Hin|Hin];
      [discriminate Hin|exact Hin].
  - reflexivity.
Qed.

End CollectionProperties.

(** X18: the constructor of the collection accepts exactly the argument
    lists that hold extractors only: it then returns the collection of
    these extractors in their order, and with any other object among the
    arguments it fails its assertion. *)
Theorem collection_init_accepts (E : Type) :
  (forall es : list E,
      I3ExtractorCollection.__init__ (map IsExtractor es) = Ok es)
  /\ (forall (extractors : list (pyobject E)) (other : pyval),
        NotExtractor other ∈ extractors ->
        I3ExtractorCollection.__init__ extractors = Raise AssertionError).
Proof.
  split.
  - intros es. unfold I3ExtractorCollection.__init__.
    destruct (collection_check_members es) as [-> ->]. reflexivity.
  - intros extractors other Hin. unfold I3ExtractorCollection.__init__.
    rewrite (collection_check_other extractors other Hin). reflexivity.
Qed.

Lemma collection_init_accepts_witness :
  I3ExtractorCollection.__init__
    [ IsExtractor (Sample.extractor "/a.i3"); NotExtractor (PyStr "truth") ]
  = Raise AssertionError.
Proof.
  apply (proj2 (collection_init_accepts I3TruthExtractor)
           _ (PyStr "truth")).
  apply list_elem_of_further, list_elem_of_here.
Defined.

(** X19: a call of a collection that is made of two parts is the call of
    the first part followed by the call of the second part on the frame the
    first part left: the outputs are appended, and an exception of the
    first part keeps the second from running. *)
Theorem collection_call_app `{I3Extractor} (first second : list E)
    (frame : I3Frame.t) :
  I3ExtractorCollection.__call__ (first ++ second)%list frame
  = let r := I3ExtractorCollection.__call__ first frame in
    match fst r with
    | Raise e => (Raise e, snd r)
    | Ok outputs =>
        let r' := I3ExtractorCollection.__call__ second (snd r) in
        (outputs' <- fst r' ;; Ok (outputs ++ outputs')%list, snd r')
    end.
Proof.
  revert frame. induction first as [|e first IH]; intros frame.
  - cbn. destruct (I3ExtractorCollection.__call__ second frame) as [[o|x] f];
      reflexivity.
  - cbn [app I3ExtractorCollection.__call__].
    destruct (extractor_call e frame) as [[o|x] frame1]; cbn [fst snd];
      [|reflexivity].
    rewrite IH. cbv zeta.
    destruct (I3ExtractorCollection.__call__ first frame1) as [[os|x] frame2];
      cbn [fst snd bind]; [|reflexivity].
    destruct (I3ExtractorCollection.__call__ second frame2)
      as [[os'|x] frame3]; reflexivity.
Qed.

(** X20: when a call of a collection returns, it returns one output for
    each member, and when it raises, the exception is the one a member
    raised.  For a collection of truth extractors every output has the keys
    of the schema. *)
Theorem collection_call_outputs `{Externals} (load : string -> result unit) :
  (forall (E : Type) (member : I3Extractor E) (self : list E)
          (frame : I3Frame.t),
      match fst (I3ExtractorCollection.__call__ self frame) with
      | Ok outputs => List.length outputs = List.length self
      | Raise e =>
          exists extractor frame',
            extractor ∈ self
            /\ fst (extractor_call extractor frame') = Raise e
      end)
  /\ (forall (self : list I3TruthExtractor) (frame : I3Frame.t) outputs,
        fst (I3ExtractorCollection.__call__ (H := truth_member load)
               self frame) = Ok outputs ->
        Forall (fun o => keys o = schema) outputs).
Proof.
  split.
  - intros E member self. induction self as [|e self IH]; intros frame.
    + reflexivity.
    + cbn [I3ExtractorCollection.__call__].
      destruct (extractor_call e frame) as [[o|x] frame1] eqn:Hcall;
        cbn [fst snd].
      * specialize (IH frame1).
        destruct (fst (I3ExtractorCollection.__call__ self frame1))
          as [os|x]; cbn [bind].
        -- cbn. rewrite IH. reflexivity.
        -- destruct IH as (e' & frame' & Hin & Hr).
           exists e', frame'. split; [|exact Hr].
           apply list_elem_of_further, Hin.
      * exists e, frame. split; [apply list_elem_of_here|].
        rewrite Hcall. reflexivity.
  - intros self. induction self as [|e self IH]; intros frame outputs Ho.
    + cbn in Ho. inversion Ho. constructor.
    + cbn [I3ExtractorCollection.__call__] in Ho.
      destruct (extractor_call e frame) as [[o|x] frame1] eqn:Hcall;
        cbn [fst snd] in Ho; [|discriminate Ho].
      destruct (fst (I3ExtractorCollection.__call__ self frame1))
        as [os|x] eqn:Hrest; cbn [bind] in Ho; [|discriminate Ho].
      inversion Ho; subst outputs. constructor.
      * apply (call_keys e frame (PyInt (-1))).
        change (fst (@extractor_call _ (truth_member load) e frame) = Ok o).
        rewrite Hcall. reflexivity.
      * apply (IH frame1). exact Hrest.
Qed.

Lemma collection_call_outputs_witness :
  exists outputs,
    fst (I3ExtractorCollection.__call__
           (H := truth_member (H := Sample.externals) (fun _ => Ok tt))
           [ Sample.extractor "/sim/genie/a.i3";
             Sample.extractor "/sim/genie/a.i3" ]
           Sample.dbang_frame) = Ok outputs
    /\ Forall (fun o => keys o = schema) outputs.
Proof.
  destruct (fst (I3ExtractorCollection.__call__
                   (H := truth_member (H := Sample.externals)
                           (fun _ => Ok tt))
                   [ Sample.extractor "/sim/genie/a.i3";
                     Sample.extractor "/sim/genie/a.i3" ]
                   Sample.dbang_frame)) as [outputs|e] eqn:Ho;
    [|vm_compute in Ho; discriminate Ho].
  exists outputs. split; [reflexivity|].
  apply (proj2 (collection_call_outputs (H := Sample.externals)
                  (fun _ => Ok tt)) _ _ _ Ho).
Defined.

(** X21: [set_files] of a collection gives the two paths to its members in
    order.  When a member raises, the collection raises the same exception;
    the members before it and the member itself are as their own
    [set_files] left them, and the members after it are untouched.  When no
    member raises, every member is as its own [set_files] left it. *)
Theorem collection_set_files_broadcast `{I3Extractor}
    (i3_file gcd_file : string) :
  (forall self : list E,
      Forall (fun e => fst (extractor_set_files e i3_file gcd_file) = Ok tt)
             self ->
      I3ExtractorCollection.set_files self i3_file gcd_file
      = (Ok tt,
         map (fun e => snd (extractor_set_files e i3_file gcd_file)) self))
  /\ (forall (before after : list E) (failing : E) (e : exn),
        Forall (fun e => fst (extractor_set_files e i3_file gcd_file) = Ok tt)
               before ->
        fst (extractor_set_files failing i3_file gcd_file) = Raise e ->
        I3ExtractorCollection.set_files (before ++ failing :: after)%list
                                        i3_file gcd_file
        = (Raise e,
           (map (fun e => snd (extractor_set_files e i3_file gcd_file)) before
            ++ snd (extractor_set_files failing i3_file gcd_file)
               :: after)%list)).
Proof.
  split.
  - intros self Hall. induction Hall as [|e self He _ IH]; [reflexivity|].
    cbn [I3ExtractorCollection.set_files map]. rewrite He, IH. reflexivity.
  - intros before after failing e Hall Hfail.
    induction Hall as [|e' before He _ IH].
    + cbn. rewrite Hfail. reflexivity.
    + cbn [app I3ExtractorCollection.set_files map]. rewrite He, IH.
      reflexivity.
Qed.

Lemma collection_set_files_broadcast_witness :
  I3ExtractorCollection.set_files
    (H := truth_member (H := Sample.externals) (fun _ => Ok tt))
    [ __init__ "truth" None; __init__ "other" None ] "/sim/a.i3" "/gcd.i3"
  = (Ok tt, [ set_files (__init__ "truth" None) "/sim/a.i3" "/gcd.i3";
              set_files (__init__ "other" None) "/sim/a.i3" "/gcd.i3" ]).
Proof.
  apply (proj1 (collection_set_files_broadcast
                  (H := truth_member (H := Sample.externals)
                          (fun _ => Ok tt))
                  "/sim/a.i3" "/gcd.i3")).
  repeat constructor.
Defined.

(** ** File discovery *)

Lemma ascii_lower_idem (c : ascii) : ascii_lower (ascii_lower c) = ascii_lower c.
Proof.
  destruct c as [[] [] [] [] [] [] [] []]; vm_compute; reflexivity.
Qed.

Lemma lower_idem (s : string) : lower (lower s) = lower s.
Proof.
  induction s as [|c s IH]; [reflexivity|].
  change (String (ascii_lower (ascii_lower c)) (lower (lower s))
          = String (ascii_lower c) (lower s)).
  rewrite ascii_lower_idem, IH. reflexivity.
Qed.

Lemma ends_with_refl (word : string) : ends_with word word = true.
Proof. destruct word; cbn [ends_with]; rewrite String.eqb_refl; reflexivity. Qed.

(** A string ends with a word exactly when it is a beginning followed by the
    word. *)
Lemma ends_with_iff (word s : string) :
  ends_with word s = true <-> exists stem, s = stem ++ word.
Proof.
  split.
  - induction s as [|c s IH]; cbn [ends_with]; intros He.
    + rewrite orb_false_r in He. apply String.eqb_eq in He. subst word.
      exists "". reflexivity.
    + apply orb_prop in He as [He|He].
      * apply String.eqb_eq in He. subst word. exists "". reflexivity.
      * destruct (IH He) as [stem ->]. exists (String c stem). reflexivity.
  - intros [stem ->]. induction stem as [|c stem IH].
    + apply ends_with_refl.
    + change (ends_with word (String c (stem ++ word)) = true).
      cbn [ends_with]. rewrite IH. apply orb_true_r.
Qed.

Lemma is_gcd_file_lower (filename : string) :
  is_gcd_file (lower filename) = is_gcd_file filename.
Proof. unfold is_gcd_file. rewrite lower_idem. reflexivity. Qed.

(** X22: a name is an I3 file exactly when it holds neither "gcd" nor "geo"
    in any letter case and ends with "bz2", "zst" or "gz", or with one of
    them and a line feed; no dot is asked for before the extension.  So no
    name is both an I3 file and a GCD file. *)
Theorem is_i3_file_iff (filename : string) :
  is_i3_file filename = true
  <-> is_gcd_file filename = false
      /\ exists stem extension,
           extension ∈ ["bz2"; "zst"; "gz"]
           /\ (filename = stem ++ extension
               \/ filename = stem ++ extension ++ LF).
Proof.
  unfold is_i3_file. rewrite is_gcd_file_lower.
  destruct (is_gcd_file filename).
  { split; [discriminate|intros [Hg _]; discriminate Hg]. }
  unfold has_extension. cbn [existsb]. rewrite orb_false_r.
  split.
  - intros Hext. split; [reflexivity|].
    destruct (ends_with "bz2" filename || ends_with ("bz2" ++ LF) filename)
      eqn:H1;
      [|destruct (ends_with "zst" filename
                  || ends_with ("zst" ++ LF) filename) eqn:H2;
        [|destruct (ends_with "gz" filename
                    || ends_with ("gz" ++ LF) filename) eqn:H3;
          [|discriminate Hext]]].
    + apply orb_prop in H1 as [He|He]; apply ends_with_iff in He as [stem ->];
        exists stem, "bz2"; (split; [mem|]); [left|right]; reflexivity.
    + apply orb_prop in H2 as [He|He]; apply ends_with_iff in He as [stem ->];
        exists stem, "zst"; (split; [mem|]); [left|right]; reflexivity.
    + apply orb_prop in H3 as [He|He]; apply ends_with_iff in He as [stem ->];
        exists stem, "gz"; (split; [mem|]); [left|right]; reflexivity.
  - intros [_ (stem & extension & Hin & Hname)].
    assert (Hends : ends_with extension filename
                    || ends_with (extension ++ LF) filename = true).
    { destruct Hname as [-> | ->].
      - rewrite (proj2 (ends_with_iff extension (stem ++ extension)));
          [reflexivity|eauto].
      - rewrite (proj2 (ends_with_iff (extension ++ LF)
                          (stem ++ extension ++ LF))); [|eauto].
        apply orb_true_r. }
    repeat (apply elem_of_cons in Hin as [->|Hin];
            [rewrite Hends; rewrite ?orb_true_r; reflexivity|]).
    inversion Hin.
Qed.

Lemma is_i3_file_iff_witness : is_i3_file "/data/run1_i3gz" = true.
Proof.
  apply is_i3_file_iff. split; [vm_compute; reflexivity|].
  exists "/data/run1_i3", "gz". split; [mem|left; reflexivity].
Defined.

(** X23: "gcd" or "geo", in any letter case and anywhere in the path, also
    in the name of a directory, makes the path a GCD file and never an I3
    file. *)
Theorem gcd_word_anywhere (before word after : string) :
  lower word = "gcd" \/ lower word = "geo" ->
  is_gcd_file (before ++ word ++ after) = true
  /\ is_i3_file (before ++ word ++ after) = false.
Proof.
  intros Hword.
  assert (Hgcd : is_gcd_file (before ++ word ++ after) = true).
  { unfold is_gcd_file. rewrite !lower_app.
    destruct Hword as [-> | ->]; rewrite str_in_app;
      [reflexivity|apply orb_true_r]. }
  split; [exact Hgcd|].
  unfold is_i3_file. rewrite is_gcd_file_lower, Hgcd. reflexivity.
Qed.

Lemma gcd_word_anywhere_witness :
  is_i3_file ("/data/" ++ "Geo" ++ "metry_tests/run1.i3.gz") = false.
Proof.
  apply (gcd_word_anywhere "/data/" "Geo" "metry_tests/run1.i3.gz").
  right. reflexivity.
Defined.

(** X24: [has_extension] asks for no dot: with extensions of letters and
    digits, a name that ends with one of the extensions has it, whatever
    stands before; and with an empty list of extensions every name has an
    extension. *)
Theorem has_extension_suffix (filename : string) :
  has_extension filename [] = true
  /\ (forall (stem extension : string) (extensions : list string),
        Forall (fun word => plain_word word = true) extensions ->
        extension ∈ extensions ->
        has_extension (stem ++ extension) extensions = true).
Proof.
  split; [reflexivity|].
  intros stem extension extensions _ Hin. unfold has_extension.
  destruct extensions as [|first rest]; [reflexivity|].
  apply existsb_exists. exists extension. split.
  - apply list_elem_of_In. exact Hin.
  - rewrite (proj2 (ends_with_iff extension (stem ++ extension)));
      [reflexivity|eauto].
Qed.

Lemma has_extension_suffix_witness :
  has_extension ("notes-" ++ "gz") ["bz2"; "zst"; "gz"] = true.
Proof.
  apply (proj2 (has_extension_suffix "") "notes-" "gz");
    [repeat constructor|mem].
Defined.

Section FindFilesProperties.

Context {fs : FileSystem}.

Lemma for_each_invariant {A S : Type} (I : S -> Prop)
    (body : S -> A -> result S) (items : list A) (state state' : S) :
  (forall s a s', a ∈ items -> I s -> body s a = Ok s' -> I s') ->
  I state -> for_each body items state = Ok state' -> I state'.
Proof.
  revert state. induction items as [|a items IH]; intros state Hbody Hinit Hrun.
  - cbn in Hrun. inversion Hrun; subst. exact Hinit.
  - cbn [for_each] in Hrun.
    destruct (body state a) as [s1|] eqn:Hstep; cbn [bind] in Hrun;
      [|discriminate].
    apply (IH s1).
    + intros s b s' Hb. apply Hbody. apply list_elem_of_further, Hb.
    + apply (Hbody state a s1); [apply list_elem_of_here|exact Hinit|exact Hstep].
    + exact Hrun.
Qed.

Lemma Forall2_replicate {A B : Type} (R : A -> B -> Prop) (l : list A) (b : B) :
  Forall (fun a => R a b) l ->
  Forall2 R l (concat (replicate (List.length l) [b])).
Proof.
  induction 1 as [|a l Ha _ IH]; [constructor|].
  cbn. constructor; [exact Ha|exact IH].
Qed.

Lemma add_folder_paired gcd_rescue i3_pattern lists folder lists' :
  i3_pattern ∈ ["*.bz2"; "*.zst"; "*.gz"] ->
  Forall2 (paired gcd_rescue) (fst lists) (snd lists) ->
  add_folder gcd_rescue i3_pattern lists folder = Ok lists' ->
  Forall2 (paired gcd_rescue) (fst lists') (snd lists').
Proof.
  intros Hpat Hinv. unfold add_folder. cbv zeta.
  set (files := glob_in folder i3_pattern).
  destruct (filter is_gcd_file files) as [|gcd [|gcd' more]] eqn:Hgcd;
    cbn [List.length Nat.leb Nat.eqb]; intros Hr; inversion Hr; subst lists';
    cbn [fst snd]; apply Forall2_app; try exact Hinv;
    apply Forall2_replicate; apply Forall_forall; intros i3 Hin;
    apply list_elem_of_filter in Hin as [Hi3 Hin];
    (split; [apply Is_true_true, Hi3|]);
    exists folder, i3_pattern; (split; [exact Hin|]); (split; [exact Hpat|]).
  - left. split; [exact Hgcd|reflexivity].
  - right. exact Hgcd.
Qed.

Lemma for_each_returns {A S : Type} (body : S -> A -> result S)
    (P : A -> Prop) (items : list A) (state : S) :
  (forall s a, (exists s', body s a = Ok s') <-> P a) ->
  (exists state', for_each body items state = Ok state') <-> Forall P items.
Proof.
  intros Hbody. revert state.
  induction items as [|a items IH]; intros state; cbn [for_each].
  - split; [constructor|eauto].
  - split.
    + intros [state' Hrun].
      destruct (body state a) as [s1|] eqn:Hstep; cbn [bind] in Hrun;
        [|discriminate].
      constructor; [apply (Hbody state a); eauto|].
      apply (IH s1). eauto.
    + intros Hall. inversion Hall as [|? ? Ha Hrest]; subst.
      apply (Hbody state a) in Ha as [s1 Hstep]. rewrite Hstep. cbn [bind].
      apply (IH s1), Hrest.
Qed.

Lemma for_each_raises {A S : Type} (body : S -> A -> result S)
    (items : list A) (state : S) (e : exn) :
  (forall s a e, body s a = Raise e -> e = AssertionError) ->
  for_each body items state = Raise e -> e = AssertionError.
Proof.
  intros Hbody. revert state.
  induction items as [|a items IH]; intros state; cbn [for_each];
    [discriminate|].
  destruct (body state a) as [s1|e1] eqn:Hstep; cbn [bind].
  - apply IH.
  - intros He. inversion He; subst. apply (Hbody _ _ _ Hstep).
Qed.

Lemma add_folder_returns gcd_rescue i3_pattern lists folder :
  (exists lists', add_folder gcd_rescue i3_pattern lists folder = Ok lists')
  <-> one_gcd_file (folder, i3_pattern).
Proof.
  unfold add_folder, one_gcd_file. cbv zeta. cbn [fst snd].
  destruct (Nat.leb_spec
              (List.length (filter is_gcd_file (glob_in folder i3_pattern))) 1)
    as [Hle|Hgt].
  - split; [intros _; exact Hle|eauto].
  - split; [intros [? Hr]; discriminate Hr|lia].
Qed.

Lemma add_folder_raises gcd_rescue i3_pattern lists folder e :
  add_folder gcd_rescue i3_pattern lists folder = Raise e ->
  e = AssertionError.
Proof.
  unfold add_folder. cbv zeta.
  destruct (_ <=? 1)%nat; intros Hr; inversion Hr; reflexivity.
Qed.

End FindFilesProperties.

(** X25: when [find_i3_files] returns, its two lists pair up: they have the
    same length, and at each place stand an I3 file and the GCD file listed
    with it, the one GCD file of the same folder and pattern, or the rescue
    file when that folder lists no GCD file under that pattern. *)
Theorem find_i3_files_pairs `{FileSystem} (directories : string + list string)
    (gcd_rescue : string) (i3_files gcd_files : list string) :
  find_i3_files directories gcd_rescue = Ok (i3_files, gcd_files) ->
  List.length i3_files = List.length gcd_files
  /\ Forall2 (paired gcd_rescue) i3_files gcd_files.
Proof.
  intros Hfind.
  assert (Hpairs : Forall2 (paired gcd_rescue) i3_files gcd_files).
  { unfold find_i3_files in Hfind.
    apply (for_each_invariant
             (fun lists => Forall2 (paired gcd_rescue) (fst lists) (snd lists))
             _ _ _ _) in Hfind; [exact Hfind| |constructor].
    intros lists directory lists' _ Hinv Hdir. unfold add_directory in Hdir.
    apply (for_each_invariant
             (fun lists => Forall2 (paired gcd_rescue) (fst lists) (snd lists))
             _ _ _ _) in Hdir; [exact Hdir| |exact Hinv].
    intros lists1 i3_pattern lists1' Hpat Hinv1 Hp. unfold add_pattern in Hp.
    apply (for_each_invariant
             (fun lists => Forall2 (paired gcd_rescue) (fst lists) (snd lists))
             _ _ _ _) in Hp; [exact Hp| |exact Hinv1].
    intros lists2 folder lists2' _ Hinv2 Hf.
    apply (add_folder_paired _ _ _ _ _ Hpat Hinv2 Hf). }
  split; [|exact Hpairs].
  apply (Forall2_length _ _ _ Hpairs).
Qed.

Lemma find_i3_files_pairs_witness :
  exists i3_files gcd_files,
    find_i3_files (fs := SampleFiles.file_system) (inl "/data")
                  "/rescue/GCD.i3.gz" = Ok (i3_files, gcd_files)
    /\ i3_files = [ "/data/a/run1.i3.gz"; "/data/b/run2.i3.gz";
                    "/data/b/run3.i3.gz" ]
    /\ gcd_files = [ "/data/a/GeoCalib.i3.gz"; "/rescue/GCD.i3.gz";
                     "/rescue/GCD.i3.gz" ]
    /\ List.length i3_files = List.length gcd_files.
Proof.
  eexists. eexists. split; [vm_compute; reflexivity|].
  split; [reflexivity|]. split; [reflexivity|].
  apply (find_i3_files_pairs (H := SampleFiles.file_system) (inl "/data")
           "/rescue/GCD.i3.gz").
  vm_compute. reflexivity.
Defined.

(** X26: [find_i3_files] returns exactly when every folder it lists holds
    at most one GCD file under the pattern it is listed with; otherwise it
    fails the assertion, the only exception it raises of its own.  One
    directory given as a string is the list of that directory. *)
Theorem find_i3_files_returns_iff `{FileSystem} (directories : list string)
    (gcd_rescue : string) :
  ((exists lists, find_i3_files (inr directories) gcd_rescue = Ok lists)
   <-> Forall one_gcd_file (visited directories))
  /\ (forall e,
        find_i3_files (inr directories) gcd_rescue = Raise e ->
        e = AssertionError)
  /\ (forall directory,
        find_i3_files (inl directory) gcd_rescue
        = find_i3_files (inr [directory]) gcd_rescue).
Proof.
  split; [|split; [|reflexivity]].
  - unfold find_i3_files, visited. rewrite Forall_bind.
    apply for_each_returns. intros lists directory.
    unfold compose. unfold add_directory. rewrite Forall_bind.
    apply for_each_returns. intros lists1 i3_pattern.
    unfold compose. unfold add_pattern. rewrite Forall_bind.
    rewrite (for_each_returns _ (fun folder => one_gcd_file (folder, i3_pattern))).
    + apply Forall_proper; [|reflexivity].
      intros folder. unfold compose. cbv beta. rewrite Forall_singleton.
      reflexivity.
    + intros lists2 folder. apply add_folder_returns.
  - intros e. unfold find_i3_files. apply for_each_raises.
    intros lists directory e1. unfold add_directory. apply for_each_raises.
    intros lists1 i3_pattern e2. unfold add_pattern. apply for_each_raises.
    intros lists2 folder e3. apply add_folder_raises.
Qed.

Lemma find_i3_files_returns_iff_witness :
  exists lists,
    find_i3_files (fs := SampleFiles.file_system) (inr ["/data"])
                  "/rescue/GCD.i3.gz" = Ok lists.
Proof.
  apply (proj1 (find_i3_files_returns_iff (H := SampleFiles.file_system)
                  ["/data"] "/rescue/GCD.i3.gz")).
  vm_compute. repeat constructor.
Defined.

(** ** The padding value, field by field *)

Lemma dict_get_set_flag_other (output : dict) (name : string)
    (entry : option bool) (k : string) :
  String.eqb k name = false ->
  dict_get (set_flag output name entry) k = dict_get output k.
Proof. intros Hk. rewrite dict_get_set_flag, Hk. destruct entry; reflexivity. Qed.

Lemma dict_get_absent (d : dict) (k : string) :
  among k (keys d) = false -> dict_get d k = None.
Proof.
  induction d as [|[k' v] d IH]; [reflexivity|].
  cbn. intros Hk. apply orb_false_elim in Hk as [Hk Hd].
  rewrite Hk. apply IH, Hd.
Qed.

(** The fields of a given list, one by one. *)
Ltac each_field Hk tac :=
  cbn [among existsb schema flag_fields mc_fields header_fields] in Hk;
  repeat (apply orb_prop in Hk as [Hk|Hk];
          [apply String.eqb_eq in Hk; rewrite Hk; clear Hk; tac|]);
  try match goal with H : false = true |- _ => discriminate H end.

(** Tests of a given field name are computed. *)
Ltac eval_among :=
  cbn [among existsb schema flag_fields mc_fields header_fields];
  eval_eqb; cbn [orb andb negb]; cbv iota.

(** The value of a given field after the filter flags. *)
Ltac flags_lookup :=
  unfold filter_flags, flag_source; cbv zeta;
  repeat first [ rewrite dict_get_set_flag_other by (vm_compute; reflexivity)
               | rewrite dict_get_set_flag
               | match goal with
                 | |- context [I3Frame.FilterMask ?frame] =>
                     destruct (I3Frame.FilterMask frame)
                 end ];
  cbn [initial_output dict_get]; eval_eqb.

Ltac options :=
  repeat match goal with
         | |- context [match ?x with Some _ => _ | None => _ end] =>
             destruct x
         end.

Ltac settle :=
  first [ reflexivity
        | intros _; discriminate
        | intros ->; discriminate
        | congruence ].

Section Fields.

Context {ext : Externals}.

Lemma defaulted_in_schema self frame k :
  defaulted self frame k = true -> among k schema = true.
Proof.
  unfold defaulted.
  destruct (I3Frame.I3EventHeader frame); [|discriminate].
  assert (Hsub : among k flag_fields || among k mc_fields = true ->
                 among k schema = true).
  { intros Hk. apply orb_prop in Hk as [Hk|Hk];
      each_field Hk ltac:(vm_compute; reflexivity). }
  destruct (negb _); [exact Hsub|].
  destruct (among k flag_fields) eqn:Hf; [intros _; apply Hsub; reflexivity|].
  destruct (among k mc_fields) eqn:Hm; [intros _; apply Hsub; reflexivity|].
  discriminate.
Qed.

Lemma field_other_stream frame header sim_type p k self :
  I3Frame.I3EventHeader frame = Some header ->
  I3EventHeader.sub_event_stream header <> "InIceSplit" ->
  among k schema = true ->
  if defaulted self frame k
  then dict_get (initial_output header sim_type p) k = Some p
  else p = PyNone ->
       dict_get (initial_output header sim_type p) k <> Some PyNone.
Proof.
  intros Hh Hstream Hk. unfold defaulted. rewrite Hh.
  apply String.eqb_neq in Hstream. rewrite Hstream. cbn [negb].
  each_field Hk ltac:(eval_among; cbn [initial_output dict_get]; eval_eqb; settle).
Qed.

Lemma field_without_truth frame header sim_type p k self :
  I3Frame.I3EventHeader frame = Some header ->
  I3EventHeader.sub_event_stream header = "InIceSplit" ->
  frame_is_montecarlo frame && negb (frame_is_noise frame) = false ->
  among k schema = true ->
  if defaulted self frame k
  then dict_get (filter_flags frame (initial_output header sim_type p)) k
       = Some p
  else p = PyNone ->
       dict_get (filter_flags frame (initial_output header sim_type p)) k
       <> Some PyNone.
Proof.
  intros Hh Hstream Hmc Hk. unfold defaulted. rewrite Hh, Hstream, Hmc.
  each_field Hk ltac:(eval_among; flags_lookup; options; settle).
Qed.

(** What the two helpers return is never [None]. *)
Lemma helper_values frame sim_type primary it el et inel :
  _get_primary_particle_interaction_type_and_elasticity
    frame sim_type (PyInt (-1)) = Ok (primary, it, el) ->
  _get_primary_track_energy_and_inelasticity frame = Ok (et, inel) ->
  it <> PyNone /\ el <> PyNone /\ et <> PyNone /\ inel <> PyNone.
Proof.
  unfold _get_primary_particle_interaction_type_and_elasticity,
    _get_primary_track_energy_and_inelasticity.
  rewrite !optional_value_ok.
  destruct (if negb (String.eqb sim_type "noise") then _ else _) as [m|];
    cbn [bind]; [|discriminate].
  intros Hp. injection Hp as _ <- <-.
  destruct (getitem (I3Frame.I3MCTree frame)) as [tree|]; cbn [bind];
    [|discriminate].
  destruct (index (I3MCTree.primaries tree) 0) as [first|]; cbn [bind];
    [|discriminate].
  cbv zeta.
  match goal with
  | |- context [as_float (py_sum ?l)] => destruct l
  end; cbn [py_sum as_float bind]; unfold truediv;
    destruct (PrimFloat.eqb _ 0); cbn [bind]; try discriminate;
    intros Ht; injection Ht as <- <-;
    repeat split; try discriminate;
    options; discriminate.
Qed.

Lemma Ok_inj {A : Type} (a b : A) : Ok a = Ok b -> a = b.
Proof. intros Hab. injection Hab as ->. reflexivity. Qed.

Lemma field_with_truth self frame header sim_type p o k :
  I3Frame.I3EventHeader frame = Some header ->
  _find_data_type (frame_is_montecarlo frame) (_i3_file self) = Ok sim_type ->
  I3EventHeader.sub_event_stream header = "InIceSplit" ->
  frame_is_montecarlo frame && negb (frame_is_noise frame) = true ->
  fst (mc_truth self frame sim_type p
         (filter_flags frame (initial_output header sim_type p))) = Ok o ->
  among k schema = true ->
  if defaulted self frame k
  then dict_get o k = Some p
  else p = PyNone -> dict_get o k <> Some PyNone.
Proof.
  intros Hh Hs Hstream Hmc Ho Hk.
  apply mc_truth_inv in Ho
    as (primary & it & el & et & inel & dl & Hp & Ht & Hdl & Hm).
  rewrite muon_update_truth_fields in Hm. apply Ok_inj in Hm. subst o.
  destruct (track_energy_needs_tree _ _ Ht) as [tree Htree].
  pose proof (decay_length_value frame tree p Htree) as Hvalue.
  rewrite Hdl in Hvalue. apply Ok_inj in Hvalue.
  destruct (helper_values _ _ _ _ _ _ _ Hp Ht) as (Hit & Hel & Het & Hinel).
  unfold defaulted, muon_primary, no_decay_length.
  rewrite Hh, Hstream, Hmc, Hs, Hp, Htree.
  destruct (Z.abs (I3Particle.pdg_encoding primary) =? 13);
    destruct (found_decay_length tree) as [d|];
    cbn in Hvalue; subst dl;
    each_field Hk ltac:(eval_among; lookup; flags_lookup; options; settle).
Qed.

(** A field of a returned output holds the padding value when it is
    defaulted, and otherwise a value that is not the padding value [None]
    of that call. *)
Lemma call_field self frame p o k :
  fst (__call__ self frame p) = Ok o ->
  among k schema = true ->
  if defaulted self frame k
  then dict_get o k = Some p
  else p = PyNone -> dict_get o k <> Some PyNone.
Proof.
  intros Ho Hk.
  apply call_inv in Ho
    as (header & sim_type & Hh & Hs
        & [[Hstream ->]|[Hstream [[Hmc ->]|[Hmc Ho]]]]).
  - apply field_other_stream; assumption.
  - apply field_without_truth; assumption.
  - apply (field_with_truth self frame header sim_type p o k); assumption.
Qed.

End Fields.

(** C7: the defaulted fields of a frame are the fields whose source is
    absent from the frame or does not apply to it, as [defaulted] spells
    out.  For any two padding values p and q, the two calls raise the same
    exception or return outputs with the keys of the schema in which every
    defaulted field holds p in the one and q in the other and every other
    field holds the same value in both.  In the Monte-Carlo branch
    interaction_type and elasticity are not defaulted fields: they are the
    same in both outputs, and hold -1 when their source maps are absent. *)
Theorem padding_value_parametric `{Externals} (self : I3TruthExtractor)
    (frame : I3Frame.t) :
  (forall p q : pyval,
      match fst (__call__ self frame p), fst (__call__ self frame q) with
      | Ok o1, Ok o2 =>
          keys o1 = schema /\ keys o2 = schema
          /\ forall k : string,
               if defaulted self frame k
               then dict_get o1 k = Some p /\ dict_get o2 k = Some q
               else dict_get o1 k = dict_get o2 k
      | Raise e1, Raise e2 => e1 = e2
      | _, _ => False
      end)
  /\ (forall header : I3EventHeader.t,
        I3Frame.I3EventHeader frame = Some header ->
        I3EventHeader.sub_event_stream header = "InIceSplit" ->
        frame_is_montecarlo frame = true ->
        frame_is_noise frame = false ->
        defaulted self frame "interaction_type" = false
        /\ defaulted self frame "elasticity" = false
        /\ forall (p : pyval) (o : dict),
             fst (__call__ self frame p) = Ok o ->
             (I3Frame.I3MCWeightDict frame = None ->
              dict_get o "interaction_type" = Some (PyInt (-1)))
             /\ (I3Frame.I3GENIEResultDict frame = None ->
                 dict_get o "elasticity" = Some (PyInt (-1)))).
Proof.
  split.
  - intros p q.
    destruct (call_fill self frame) as [[e He]|[T HT]];
      [rewrite !He; reflexivity|].
    rewrite !HT.
    assert (Hkeys : forall r, keys (fill T r) = schema).
    { intros r. apply (call_keys self frame r). apply HT. }
    split; [apply Hkeys|]. split; [apply Hkeys|].
    intros k. destruct (among k schema) eqn:Hk.
    + pose proof (call_field self frame p _ k (HT p) Hk) as Hp.
      pose proof (call_field self frame q _ k (HT q) Hk) as Hq.
      pose proof (call_field self frame PyNone _ k (HT PyNone) Hk) as Hnone.
      destruct (defaulted self frame k); [split; assumption|].
      apply computed_get.
      destruct (padded T k) eqn:Hpadded; [|reflexivity].
      exfalso. apply (Hnone eq_refl). apply padded_get, Hpadded.
    + destruct (defaulted self frame k) eqn:Hd.
      { apply defaulted_in_schema in Hd. rewrite Hd in Hk. discriminate Hk. }
      rewrite !dict_get_absent; [reflexivity| |]; rewrite Hkeys; exact Hk.
  - intros header Hh Hs Hmc Hn.
    split; [|split].
    + unfold defaulted. rewrite Hh, Hs, Hmc, Hn. reflexivity.
    + unfold defaulted. rewrite Hh, Hs, Hmc, Hn. reflexivity.
    + destruct (mc_interaction_type self frame header Hh Hs Hmc Hn)
        as (it & el & Hit & Hel & Hget).
      intros p o Ho. destruct (Hget p o Ho) as [Hi He].
      split; intros Hnone.
      * rewrite Hi, (Hit Hnone). reflexivity.
      * rewrite He, (Hel Hnone). reflexivity.
Qed.

(** On the sample frame with the double cascade, extracted with 0 and with 5:
    the track length, a defaulted field, holds 0 and 5; the interaction
    type holds -1 in both outputs. *)
Lemma padding_value_parametric_witness :
  exists o1 o2 : dict,
    fst (__call__ (ext := Sample.externals) (Sample.extractor "/sim/genie/f.i3")
                  Sample.dbang_frame (PyInt 0)) = Ok o1
    /\ fst (__call__ (ext := Sample.externals)
                     (Sample.extractor "/sim/genie/f.i3")
                     Sample.dbang_frame (PyInt 5)) = Ok o2
    /\ dict_get o1 "track_length" = Some (PyInt 0)
    /\ dict_get o2 "track_length" = Some (PyInt 5)
    /\ dict_get o1 "interaction_type" = dict_get o2 "interaction_type"
    /\ dict_get o1 "interaction_type" = Some (PyInt (-1)).
Proof.
  pose proof (proj1 (padding_value_parametric (H := Sample.externals)
                       (Sample.extractor "/sim/genie/f.i3")
                       Sample.dbang_frame) (PyInt 0) (PyInt 5)) as Hpq.
  destruct (fst (__call__ (ext := Sample.externals)
                   (Sample.extractor "/sim/genie/f.i3")
                   Sample.dbang_frame (PyInt 0))) as [o1|e1] eqn:H1;
    [|vm_compute in H1; discriminate H1].
  destruct (fst (__call__ (ext := Sample.externals)
                   (Sample.extractor "/sim/genie/f.i3")
                   Sample.dbang_frame (PyInt 5))) as [o2|e2] eqn:H2;
    [|vm_compute in H2; discriminate H2].
  destruct Hpq as (_ & _ & Hfields).
  exists o1, o2. split; [reflexivity|]. split; [reflexivity|].
  pose proof (Hfields "track_length") as Hlength.
  pose proof (Hfields "interaction_type") as Htype.
  vm_compute (defaulted _ _ _) in Hlength.
  vm_compute (defaulted _ _ _) in Htype.
  destruct Hlength as [Hl1 Hl2].
  split; [exact Hl1|]. split; [exact Hl2|]. split; [exact Htype|].
  apply Ok_inj in H1. subst o1. vm_compute. reflexivity.
Defined.


